(** * zmr-discord-notify: a Rocq model of the notification bot

    The development embeds the two Python modules of the server,
    [webapp.py] (HTTP ingress) and [client.py] (Discord client, role
    commands, token store), as executable Rocq definitions and proves
    the properties of the specification about them.

    Conventions of the embedding:
    - a Python [str] is a Rocq [string]; one [ascii] stands for one code
      point (the model covers code points below 256);
    - a Python [dict] is a [gmap], a role collection is a [gset];
    - a coroutine is a function in the state-and-exception monad [M]:
      the state survives a raised exception, as in Python;
    - calls into discord.py and aiohttp are answered by the environment
      part of the state (an oracle for platform calls, a record of
      outcomes for the listener set-up). *)

From Stdlib Require Import ZArith QArith Ascii String.
From stdpp Require Import base option list gmap strings pretty.

Open Scope string_scope.
Open Scope Z_scope.
Open Scope list_scope.

(** ** Python exceptions and the coroutine monad *)

(** The exception classes that the two modules raise or catch.
    [CancelledError] is the one class here that derives from
    [BaseException] only: [except Exception] lets it through, a bare
    [except:] catches it. *)
Inductive exn : Type :=
| DiscordException (msg : string)
| AssertionError (msg : string)
| UnboundLocalError (var : string)
| AttributeError (msg : string)
| KeyError (key : string)
| TypeError (msg : string)
| ValueError (msg : string)
| OverflowError (msg : string)
| OSError (msg : string)
| CancelledError.

(** [isinstance(e, Exception)] *)
Definition is_Exception (e : exn) : bool :=
  match e with
  | CancelledError => false
  | _ => true
  end.

(** [isinstance(e, discord.DiscordException)] *)
Definition is_DiscordException (e : exn) : bool :=
  match e with
  | DiscordException _ => true
  | _ => false
  end.

(** [str(e)], as the log lines print it with [%s]. *)
Definition exn_str (e : exn) : string :=
  match e with
  | DiscordException m | AssertionError m | AttributeError m
  | TypeError m | ValueError m | OverflowError m | OSError m => m
  | UnboundLocalError v =>
      "cannot access local variable '" +:+ v
        +:+ "' where it is not associated with a value"
  | KeyError k => "'" +:+ k +:+ "'"
  | CancelledError => ""
  end.

Inductive result (A : Type) : Type :=
| Ok (a : A)
| Raise (e : exn).
Arguments Ok {A} a.
Arguments Raise {A} e.

(** A computation over a state [S]: it returns or raises, and in both
    cases leaves a state behind. *)
Definition M (S A : Type) : Type := S -> result A * S.

Definition ret {S A} (a : A) : M S A := fun s => (Ok a, s).

Definition bind {S A B} (m : M S A) (k : A -> M S B) : M S B :=
  fun s =>
    match m s with
    | (Ok a, s') => k a s'
    | (Raise e, s') => (Raise e, s')
    end.

Definition raise {S A} (e : exn) : M S A := fun s => (Raise e, s).

Definition get {S} : M S S := fun s => (Ok s, s).

Definition modify {S} (f : S -> S) : M S unit := fun s => (Ok tt, f s).

(** [try: m  except C as e: h e] where [C] is the class test [cls]. *)
Definition try_except {S A} (m : M S A) (cls : exn -> bool)
    (h : exn -> M S A) : M S A :=
  fun s =>
    match m s with
    | (Ok a, s') => (Ok a, s')
    | (Raise e, s') => if cls e then h e s' else (Raise e, s')
    end.

(** A bare [except:] clause catches every class. *)
Definition any_exn (e : exn) : bool := true.

(** [assert cond, msg] *)
Definition py_assert {S} (cond : bool) (msg : string) : M S unit :=
  if cond then ret tt else raise (AssertionError msg).

Declare Scope py_scope.
Delimit Scope py_scope with py.
Notation "x <- m ;; k" := (bind m (fun x => k))
  (at level 100, m at next level, right associativity) : py_scope.
Notation "m ;; k" := (bind m (fun _ => k))
  (at level 100, right associativity) : py_scope.
Open Scope py_scope.

(** Log records: the level and the formatted message. *)
Inductive level : Type := DEBUG | INFO | ERROR.
Definition log_record : Type := level * string.

(** ** Token store ([client._get_valid_tokens]) *)

Definition LF : ascii := ascii_of_nat 10.
Definition CR : ascii := ascii_of_nat 13.

(** Text-mode [open] translates ["\r\n"] and ["\r"] to ["\n"]. *)
Fixpoint translate_newlines (s : string) : string :=
  match s with
  | EmptyString => EmptyString
  | String c r =>
      if Ascii.eqb c CR then
        String LF
          match r with
          | String c2 r2 =>
              if Ascii.eqb c2 LF then translate_newlines r2
              else translate_newlines r
          | EmptyString => EmptyString
          end
      else String c (translate_newlines r)
  end.

(** [fp.readlines()]: the lines of the text, each with its ["\n"]; only
    the last line may lack one. *)
Fixpoint readlines (s : string) : list string :=
  match s with
  | EmptyString => []
  | String c r =>
      if Ascii.eqb c LF then String c EmptyString :: readlines r
      else
        match readlines r with
        | [] => [String c EmptyString]
        | l :: ls => String c l :: ls
        end
  end.

(** [c.isspace()] for the code points below 256. *)
Definition isspace (c : ascii) : bool :=
  let n := nat_of_ascii c in
  ((9 <=? n) && (n <=? 13) || (28 <=? n) && (n <=? 32)
   || (n =? 133) || (n =? 160))%nat.

Fixpoint lstrip (s : string) : string :=
  match s with
  | EmptyString => EmptyString
  | String c r => if isspace c then lstrip r else s
  end.

(** [rstrip], by recursion from the right end. *)
Fixpoint rstrip (s : string) : string :=
  match s with
  | EmptyString => EmptyString
  | String c r =>
      match rstrip r with
      | EmptyString => if isspace c then EmptyString else String c EmptyString
      | r' => String c r'
      end
  end.

(** [s.strip()] *)
Definition strip (s : string) : string := rstrip (lstrip s).

(** [s.index(c)]: [None] stands for the [ValueError] of a missing [c]. *)
Fixpoint str_index (c : ascii) (s : string) : option nat :=
  match s with
  | EmptyString => None
  | String d r =>
      if Ascii.eqb d c then Some O else S <$> str_index c r
  end.

(** [s[:n]] *)
Fixpoint slice_to (n : nat) (s : string) : string :=
  match n, s with
  | S n', String c r => String c (slice_to n' r)
  | _, _ => EmptyString
  end.

(** One iteration of the loop body of [_get_valid_tokens]: [None] when
    the body ends in [continue], [Some token] when it reaches
    [tokens.append(token)]. *)
Definition token_of_line (line : string) : option string :=
  let after_comment :=
    match str_index ";"%char line with
    | Some comment_index =>
        if Nat.eqb comment_index 0 then None
        else Some (slice_to comment_index line)
    | None => Some line
    end in
  match after_comment with
  | None => None
  | Some line' =>
      let token := strip line' in
      if Nat.eqb (String.length token) 0 then None else Some token
  end.

(** The [for line in lines] loop, with [tokens] as the accumulator. *)
Definition tokens_loop (lines : list string) (tokens : list string)
    : list string :=
  fold_left
    (fun (tokens : list string) (line : string) =>
       match token_of_line line with
       | Some token => tokens ++ [token]
       | None => tokens
       end)
    lines tokens.

(** [_get_valid_tokens], on the text of the opened file. *)
Definition _get_valid_tokens (file_text : string) : list string :=
  tokens_loop (readlines (translate_newlines file_text)) [].

(** The token file of the integration test [test_tokens]. *)
Definition test_tokens_file : string :=
  String LF "; Comment" +:+ String LF "token1" +:+ String LF "token2 ; inline"
  +:+ String LF " token3" +:+ String LF (String LF "").

(** ** JSON values and the builtins applied to them *)

(** A Python [float]: the finite ones are rationals. *)
Inductive pyfloat : Type :=
| FFinite (q : Q)
| FInf (negative : bool)
| FNan.

(** What [json.loads] returns. *)
#[warnings="-register-all"]
Inductive json : Type :=
| JNull
| JBool (b : bool)
| JInt (z : Z)
| JFloat (f : pyfloat)
| JStr (s : string)
| JArr (l : list json)
| JObj (d : gmap string json).

(** Library functions that the modules call and whose text is not part
    of the repository: the [repr] of floats, lists and dicts, the
    parsing of an integer literal by [int], and the two escaping
    functions of [discord.utils]. *)
Class Builtins : Type := {
  py_repr : json -> string;
  py_int_of_str : string -> option Z;
  escape_mentions : string -> string;
  escape_markdown : string -> string
}.

(** [str(v)] *)
Definition py_str `{Builtins} (v : json) : string :=
  match v with
  | JStr s => s
  | JInt z => pretty z
  | JBool true => "True"
  | JBool false => "False"
  | JNull => "None"
  | _ => py_repr v
  end.

(** [int(v)] *)
Definition py_int `{Builtins} (v : json) : result Z :=
  match v with
  | JInt z => Ok z
  | JBool b => Ok (if b then 1 else 0)
  | JFloat (FFinite q) => Ok (Z.quot (Qnum q) (Z.pos (Qden q)))
  | JFloat (FInf _) =>
      Raise (OverflowError "cannot convert float infinity to integer")
  | JFloat FNan => Raise (ValueError "cannot convert float NaN to integer")
  | JStr s =>
      match py_int_of_str s with
      | Some z => Ok z
      | None => Raise (ValueError "invalid literal for int() with base 10")
      end
  | _ =>
      Raise (TypeError
        "int() argument must be a string, a bytes-like object or a real number")
  end.

(** [data[key]] for a string [key] *)
Definition getitem (data : json) (key : string) : result json :=
  match data with
  | JObj d =>
      match d !! key with
      | Some v => Ok v
      | None => Raise (KeyError key)
      end
  | JArr _ => Raise (TypeError "list indices must be integers or slices, not str")
  | JStr _ => Raise (TypeError "string indices must be integers, not 'str'")
  | _ => Raise (TypeError "object is not subscriptable")
  end.

Definition rbind {A B} (r : result A) (k : A -> result B) : result B :=
  match r with
  | Ok a => k a
  | Raise e => Raise e
  end.

Notation "x <~ r ;; k" := (rbind r (fun x => k))
  (at level 100, r at next level, right associativity) : py_scope.

Definition lift_result {S A} (r : result A) : M S A := fun s => (r, s).

(** ** HTTP ingress ([webapp.py]) *)

(** The dataclass [NotifyPayload]. The field [ip] is annotated [str],
    but [construct] stores [data['join_ip']] as it is, so the field
    holds a JSON value. *)
Record NotifyPayload : Type := {
  token : string;
  hostname : string;
  ip : json;
  num_players : Z;
  max_players : Z;
  player_name : string
}.

(** [NotifyPayload.construct]; the keyword arguments are evaluated from
    left to right. *)
Definition construct `{Builtins} (data : json) : result NotifyPayload :=
  v_token <~ getitem data "token";;
  v_hostname <~ getitem data "hostname";;
  v_ip <~ getitem data "join_ip";;
  v_num <~ getitem data "num_players";;
  n_num <~ py_int v_num;;
  v_max <~ getitem data "max_players";;
  n_max <~ py_int v_max;;
  v_name <~ getitem data "player_name";;
  Ok {| token := py_str v_token;
        hostname := py_str v_hostname;
        ip := v_ip;
        num_players := n_num;
        max_players := n_max;
        player_name := py_str v_name |}.

(** An [aiohttp] request, as far as the handler reads it: the outcome
    of [await request.json()] and of [await request.text()]. *)
Record Request : Type := {
  req_json : result json;
  req_text : result string
}.

(** A [web.json_response]: the status and the JSON document sent. *)
Record Response : Type := {
  status : Z;
  body : json
}.

Record TCPSite : Type := {
  site_port : Z;
  site_ssl : bool;
  site_started : bool
}.

(** What the web application leaves behind: its log records and, as a
    ghost record, each call of [self.callback] with its outcome. *)
Inductive wevent : Type :=
| WLog (l : level) (msg : string)
| WCallback (data : NotifyPayload) (r : result bool).

Record NotifyWebApp : Type := {
  register_get : bool;
  _site : option TCPSite;
  wtrace : list wevent
}.

(** [NotifyWebApp.__init__] *)
Definition NotifyWebApp_init (register_get : bool) : NotifyWebApp :=
  {| register_get := register_get;
     _site := None;
     wtrace := if register_get then [WLog INFO "Added test GET handler."]
               else [] |}.

Definition wrecord (ev : wevent) (app : NotifyWebApp) : NotifyWebApp :=
  {| register_get := register_get app;
     _site := _site app;
     wtrace := wtrace app ++ [ev] |}.

Definition set_site (s : option TCPSite) (app : NotifyWebApp) : NotifyWebApp :=
  {| register_get := register_get app;
     _site := s;
     wtrace := wtrace app |}.

Section Handler.
Context `{Builtins} {W : Type}.

Definition wlog (l : level) (msg : string) : M (W * NotifyWebApp) unit :=
  modify (fun st => (st.1, wrecord (WLog l msg) st.2)).

(** [await self.callback(data)]: the callback runs on its own state. *)
Definition call_callback (callback : NotifyPayload -> M W bool)
    (data : NotifyPayload) : M (W * NotifyWebApp) bool :=
  fun st =>
    let (r, w') := callback data st.1 in
    (r, (w', wrecord (WCallback data r) st.2)).

(** [_send_response] *)
Definition _send_response (success : bool) : Response :=
  let status := if success then 200 else 400 in
  let data := JObj {[ "success" := JBool success ]} in
  {| status := status; body := data |}.

(** [NotifyWebApp._handle_webrequest] *)
Definition _handle_webrequest (callback : NotifyPayload -> M W bool)
    (request : Request) : M (W * NotifyWebApp) Response :=
  data <-
    try_except
      (d <- lift_result (req_json request);;
       wlog DEBUG "Received valid JSON:";;
       wlog DEBUG (py_str d);;
       data <- lift_result (construct d);;
       ret (Some data))
      is_Exception
      (fun e =>
         wlog ERROR
           ("Error occurred when parsing json from request: " +:+ exn_str e);;
         try_except
           (body <- lift_result (req_text request);;
            wlog ERROR ("Body: " +:+ body))
           any_exn
           (fun _ => ret tt);;
         ret None);;
  match data with
  | None => ret (_send_response false)
  | Some data =>
      success <-
        try_except
          (call_callback callback data)
          any_exn
          (fun _ => wlog ERROR "Failed to process request?";; ret false);;
      ret (_send_response success)
  end.

(** [NotifyWebApp._handle_webrequest_test_get] *)
Definition _handle_webrequest_test_get : M (W * NotifyWebApp) Response :=
  wlog INFO "Received test GET request!";;
  ret {| status := 200; body := JObj {[ "message" := JStr "Hello!" ]} |}.
End Handler.

(** The outcomes of the four calls into [aiohttp] made while the
    listener is set up; [None] is a normal return. *)
Record ListenerEnv : Type := {
  app_runner_new : option exn;
  runner_setup : option exn;
  tcp_site_new : option exn;
  site_start : option exn
}.

Definition external {S} (outcome : option exn) : M S unit :=
  match outcome with
  | None => ret tt
  | Some e => raise e
  end.

(** [try: m  except C as e: h e  else: els] *)
Definition try_except_else {S} (m : M S unit) (cls : exn -> bool)
    (h : exn -> M S unit) (els : M S unit) : M S unit :=
  fun s =>
    match m s with
    | (Ok _, s') => els s'
    | (Raise e, s') => if cls e then h e s' else (Raise e, s')
    end.

(** [NotifyWebApp._init_webapp] *)
Definition _init_webapp (env : ListenerEnv) (port : Z) (ssl_context : bool)
    : M NotifyWebApp unit :=
  try_except_else
    (modify (wrecord (WLog INFO "Initializing HTTP server..."));;
     external (app_runner_new env);;
     external (runner_setup env);;
     external (tcp_site_new env);;
     modify (set_site (Some {| site_port := port; site_ssl := ssl_context;
                               site_started := false |}));;
     external (site_start env);;
     modify (set_site (Some {| site_port := port; site_ssl := ssl_context;
                               site_started := true |})))
    is_Exception
    (fun e =>
       modify (wrecord (WLog ERROR
         ("Error initializing web server: " +:+ exn_str e))))
    (modify (wrecord (WLog INFO
       ("Started HTTP server on port " +:+ pretty port +:+ ".")))).

(** [NotifyWebApp.start] *)
Definition start (env : ListenerEnv) (port : Z) (ssl_context : bool)
    : M NotifyWebApp unit :=
  _init_webapp env port ssl_context.

(** [NotifyWebApp.stop]: [self._site.stop()] on the stored handle. *)
Definition stop : M NotifyWebApp unit :=
  app <- get;;
  match _site app with
  | None => raise (AttributeError "'NoneType' object has no attribute 'stop'")
  | Some s =>
      modify (set_site (Some {| site_port := site_port s;
                                site_ssl := site_ssl s;
                                site_started := false |}))
  end.

(** ** The Discord side ([client.py]) *)

(** The dataclass [NotifyConfig]; an absent [cert] or [key] option is
    the empty string. *)
Record NotifyConfig : Type := {
  discord_token : string;
  ping_role : Z;
  channel_id : Z;
  port : Z;
  cert_path : string;
  key_path : string;
  test_get : bool;
  test_post : bool
}.

(** The channel classes of discord.py that the bot tells apart. *)
Inductive Channel : Type :=
| TextChannel (id guild : Z)
| DMChannel (id : Z)
| OtherChannel (id : Z).

Definition chan_id (c : Channel) : Z :=
  match c with
  | TextChannel id _ | DMChannel id | OtherChannel id => id
  end.

(** [isinstance(c, discord.DMChannel)] *)
Definition is_DMChannel (c : Channel) : bool :=
  match c with
  | DMChannel _ => true
  | _ => false
  end.

Record Role : Type := {
  role_id : Z;
  role_name : string
}.

Record Member : Type := {
  member_id : Z;
  member_guild : Z;
  display_name : string
}.

Record ClientUser : Type := {
  user_id : Z;
  user_name : string
}.

Record Embed : Type := {
  title : string;
  description : string;
  color : Z
}.

Record Message : Type := {
  content : string;
  author : Z;
  channel : Channel
}.

(** [role.mention] and [member.mention] *)
Definition role_mention (r : Role) : string := "<@&" +:+ pretty (role_id r) +:+ ">".
Definition member_mention (m : Member) : string :=
  "<@" +:+ pretty (member_id m) +:+ ">".

(** What the platform knows of a guild member. *)
Record MemberState : Type := {
  ms_display_name : string;
  ms_roles : gset Z
}.

(** The state held by the chat platform: the channels the client can
    see, the roles of each guild and the members of each guild with
    the roles they hold. Roles and members are keyed by guild and id. *)
Record Platform : Type := {
  channels : gmap Z Channel;
  guild_roles : gmap (Z * Z) Role;
  guild_members : gmap (Z * Z) MemberState
}.

(** The awaited calls into the platform. *)
Inductive pcall : Type :=
| Send (channel : Z) (content : string) (embed : option Embed)
| AddRoles (guild user role : Z) (reason : string)
| RemoveRoles (guild user role : Z) (reason : string).

(** The instance state of [NotifyClient]. [ready] is what
    [is_ready()] answers and [user] is [self.user]. *)
Record NotifyClient : Type := {
  _config : NotifyConfig;
  _init_done : bool;
  exitcode : Z;
  _my_channel : option Channel;
  _my_guild : option Z;
  _my_ping_role : option Role;
  _valid_tokens : list string;
  ready : bool;
  user : option ClientUser;
  closed : bool
}.

(** The state a handler of the client runs in. [platform] is the guild
    as the handler finds it in the client's cache when it starts, with
    the calls that the platform accepted since then carried out.
    [calls] lists the platform calls made so far with their outcome;
    [oracle k] is the outcome of call number [k] ([None]: the call
    succeeds). *)
Record World : Type := {
  client : NotifyClient;
  platform : Platform;
  calls : list (pcall * option exn);
  oracle : nat -> option exn;
  clog : list log_record
}.

Definition with_client (f : NotifyClient -> NotifyClient) (w : World) : World :=
  {| client := f (client w); platform := platform w; calls := calls w;
     oracle := oracle w; clog := clog w |}.

Definition log (l : level) (msg : string) : M World unit :=
  modify (fun w =>
    {| client := client w; platform := platform w; calls := calls w;
       oracle := oracle w; clog := clog w ++ [(l, msg)] |}).

(** The roles of a member in a state of the guild; on the state a
    handler starts in this is [member.roles]. *)
Definition member_roles (p : Platform) (m : Member) : gset Z :=
  match guild_members p !! (member_guild m, member_id m) with
  | Some ms => ms_roles ms
  | None => ∅
  end.

Definition update_roles (f : gset Z -> gset Z) (guild user : Z)
    (p : Platform) : Platform :=
  {| channels := channels p;
     guild_roles := guild_roles p;
     guild_members :=
       alter (fun ms => {| ms_display_name := ms_display_name ms;
                           ms_roles := f (ms_roles ms) |})
         (guild, user) (guild_members p) |}.

(** The effect of a call on the platform that accepts it: a granted
    role is held from then on, a revoked one no longer. This is the
    platform's own state. [add_roles] and [remove_roles] only send the
    request, so the member object that a later handler gets from the
    cache shows the change once the gateway event for it has arrived,
    and the old roles until then ([unrefreshed] below). *)
Definition apply_call (c : pcall) (p : Platform) : Platform :=
  match c with
  | Send _ _ _ => p
  | AddRoles guild user role _ => update_roles (fun rs => {[ role ]} ∪ rs) guild user p
  | RemoveRoles guild user role _ => update_roles (fun rs => rs ∖ {[ role ]}) guild user p
  end.

(** An awaited platform call: the oracle decides whether it raises; a
    call that raises leaves the platform as it was. *)
Definition platform_call (c : pcall) : M World unit :=
  fun w =>
    match oracle w (length (calls w)) with
    | Some e =>
        (Raise e,
         {| client := client w; platform := platform w;
            calls := calls w ++ [(c, Some e)];
            oracle := oracle w; clog := clog w |})
    | None =>
        (Ok tt,
         {| client := client w; platform := apply_call c (platform w);
            calls := calls w ++ [(c, None)];
            oracle := oracle w; clog := clog w |})
    end.

Definition dquote : string := String (ascii_of_nat 34) EmptyString.

(** [NotifyClient.__init__], on the text of [.tokens.txt]; it returns
    the client, its web application and the log records written. *)
Definition NotifyClient_init (config : NotifyConfig) (tokens_text : string)
    : result (NotifyClient * NotifyWebApp * list log_record) :=
  let valid_tokens := _get_valid_tokens tokens_text in
  match valid_tokens with
  | [] => Raise (AssertionError "You must insert tokens in .tokens.txt file!")
  | _ =>
      Ok ({| _config := config; _init_done := false; exitcode := 0;
             _my_channel := None; _my_guild := None; _my_ping_role := None;
             _valid_tokens := valid_tokens;
             ready := false; user := None; closed := false |},
          NotifyWebApp_init (test_get config),
          (INFO, "Loaded " +:+ pretty (length valid_tokens) +:+ " tokens.")
            :: map (fun t => (DEBUG, dquote +:+ t +:+ dquote)) valid_tokens)
  end.

(** [Client.close()] *)
Definition close : M World unit :=
  modify (with_client (fun c =>
    {| _config := _config c; _init_done := _init_done c;
       exitcode := exitcode c; _my_channel := _my_channel c;
       _my_guild := _my_guild c; _my_ping_role := _my_ping_role c;
       _valid_tokens := _valid_tokens c;
       ready := false; user := user c; closed := true |})).

Definition set_exitcode (n : Z) : M World unit :=
  modify (with_client (fun c =>
    {| _config := _config c; _init_done := _init_done c;
       exitcode := n; _my_channel := _my_channel c;
       _my_guild := _my_guild c; _my_ping_role := _my_ping_role c;
       _valid_tokens := _valid_tokens c;
       ready := ready c; user := user c; closed := closed c |})).

Definition set_resolved (chnl : option Channel) (guild : option Z)
    (role : option Role) : M World unit :=
  modify (with_client (fun c =>
    {| _config := _config c; _init_done := _init_done c;
       exitcode := exitcode c; _my_channel := chnl;
       _my_guild := guild; _my_ping_role := role;
       _valid_tokens := _valid_tokens c;
       ready := ready c; user := user c; closed := closed c |})).

Definition set_init_done (b : bool) : M World unit :=
  modify (with_client (fun c =>
    {| _config := _config c; _init_done := b;
       exitcode := exitcode c; _my_channel := _my_channel c;
       _my_guild := _my_guild c; _my_ping_role := _my_ping_role c;
       _valid_tokens := _valid_tokens c;
       ready := ready c; user := user c; closed := closed c |})).

(** [NotifyClient.on_ready] *)
Definition on_ready : M World unit :=
  w <- get;;
  let cfg := _config (client w) in
  log INFO ("Logged on as " +:+ from_option user_name "None" (user (client w)));;
  match channels (platform w) !! channel_id cfg with
  | None =>
      log ERROR ("Channel with id " +:+ pretty (channel_id cfg)
                 +:+ " does not exist!");;
      set_exitcode 1;;
      close
  | Some (TextChannel id guild as chnl) =>
      let role := guild_roles (platform w) !! (guild, ping_role cfg) in
      set_resolved (Some chnl) (Some guild) role;;
      match role with
      | None =>
          log ERROR ("Role with id " +:+ pretty (ping_role cfg)
                     +:+ " does not exist!");;
          set_exitcode 1;;
          close
      | Some _ => set_init_done true
      end
  | Some _ =>
      log ERROR ("Channel " +:+ pretty (channel_id cfg)
                 +:+ " must be a text channel!");;
      set_exitcode 1;;
      close
  end.

(** [_channel_msg]; its [assert channel] holds for every channel
    object, none of the channel classes being falsy. *)
Definition _channel_msg (msg : string) (channel : Channel) : M World unit :=
  try_except
    (platform_call (Send (chan_id channel) msg None))
    is_DiscordException
    (fun e => log ERROR ("Error sending a channel message: " +:+ exn_str e)).

(** [_escape_everything] *)
Definition _escape_everything `{Builtins} (data : string) : string :=
  escape_markdown (escape_mentions data).

(** [NotifyClient._add_ping_role]; a failed [assert self._my_ping_role]
    is the [None] branch. *)
Definition _add_ping_role (member : Member) (from_channel : Channel)
    : M World unit :=
  w <- get;;
  match _my_ping_role (client w) with
  | None => raise (AssertionError "")
  | Some role =>
      if decide (role_id role ∈ member_roles (platform w) member) then
        _channel_msg
          (member_mention member +:+ " You already have role "
             +:+ role_name role +:+ "!")
          from_channel
      else
        try_except
          (log INFO ("Adding ping role to user " +:+ display_name member +:+ "!");;
           platform_call (AddRoles (member_guild member) (member_id member)
                            (role_id role) "User requested.");;
           platform_call (Send (chan_id from_channel)
             (member_mention member +:+ " Added role " +:+ role_name role +:+ ".")
             None))
          is_DiscordException
          (fun e =>
             log ERROR ("Error adding a ping role: " +:+ exn_str e);;
             try_except
               (platform_call (Send (chan_id from_channel)
                  (member_mention member +:+ " Failed to add role "
                     +:+ role_name role +:+ ". Check log.")
                  None))
               any_exn
               (fun _ => ret tt))
  end.

(** [NotifyClient._remove_ping_role] *)
Definition _remove_ping_role (member : Member) (from_channel : Channel)
    : M World unit :=
  w <- get;;
  match _my_ping_role (client w) with
  | None => raise (AssertionError "")
  | Some role =>
      if decide (role_id role ∉ member_roles (platform w) member) then
        _channel_msg
          (member_mention member +:+ " You don't have role "
             +:+ role_name role +:+ "!")
          from_channel
      else
        try_except
          (log INFO ("Removing role from user " +:+ display_name member +:+ "!");;
           platform_call (RemoveRoles (member_guild member) (member_id member)
                            (role_id role) "User requested.");;
           platform_call (Send (chan_id from_channel)
             (member_mention member +:+ " Removed role " +:+ role_name role +:+ ".")
             None))
          is_DiscordException
          (fun e =>
             log ERROR ("Error removing a ping role: " +:+ exn_str e);;
             try_except
               (platform_call (Send (chan_id from_channel)
                  (member_mention member +:+ " Failed to remove role "
                     +:+ role_name role +:+ ". Check log.")
                  None))
               any_exn
               (fun _ => ret tt))
  end.

(** [guild.get_member(user_id)] *)
Definition get_member (p : Platform) (guild user_id : Z) : option Member :=
  ms ← guild_members p !! (guild, user_id);
  Some {| member_id := user_id; member_guild := guild;
          display_name := ms_display_name ms |}.

(** [message.content[1:]] *)
Definition tail_str (s : string) : string :=
  match s with
  | EmptyString => EmptyString
  | String _ r => r
  end.

(** [not message.content or message.content[0] != '!'] *)
Definition no_prefix (s : string) : bool :=
  match s with
  | EmptyString => true
  | String c _ => negb (Ascii.eqb c "!"%char)
  end.

(** [NotifyClient.on_message] *)
Definition on_message (message : Message) : M World unit :=
  w <- get;;
  let self := client w in
  if negb (ready self) || negb (_init_done self) then
    log DEBUG "Received message but bot is not ready yet."
  else if no_prefix (content message) then ret tt
  else
    match user self with
    | None => raise (AttributeError "'NoneType' object has no attribute 'id'")
    | Some me =>
        if Z.eqb (author message) (user_id me) then ret tt
        else if negb (Z.eqb (chan_id (channel message)) (channel_id (_config self)))
                && negb (is_DMChannel (channel message)) then ret tt
        else
          match _my_guild self with
          | None => raise (AssertionError "")
          | Some guild =>
              match get_member (platform w) guild (author message) with
              | None => ret tt
              | Some member =>
                  let command := tail_str (content message) in
                  (if String.eqb command "add"
                   then _add_ping_role member (channel message)
                   else ret tt);;
                  (if String.eqb command "remove"
                   then _remove_ping_role member (channel message)
                   else ret tt)
              end
          end
    end.

(** [NotifyClient._on_notify]. The local variable [success] is bound
    only by the assignment that follows the send: [None] is the
    unbound variable, and reading it raises [UnboundLocalError]. *)
Definition _on_notify `{Builtins} (data : NotifyPayload) : M World bool :=
  w <- get;;
  let self := client w in
  if negb (ready self) || negb (_init_done self) then
    log ERROR "Received a POST request while Discord bot is not ready!";;
    ret false
  else if test_post (_config self) then
    log INFO "Testing POST. Not sending a mention.";;
    ret true
  else
    match _my_ping_role self, _my_channel self with
    | Some my_ping_role, Some my_channel =>
        py_assert (bool_decide (token data ∈ _valid_tokens self)) "Invalid token.";;
        success <-
          try_except
            (escaped_ip <-
               match ip data with
               | JStr s => ret (_escape_everything s)
               | _ => raise (TypeError "expected string or bytes-like object")
               end;;
             let embed :=
               {| title := _escape_everything (hostname data);
                  description := "`connect " +:+ escaped_ip +:+ "`";
                  color := 1304622 |} in
             let mention := role_mention my_ping_role in
             let player_name := _escape_everything (player_name data) in
             let players := num_players data in
             let max_players := max_players data in
             let content :=
               mention +:+ " **" +:+ player_name +:+ "** wants you to join!"
               +:+ " (*" +:+ pretty players +:+ "*/*" +:+ pretty max_players
               +:+ "*)" in
             platform_call (Send (chan_id my_channel) content (Some embed));;
             ret (Some true))
            is_DiscordException
            (fun e =>
               log ERROR ("Error sending a mention: " +:+ exn_str e);;
               ret None);;
        match success with
        | Some b => ret b
        | None => raise (UnboundLocalError "success")
        end
    | _, _ => raise (AssertionError "")
    end.

(** [NotifyClient.setup_hook]; [ssl_load] is the outcome of building the
    SSL context from the two configured paths. *)
Definition setup_hook (ssl_load : option exn) (env : ListenerEnv)
    : M (World * NotifyWebApp) unit :=
  fun st =>
    let cfg := _config (client st.1) in
    let use_ssl :=
      negb (String.eqb (cert_path cfg) "") || negb (String.eqb (key_path cfg) "") in
    let (r1, w1) :=
      (if use_ssl then external ssl_load else log INFO "NOT USING SSL") st.1 in
    match r1 with
    | Raise e => (Raise e, (w1, st.2))
    | Ok _ =>
        let (r2, app2) := start env (port cfg) use_ssl st.2 in
        (r2, (w1, app2))
    end.

(** A POST request served by the web application of a client: the
    handler with [self._on_notify] as its callback. *)
Definition serve_post `{Builtins} (request : Request)
    : M (World * NotifyWebApp) Response :=
  _handle_webrequest _on_notify request.

(** ** Vocabulary of the specification *)

(** A string of whitespace only, and strings that begin or end in a
    whitespace character: the words in which trimming is specified. *)
Fixpoint all_space (s : string) : bool :=
  match s with
  | EmptyString => true
  | String c r => isspace c && all_space r
  end.

Definition space_at_head (s : string) : bool :=
  match s with
  | EmptyString => false
  | String c _ => isspace c
  end.

Fixpoint space_at_end (s : string) : bool :=
  match s with
  | EmptyString => false
  | String c EmptyString => isspace c
  | String _ r => space_at_end r
  end.

(** The six keys a POST body must carry. *)
Definition required_keys : list string :=
  ["token"; "hostname"; "join_ip"; "num_players"; "max_players"; "player_name"].

(** The payload construction as the specification words it: every
    string field goes through the string coercion, [join_ip] too. *)
Definition construct_all_coerced `{Builtins} (data : json) : result NotifyPayload :=
  v_token <~ getitem data "token";;
  v_hostname <~ getitem data "hostname";;
  v_ip <~ getitem data "join_ip";;
  v_num <~ getitem data "num_players";;
  n_num <~ py_int v_num;;
  v_max <~ getitem data "max_players";;
  n_max <~ py_int v_max;;
  v_name <~ getitem data "player_name";;
  Ok {| token := py_str v_token;
        hostname := py_str v_hostname;
        ip := JStr (py_str v_ip);
        num_players := n_num;
        max_players := n_max;
        player_name := py_str v_name |}.

(** The JSON document [{"success": b}]. *)
Definition success_body (b : bool) : json := JObj {[ "success" := JBool b ]}.

(** The calls of the dispatcher callback recorded in a trace, and the
    log records of a trace. *)
Definition callbacks (tr : list wevent) : list (NotifyPayload * result bool) :=
  omap (fun ev => match ev with
                  | WCallback data r => Some (data, r)
                  | WLog _ _ => None
                  end) tr.

Definition wlogs (tr : list wevent) : list log_record :=
  omap (fun ev => match ev with
                  | WLog l msg => Some (l, msg)
                  | WCallback _ _ => None
                  end) tr.

(** What one POST request shows of itself: the response (or the
    exception that escapes the handler) and the outcomes of the
    dispatcher calls made while it was served. *)
Definition outcome (before : NotifyWebApp)
    (run : result Response * (World * NotifyWebApp))
    : result Response * list (result bool) :=
  (run.1, snd <$> drop (length (callbacks (wtrace before)))
                    (callbacks (wtrace run.2.2))).

(** The platform calls made between two states of the world. *)
Definition new_calls (w w' : World) : list (pcall * option exn) :=
  drop (length (calls w)) (calls w').

Definition is_send (c : pcall * option exn) : bool :=
  match c.1 with
  | Send _ _ _ => true
  | _ => false
  end.

Definition is_grant (c : pcall * option exn) : bool :=
  match c.1 with
  | AddRoles _ _ _ _ => true
  | _ => false
  end.

Definition is_revoke (c : pcall * option exn) : bool :=
  match c.1 with
  | RemoveRoles _ _ _ _ => true
  | _ => false
  end.

(** A send call that carries the given text. *)
Definition sends_text (text : string) (c : pcall * option exn) : bool :=
  match c.1 with
  | Send _ content _ => String.eqb content text
  | _ => false
  end.

Definition count {A} (p : A -> bool) (l : list A) : nat :=
  length (List.filter p l).

(** The member holds the role, as the platform has it. *)
Definition holds (w : World) (member : Member) (role : Role) : Prop :=
  role_id role ∈ member_roles (platform w) member.

(** The member object is the one the guild hands out for its id. *)
Definition is_guild_member (w : World) (member : Member) : Prop :=
  get_member (platform w) (member_guild member) (member_id member) = Some member.

(** The reply texts of the two role commands. *)
Definition reply_already (member : Member) (role : Role) : string :=
  member_mention member +:+ " You already have role " +:+ role_name role +:+ "!".
Definition reply_added (member : Member) (role : Role) : string :=
  member_mention member +:+ " Added role " +:+ role_name role +:+ ".".
Definition reply_add_failed (member : Member) (role : Role) : string :=
  member_mention member +:+ " Failed to add role " +:+ role_name role
    +:+ ". Check log.".
Definition reply_not_held (member : Member) (role : Role) : string :=
  member_mention member +:+ " You don't have role " +:+ role_name role +:+ "!".
Definition reply_removed (member : Member) (role : Role) : string :=
  member_mention member +:+ " Removed role " +:+ role_name role +:+ ".".
Definition reply_remove_failed (member : Member) (role : Role) : string :=
  member_mention member +:+ " Failed to remove role " +:+ role_name role
    +:+ ". Check log.".

(** The session is ready: the client is connected and [on_ready] has
    resolved channel, guild and role. *)
Definition session_ready (w : World) : bool :=
  ready (client w) && _init_done (client w).

(** Once [_init_done] is set the three handles are resolved, and a
    connected client knows its own user. *)
Definition resolved (c : NotifyClient) : Prop :=
  (_init_done c = true ->
     is_Some (_my_channel c) /\ is_Some (_my_guild c) /\ is_Some (_my_ping_role c))
  /\ (ready c = true -> is_Some (user c)).

(** The messages that the command routing drops. *)
Definition dropped (message : Message) (w : World) : Prop :=
  content message = ""
  \/ (exists c r, content message = String c r /\ c <> "!"%char)
  \/ (exists me, user (client w) = Some me /\ author message = user_id me)
  \/ (chan_id (channel message) <> channel_id (_config (client w))
      /\ is_DMChannel (channel message) = false)
  \/ (forall guild, _my_guild (client w) = Some guild ->
        get_member (platform w) guild (author message) = None)
  \/ (tail_str (content message) <> "add"
      /\ tail_str (content message) <> "remove").

(** A request whose body is not JSON, or is JSON from which no payload
    can be built. *)
Definition malformed `{Builtins} (request : Request) : Prop :=
  (exists e, req_json request = Raise e /\ is_Exception e = true)
  \/ (exists d e, req_json request = Ok d /\ construct d = Raise e).

(** A JSON object that lacks one of the required keys. *)
Definition lacks_key (d : gmap string json) : Prop :=
  exists k, k ∈ required_keys /\ d !! k = None.

(** Every error raised while the listener is set up derives from
    [Exception]. *)
Definition only_errors (env : ListenerEnv) : Prop :=
  forall e,
    (app_runner_new env = Some e \/ runner_setup env = Some e
     \/ tcp_site_new env = Some e \/ site_start env = Some e) ->
    is_Exception e = true.

(** ** Sample data *)

(** Stand-ins for the library functions: escaping that changes nothing
    and an [int] that accepts no string. *)
Definition sample_builtins : Builtins :=
  {| py_repr := fun _ => "<repr>";
     py_int_of_str := fun _ => None;
     escape_mentions := fun s => s;
     escape_markdown := fun s => s |}.

Definition sample_config (test_post : bool) : NotifyConfig :=
  {| discord_token := "token"; ping_role := 2; channel_id := 1; port := 3000;
     cert_path := ""; key_path := ""; test_get := false;
     test_post := test_post |}.

Definition sample_role : Role :=
  {| role_id := 2; role_name := "Looking to Play" |}.

Definition sample_channel : Channel := TextChannel 1 10.

(** Guild 10 with the ping role 2, where alice (7) holds no role and
    bob (8) holds the ping role. *)
Definition sample_platform : Platform :=
  {| channels := {[ 1 := TextChannel 1 10; 5 := DMChannel 5; 6 := OtherChannel 6 ]};
     guild_roles := {[ (10, 2) := sample_role ]};
     guild_members :=
       {[ (10, 7) := {| ms_display_name := "alice"; ms_roles := ∅ |};
          (10, 8) := {| ms_display_name := "bob"; ms_roles := {[ 2 ]} |} ]} |}.

Definition alice : Member :=
  {| member_id := 7; member_guild := 10; display_name := "alice" |}.

Definition bob : Member :=
  {| member_id := 8; member_guild := 10; display_name := "bob" |}.

(** A client just built from a token file with three tokens. *)
Definition fresh_client (test_post : bool) : NotifyClient :=
  {| _config := sample_config test_post; _init_done := false; exitcode := 0;
     _my_channel := None; _my_guild := None; _my_ping_role := None;
     _valid_tokens := ["token1"; "token2"; "token3"];
     ready := false; user := None; closed := false |}.

(** The same client, connected and after [on_ready]. *)
Definition ready_client (test_post : bool) : NotifyClient :=
  {| _config := sample_config test_post; _init_done := true; exitcode := 0;
     _my_channel := Some sample_channel; _my_guild := Some 10;
     _my_ping_role := Some sample_role;
     _valid_tokens := ["token1"; "token2"; "token3"];
     ready := true; user := Some {| user_id := 99; user_name := "notify-bot" |};
     closed := false |}.

Definition never_fails : nat -> option exn := fun _ => None.

Definition always_forbidden : nat -> option exn :=
  fun _ => Some (DiscordException "403 Forbidden (error code: 50013): Missing Permissions").

Definition sample_world (c : NotifyClient) (oracle : nat -> option exn) : World :=
  {| client := c; platform := sample_platform; calls := [];
     oracle := oracle; clog := [] |}.

(** The body of the tests, with a chosen token. *)
Definition sample_dict (tok : string) : gmap string json :=
  {[ "token" := JStr tok; "hostname" := JStr "hostname";
     "join_ip" := JStr "join_ip"; "num_players" := JInt 1;
     "max_players" := JInt 2; "player_name" := JStr "player_name" ]}.

Definition sample_payload (tok : string) : NotifyPayload :=
  {| token := tok; hostname := "hostname"; ip := JStr "join_ip";
     num_players := 1; max_players := 2; player_name := "player_name" |}.

Definition sample_request (tok : string) : Request :=
  {| req_json := Ok (JObj (sample_dict tok)); req_text := Ok "{...}" |}.

(** A request whose body is not JSON. *)
Definition not_json_request : Request :=
  {| req_json := Raise (ValueError "Expecting value: line 1 column 1 (char 0)");
     req_text := Ok "hello" |}.

(** A request whose body lacks [player_name]. *)
Definition short_request : Request :=
  {| req_json := Ok (JObj (delete "player_name" (sample_dict "token1")));
     req_text := Ok "{...}" |}.

(** A listener whose port is taken: binding fails when the site starts. *)
Definition port_in_use : ListenerEnv :=
  {| app_runner_new := None; runner_setup := None; tcp_site_new := None;
     site_start := Some (OSError "[Errno 98] address already in use") |}.

(** [!add] typed by alice in a channel that is neither the configured
    one nor a direct-message channel. *)
Definition stray_message : Message :=
  {| content := "!add"; author := 7; channel := OtherChannel 6 |}.

(** The client before [on_ready], the ready client, the ready client in
    test-post mode, and the ready client on a platform that rejects
    every call. *)
Definition world_fresh : World := sample_world (fresh_client false) never_fails.
Definition world_ready : World := sample_world (ready_client false) never_fails.
Definition world_test_post : World := sample_world (ready_client true) never_fails.
Definition world_forbidden : World :=
  sample_world (ready_client false) always_forbidden.

(** alice issues [!add] twice while the platform rejects every call. *)
Definition twice_forbidden : World :=
  (_add_ping_role alice sample_channel
     (_add_ping_role alice sample_channel world_forbidden).2).2.

Definition app0 : NotifyWebApp := NotifyWebApp_init false.

(** The callback of the test [test_webapp_ok]. *)
Definition answers_true : NotifyPayload -> M unit bool := fun _ => ret true.

(** ** Configuration ([client.parse_config]) *)

(** What a [ConfigParser] answers to [get(section, option)] when no
    fallback is given: the value of the option, after the interpolation
    ([%%] read as [%], [%(name)s] replaced) and with the options of
    [DEFAULT] inherited, [None] for an option written without a value
    (a parser with [allow_no_value] keeps those); [NoSectionError] or
    [NoOptionError] when the option is not there; or the error that
    the interpolation raises. *)
Inductive cfg_answer : Type :=
| CfgValue (v : option string)
| CfgMissing
| CfgError (e : exn).

(** A parser, as far as [parse_config] looks at it: its answers. *)
Definition ConfigParser : Type := string -> string -> cfg_answer.

(** [prsr.get(section, option, fallback=None)]: the fallback stands in
    for a missing section or option only. *)
Definition cfg_get (prsr : ConfigParser)
    (section opt : string) : result (option string) :=
  match prsr section opt with
  | CfgValue v => Ok v
  | CfgMissing => Ok None
  | CfgError e => Raise e
  end.

(** [prsr.getint(section, option, fallback=None)]: [int] of what [get]
    answers, the fallback when the section or the option is missing. *)
Definition cfg_getint `{Builtins} (prsr : ConfigParser)
    (section opt : string) : result (option Z) :=
  match prsr section opt with
  | CfgValue v =>
      z <~ py_int (match v with Some x => JStr x | None => JNull end);;
      Ok (Some z)
  | CfgMissing => Ok None
  | CfgError e => Raise e
  end.

(** The truth value of a string or [None], and of an integer or [None]. *)
Definition str_truthy (o : option string) : bool :=
  match o with
  | Some (String _ _) => true
  | _ => false
  end.

Definition int_truthy (o : option Z) : bool :=
  match o with
  | Some z => negb (Z.eqb z 0)
  | None => false
  end.

(** [assert cond, msg] outside a coroutine. *)
Definition rassert (cond : bool) (msg : string) : result unit :=
  if cond then Ok tt else Raise (AssertionError msg).

(** [parse_config] *)
Definition parse_config `{Builtins} (prsr : ConfigParser)
    : result NotifyConfig :=
  discord_token <~ cfg_get prsr "discord" "token";;
  _ <~ rassert (str_truthy discord_token) "You need to set discord token!";;
  ping_role <~ cfg_getint prsr "discord" "ping_role";;
  _ <~ rassert (int_truthy ping_role) "You need to set ping role id!";;
  channel_id <~ cfg_getint prsr "discord" "channel";;
  _ <~ rassert (int_truthy channel_id) "You need to set channel id!";;
  port <~ cfg_getint prsr "server" "port";;
  _ <~ rassert (int_truthy port) "You need to set port!";;
  cert_path <~ cfg_get prsr "server" "cert";;
  key_path <~ cfg_get prsr "server" "key";;
  v_test_get <~ cfg_get prsr "server" "test_get";;
  let test_get := if str_truthy v_test_get then true else false in
  v_test_post <~ cfg_get prsr "server" "test_post";;
  let test_post := if str_truthy v_test_post then true else false in
  Ok {| discord_token := default "" discord_token;
        ping_role := default 0 ping_role;
        channel_id := default 0 channel_id;
        port := default 0 port;
        cert_path := default "" cert_path;
        key_path := default "" key_path;
        test_get := test_get;
        test_post := test_post |}.

(** The parser that [read_string] builds from a text with no [DEFAULT]
    section and no [%] in its values: it answers with the strings it
    read. *)
Definition parser_of (m : gmap (string * string) string) : ConfigParser :=
  fun section opt =>
    match m !! (section, opt) with
    | Some v => CfgValue (Some v)
    | None => CfgMissing
    end.

(** ** Further vocabulary *)

(** A platform call that concerns this member, role and channel only: a
    send to the channel, or a grant or revoke of the role for the
    member. *)
Definition call_about (member : Member) (role : Role) (chnl : Channel)
    (c : pcall * option exn) : Prop :=
  match c.1 with
  | Send ch _ _ => ch = chan_id chnl
  | AddRoles g u r _ | RemoveRoles g u r _ =>
      g = member_guild member /\ u = member_id member /\ r = role_id role
  end.

(** The world that the next handler finds after one that ran from [w]
    to [w1], when the gateway event for the role changes made in
    between has not arrived yet: the client, the calls and the log of
    [w1], and the guild as [w] had it. *)
Definition unrefreshed (w w1 : World) : World :=
  {| client := client w1; platform := platform w; calls := calls w1;
     oracle := oracle w1; clog := clog w1 |}.

(** What the next handler finds: [w1] itself once the event has
    arrived, the unrefreshed world before. *)
Definition next_view (refreshed : bool) (w w1 : World) : World :=
  if refreshed then w1 else unrefreshed w w1.

(** The platform's own state after a list of calls: those it accepted,
    carried out in order. *)
Fixpoint replay (cs : list (pcall * option exn)) (p : Platform) : Platform :=
  match cs with
  | [] => p
  | (c, None) :: cs => replay cs (apply_call c p)
  | (_, Some _) :: cs => replay cs p
  end.

(** The member holds the role on the platform itself once the calls
    made between [w] and [w'] are done, whatever the cache shows. *)
Definition holds_after (w w' : World) (member : Member) (role : Role) : Prop :=
  role_id role ∈ member_roles (replay (new_calls w w') (platform w)) member.

(** The world a handler of a client runs in, given what the platform
    holds and how it answers. *)
Definition world_of (c : NotifyClient) (p : Platform)
    (oracle : nat -> option exn) : World :=
  {| client := c; platform := p; calls := []; oracle := oracle; clog := [] |}.

(** Two platform states that differ at most in whether one member
    holds one role. *)
Definition same_but_role (guild user role : Z) (p p' : Platform) : Prop :=
  channels p' = channels p
  /\ guild_roles p' = guild_roles p
  /\ (forall g u, (g, u) <> (guild, user) ->
        guild_members p' !! (g, u) = guild_members p !! (g, u))
  /\ match guild_members p !! (guild, user),
           guild_members p' !! (guild, user) with
     | Some ms, Some ms' =>
         ms_display_name ms' = ms_display_name ms
         /\ forall r, r <> role -> r ∈ ms_roles ms' <-> r ∈ ms_roles ms
     | None, None => True
     | _, _ => False
     end.

(** A JSON value that is not a string. *)
Definition not_a_string (v : json) : Prop :=
  match v with
  | JStr _ => False
  | _ => True
  end.

(** ** Further sample data *)

(** A decimal reader for the sample [int]. *)
Definition digit_of (c : ascii) : option Z :=
  let n := nat_of_ascii c in
  if ((48 <=? n) && (n <=? 57))%nat then Some (Z.of_nat (n - 48)) else None.

Fixpoint parse_digits (acc : Z) (s : string) : option Z :=
  match s with
  | EmptyString => Some acc
  | String c r =>
      match digit_of c with
      | Some d => parse_digits (10 * acc + d) r
      | None => None
      end
  end.

Definition parse_decimal (s : string) : option Z :=
  match s with
  | EmptyString => None
  | _ => parse_digits 0 s
  end.

Definition decimal_builtins : Builtins :=
  {| py_repr := fun _ => "<repr>";
     py_int_of_str := parse_decimal;
     escape_mentions := fun s => s;
     escape_markdown := fun s => s |}.

(** The configuration of the unit test [test_parse_config]. *)
Definition test_config : gmap (string * string) string :=
  {[ ("discord", "token") := "token"; ("discord", "channel") := "1";
     ("discord", "ping_role") := "2"; ("server", "cert") := "cert";
     ("server", "key") := "key"; ("server", "port") := "3000";
     ("server", "test_get") := ""; ("server", "test_post") := "" ]}.

Definition test_config_parser : ConfigParser := parser_of test_config.

(** The same configuration with [test_post=false] written out. *)
Definition false_flag_parser : ConfigParser :=
  parser_of (<[ ("server", "test_post") := "false" ]> test_config).

(** A parser that read [token=tok%%en] and, in its [DEFAULT] section,
    [port=3000]: [get] answers with the token after the interpolation
    and finds the port in every section. *)
Definition interpolating_parser : ConfigParser :=
  fun section opt =>
    if String.eqb opt "port" then CfgValue (Some "3000")
    else if String.eqb section "discord" && String.eqb opt "token"
    then CfgValue (Some "tok%en")
    else parser_of test_config section opt.

(** The sample body with a number for [join_ip]. *)
Definition numeric_ip_dict : gmap string json :=
  <[ "join_ip" := JInt 5 ]> (sample_dict "token1").

Definition numeric_ip_request : Request :=
  {| req_json := Ok (JObj numeric_ip_dict); req_text := Ok "{...}" |}.

(** A request whose body read is cancelled. *)
Definition cancelled_request : Request :=
  {| req_json := Raise CancelledError; req_text := Raise CancelledError |}.

(** A platform that accepts the grant and rejects what follows it. *)
Definition reply_forbidden : nat -> option exn :=
  fun k => match k with
           | O => None
           | _ => Some (DiscordException "403 Forbidden")
           end.

Definition world_reply_forbidden : World :=
  sample_world (ready_client false) reply_forbidden.

(** A listener that cannot set up its runner. *)
Definition runner_fails : ListenerEnv :=
  {| app_runner_new := None; runner_setup := Some (OSError "setup failed");
     tcp_site_new := None; site_start := None |}.

(** A client configured with a certificate. *)
Definition ssl_world : World :=
  {| client :=
       {| _config :=
            {| discord_token := "token"; ping_role := 2; channel_id := 1;
               port := 3000; cert_path := "cert"; key_path := "key";
               test_get := false; test_post := false |};
          _init_done := false; exitcode := 0;
          _my_channel := None; _my_guild := None; _my_ping_role := None;
          _valid_tokens := ["token1"];
          ready := false; user := None; closed := false |};
     platform := sample_platform; calls := []; oracle := never_fails;
     clog := [] |}.

(** The sample client configured with a role id that guild 10 lacks. *)
Definition world_no_role : World :=
  {| client :=
       {| _config :=
            {| discord_token := "token"; ping_role := 3; channel_id := 1;
               port := 3000; cert_path := ""; key_path := "";
               test_get := false; test_post := false |};
          _init_done := false; exitcode := 0;
          _my_channel := None; _my_guild := None; _my_ping_role := None;
          _valid_tokens := ["token1"];
          ready := true;
          user := Some {| user_id := 99; user_name := "notify-bot" |};
          closed := false |};
     platform := sample_platform; calls := []; oracle := never_fails;
     clog := [] |}.

(** alice has issued [!add] on the platform that accepts every call;
    then the world that her next command finds before the gateway
    event has arrived, and that world after a second [!add] and after
    a [!remove]. *)
Definition once_added : World :=
  (_add_ping_role alice sample_channel world_ready).2.
Definition stale_once_added : World := unrefreshed world_ready once_added.
Definition stale_twice_added : World :=
  (_add_ping_role alice sample_channel stale_once_added).2.
Definition stale_added_removed : World :=
  (_remove_ping_role alice sample_channel stale_once_added).2.

(** [!add] typed by alice in the configured channel. *)
Definition add_message : Message :=
  {| content := "!add"; author := 7; channel := sample_channel |}.

(** * Properties *)

(** ** Token store *)

Lemma tokens_loop_omap (lines acc : list string) :
  tokens_loop lines acc = acc ++ omap token_of_line lines.
Proof.
  unfold tokens_loop. revert acc.
  induction lines as [|line lines IH]; intros acc; simpl.
  - by rewrite app_nil_r.
  - rewrite IH. destruct (token_of_line line); simpl; [|done].
    by rewrite <- app_assoc.
Qed.

Lemma app_String (c : ascii) (s t : string) :
  String c s +:+ t = String c (s +:+ t).
Proof. reflexivity. Qed.

Lemma app_empty (t : string) : EmptyString +:+ t = t.
Proof. reflexivity. Qed.

Lemma str_index_app (c : ascii) (pre rest : string) :
  str_index c pre = None ->
  str_index c (pre +:+ String c rest) = Some (String.length pre).
Proof.
  induction pre as [|d pre IH]; rewrite ?app_String, ?app_empty; simpl;
    intros Hnone.
  - by rewrite Ascii.eqb_refl.
  - destruct (Ascii.eqb d c); [done|].
    destruct (str_index c pre); [done|]. by rewrite IH.
Qed.

Lemma slice_to_app (pre rest : string) :
  slice_to (String.length pre) (pre +:+ rest) = pre.
Proof.
  induction pre as [|d pre IH]; rewrite ?app_String, ?app_empty; simpl.
  - by destruct rest.
  - by rewrite IH.
Qed.

Lemma lstrip_spec (s : string) :
  exists l, s = l +:+ lstrip s /\ all_space l = true
            /\ space_at_head (lstrip s) = false.
Proof.
  induction s as [|c s (l & Heq & Hl & Hh)]; simpl.
  - by exists EmptyString.
  - destruct (isspace c) eqn:Hc.
    + exists (String c l). rewrite app_String. simpl. rewrite Hc, Hl.
      split; [by f_equal|done].
    + exists EmptyString. rewrite app_empty. simpl. by rewrite Hc.
Qed.

Lemma rstrip_spec (s : string) :
  exists r, s = rstrip s +:+ r /\ all_space r = true
            /\ space_at_end (rstrip s) = false.
Proof.
  induction s as [|c s (r & Heq & Hr & He)]; simpl.
  - by exists EmptyString.
  - destruct (rstrip s) as [|d t] eqn:Hrs.
    + rewrite app_empty in Heq. subst s.
      destruct (isspace c) eqn:Hc.
      * exists (String c r). rewrite app_empty. simpl. by rewrite Hc, Hr.
      * exists r. rewrite app_String, app_empty. simpl. by rewrite Hc.
    + exists r. rewrite app_String. split; [by f_equal|]. split; [done|].
      exact He.
Qed.

Lemma rstrip_head (s : string) :
  space_at_head s = false -> space_at_head (rstrip s) = false.
Proof.
  destruct s as [|c s]; simpl; [done|]. intros Hc.
  destruct (rstrip s); simpl; [by rewrite Hc|done].
Qed.

Lemma string_app_assoc (a b c : string) : (a +:+ b) +:+ c = a +:+ (b +:+ c).
Proof.
  induction a as [|x a IH]; rewrite ?app_String, ?app_empty; [done|].
  by rewrite IH.
Qed.

Lemma strip_spec (s : string) :
  exists l r, s = l +:+ strip s +:+ r
              /\ all_space l = true /\ all_space r = true
              /\ space_at_head (strip s) = false
              /\ space_at_end (strip s) = false.
Proof.
  destruct (lstrip_spec s) as (l & Hl & Hls & Hh).
  destruct (rstrip_spec (lstrip s)) as (r & Hr & Hrs & He).
  exists l, r. unfold strip. repeat split; try done.
  - by rewrite <- Hr.
  - by apply rstrip_head.
Qed.

Lemma lstrip_app (l s : string) :
  all_space l = true -> lstrip (l +:+ s) = lstrip s.
Proof.
  induction l as [|c l IH]; rewrite ?app_String, ?app_empty; simpl; [done|].
  intros [Hc Hl]%andb_prop. rewrite Hc. by apply IH.
Qed.

Lemma lstrip_head (s : string) : space_at_head s = false -> lstrip s = s.
Proof. destruct s as [|c s]; simpl; [done|]. by intros ->. Qed.

Lemma rstrip_all_space (r : string) : all_space r = true -> rstrip r = EmptyString.
Proof.
  induction r as [|c r IH]; simpl; [done|].
  intros [Hc Hr]%andb_prop. by rewrite IH, Hc.
Qed.

Lemma rstrip_app (t r : string) :
  all_space r = true -> space_at_end t = false -> rstrip (t +:+ r) = t.
Proof.
  intros Hr. induction t as [|c t IH]; rewrite ?app_String, ?app_empty.
  - intros _. by apply rstrip_all_space.
  - intros He. simpl. destruct t as [|d t].
    + rewrite app_empty, (rstrip_all_space r Hr). simpl in He. by rewrite He.
    + rewrite IH; [done|exact He].
Qed.

Lemma strip_unique (l t r : string) :
  all_space l = true -> all_space r = true ->
  space_at_head t = false -> space_at_end t = false ->
  strip (l +:+ t +:+ r) = t.
Proof.
  intros Hl Hr Hh He. unfold strip. rewrite (lstrip_app _ _ Hl).
  destruct t as [|c t].
  - rewrite app_empty.
    assert (lstrip r = EmptyString) as ->; [|done].
    clear -Hr. induction r as [|c r IH]; [done|].
    simpl in *. apply andb_prop in Hr as [-> Hr]. by apply IH.
  - rewrite lstrip_head; [by apply rstrip_app|]. by rewrite app_String.
Qed.

(** C5. The token file is processed one line at a time and in order; a
    line whose first character is [;] gives no token; a [;] further on
    cuts the line there; what is left is trimmed of the whitespace
    around it and gives a token unless it is empty; the token file of
    the tests loads as token1, token2, token3. *)
Theorem C5_token_file_loading :
  (forall text : string,
     _get_valid_tokens text
     = omap token_of_line (readlines (translate_newlines text)))
  /\ (forall rest : string, token_of_line (String ";" rest) = None)
  /\ (forall pre rest : string,
        str_index ";" pre = None -> pre <> EmptyString ->
        token_of_line (pre +:+ String ";" rest) = token_of_line pre)
  /\ (forall line : string,
        str_index ";" line = None ->
        token_of_line line
        = if decide (strip line = EmptyString) then None else Some (strip line))
  /\ (forall s : string,
        exists l r, s = l +:+ strip s +:+ r
                    /\ all_space l = true /\ all_space r = true
                    /\ space_at_head (strip s) = false
                    /\ space_at_end (strip s) = false)
  /\ (forall l t r : string,
        all_space l = true -> all_space r = true ->
        space_at_head t = false -> space_at_end t = false ->
        strip (l +:+ t +:+ r) = t)
  /\ _get_valid_tokens test_tokens_file = ["token1"; "token2"; "token3"].
Proof.
  assert (Hplain : forall line : string,
            str_index ";" line = None ->
            token_of_line line
            = if decide (strip line = EmptyString) then None
              else Some (strip line)).
  { intros line Hnone. unfold token_of_line. rewrite Hnone.
    case_decide as Hs.
    - by rewrite Hs.
    - destruct (strip line); [done|reflexivity]. }
  split; [|split; [|split; [|split; [|split; [|split]]]]].
  - intros text. unfold _get_valid_tokens. by rewrite tokens_loop_omap.
  - reflexivity.
  - intros pre rest Hnone Hne.
    rewrite (Hplain pre Hnone). unfold token_of_line.
    rewrite (str_index_app _ _ _ Hnone), slice_to_app.
    destruct pre as [|c pre]; [done|]. simpl Nat.eqb. cbv iota.
    case_decide as Hs.
    + by rewrite Hs.
    + destruct (strip _); [done|reflexivity].
  - exact Hplain.
  - exact strip_spec.
  - exact strip_unique.
  - reflexivity.
Qed.

(** The inline comment of the test file: the line is cut at its [;]. *)
Lemma C5_witness :
  str_index ";" "token2 " = None
  /\ "token2 " <> EmptyString
  /\ token_of_line ("token2 " +:+ String ";" " inline") = token_of_line "token2 "
  /\ token_of_line "token2 " = Some "token2".
Proof.
  split; [reflexivity|]. split; [discriminate|]. split.
  - apply (proj1 (proj2 (proj2 C5_token_file_loading))); [reflexivity|discriminate].
  - rewrite (proj1 (proj2 (proj2 (proj2 C5_token_file_loading))));
      [reflexivity|reflexivity].
Defined.

(** ** HTTP ingress *)

(** C7. A JSON object that carries the six required keys with values of
    the declared kinds (strings, integers) yields a payload in which
    every field has the value of its key; on such an object the
    construction agrees with the one that coerces every field. *)
Theorem C7_construct_preserves_fields `{Builtins} (d : gmap string json)
    (t h i p : string) (n m : Z) :
  d !! "token" = Some (JStr t) ->
  d !! "hostname" = Some (JStr h) ->
  d !! "join_ip" = Some (JStr i) ->
  d !! "num_players" = Some (JInt n) ->
  d !! "max_players" = Some (JInt m) ->
  d !! "player_name" = Some (JStr p) ->
  construct (JObj d)
  = Ok {| token := t; hostname := h; ip := JStr i;
          num_players := n; max_players := m; player_name := p |}
  /\ construct (JObj d) = construct_all_coerced (JObj d).
Proof.
  intros Ht Hh Hi Hn Hm Hp.
  unfold construct, construct_all_coerced, getitem.
  rewrite Ht, Hh, Hi, Hn, Hm, Hp. simpl. done.
Qed.

(** The body of the unit test [test_payload]. *)
Lemma C7_witness :
  @construct sample_builtins (JObj (sample_dict "token"))
  = Ok (sample_payload "token").
Proof.
  apply (@C7_construct_preserves_fields sample_builtins (sample_dict "token")
           "token" "hostname" "join_ip" "player_name" 1 2);
    vm_compute; reflexivity.
Defined.

(** Where the two constructions part: a [join_ip] that is not a string
    is stored as it is. *)
Lemma construct_keeps_raw_ip :
  ip <$> (match @construct sample_builtins
                  (JObj (<["join_ip" := JInt 5]> (sample_dict "token"))) with
          | Ok p => Some p
          | Raise _ => None
          end)
  = Some (JInt 5).
Proof. vm_compute. reflexivity. Qed.

Lemma rbind_raise {A B} (r : result A) (k : A -> result B) (e : exn) :
  rbind r k = Raise e -> r = Raise e \/ exists a, r = Ok a /\ k a = Raise e.
Proof.
  destruct r as [a|e']; simpl; intros Hr; [right; by exists a|left].
  by injection Hr as ->.
Qed.

Lemma getitem_raises (v : json) (key : string) (e : exn) :
  getitem v key = Raise e -> is_Exception e = true.
Proof. unfold getitem. repeat case_match; intros; simplify_eq; reflexivity. Qed.

Lemma py_int_raises `{Builtins} (v : json) (e : exn) :
  py_int v = Raise e -> is_Exception e = true.
Proof. unfold py_int. repeat case_match; intros; simplify_eq; reflexivity. Qed.

Lemma construct_raises_Exception `{Builtins} (v : json) (e : exn) :
  construct v = Raise e -> is_Exception e = true.
Proof.
  unfold construct. intros Hc.
  repeat (apply rbind_raise in Hc as [Hc|(? & _ & Hc)];
          [by eauto using getitem_raises, py_int_raises|]).
  discriminate.
Qed.

Lemma rbind_raise_now {A B} (r : result A) (k : A -> result B) (e : exn) :
  r = Raise e -> exists e', rbind r k = Raise e'.
Proof. intros ->. by exists e. Qed.

Lemma rbind_raise_later {A B} (r : result A) (k : A -> result B) :
  (forall a, exists e, k a = Raise e) -> exists e, rbind r k = Raise e.
Proof. intros Hk. destruct r as [a|e]; simpl; eauto. Qed.

Lemma construct_lacks_key `{Builtins} (d : gmap string json) :
  lacks_key d -> exists e, construct (JObj d) = Raise e.
Proof.
  intros (k & Hk & Hnone). unfold required_keys in Hk.
  assert (Hget : getitem (JObj d) k = Raise (KeyError k))
    by (unfold getitem; by rewrite Hnone).
  unfold construct.
  repeat (apply elem_of_cons in Hk as [->|Hk]); [..|by apply elem_of_nil in Hk];
    repeat (first [ by eapply rbind_raise_now
                  | apply rbind_raise_later; intros ? ]).
Qed.

Lemma callbacks_log (tr : list wevent) (l : level) (msg : string) :
  callbacks (tr ++ [WLog l msg]) = callbacks tr.
Proof. unfold callbacks. rewrite omap_app. simpl. by rewrite app_nil_r. Qed.

Lemma callbacks_call (tr : list wevent) (data : NotifyPayload) (r : result bool) :
  callbacks (tr ++ [WCallback data r]) = callbacks tr ++ [(data, r)].
Proof. unfold callbacks. by rewrite omap_app. Qed.

(** The handler on a request from which no payload can be built. *)
Lemma handle_malformed `{Builtins} {W : Type}
    (callback : NotifyPayload -> M W bool) (request : Request)
    (w : W) (app : NotifyWebApp) :
  malformed request ->
  let run := _handle_webrequest callback request (w, app) in
  run.1 = Ok (_send_response false)
  /\ callbacks (wtrace run.2.2) = callbacks (wtrace app)
  /\ run.2.1 = w.
Proof.
  intros [(e & Hj & He)|(d & e & Hj & Hc)];
    unfold _handle_webrequest, bind, try_except, lift_result, wlog, modify, ret;
    rewrite Hj; simpl.
  - rewrite He. simpl. destruct (req_text request); simpl;
      rewrite ?callbacks_log; done.
  - rewrite Hc. simpl. rewrite (construct_raises_Exception _ _ Hc). simpl.
    destruct (req_text request); simpl; rewrite ?callbacks_log; done.
Qed.

(** The handler on a request that parses to [data]. *)
Lemma handle_parsed `{Builtins} {W : Type}
    (callback : NotifyPayload -> M W bool) (request : Request)
    (w : W) (app : NotifyWebApp) (v : json) (data : NotifyPayload) :
  req_json request = Ok v -> construct v = Ok data ->
  let run := _handle_webrequest callback request (w, app) in
  callbacks (wtrace run.2.2)
    = callbacks (wtrace app) ++ [(data, (callback data w).1)]
  /\ run.2.1 = (callback data w).2
  /\ run.1 = Ok (_send_response
                   (match (callback data w).1 with
                    | Ok b => b
                    | Raise _ => false
                    end)).
Proof.
  intros Hj Hc.
  unfold _handle_webrequest, bind, try_except, lift_result, wlog, modify, ret,
    call_callback.
  rewrite Hj. simpl. rewrite Hc. simpl.
  destruct (callback data w) as [[b|e] w'] eqn:Hcb; simpl;
    rewrite ?callbacks_log, ?callbacks_call, ?callbacks_log; done.
Qed.

(** C4. A POST whose body is not JSON, or is a JSON object that lacks
    one of the six keys, is answered with status 400 and
    [{"success": false}] without a call of the dispatcher; a POST that
    parses is answered after exactly one call of the dispatcher, with
    status 200 and [{"success": true}] when the dispatcher returns
    true, and with status 400 and [{"success": false}] otherwise. *)
Theorem C4_handler_responses `{Builtins} {W : Type}
    (callback : NotifyPayload -> M W bool) (request : Request)
    (w : W) (app : NotifyWebApp) :
  let run := _handle_webrequest callback request (w, app) in
  ((exists e, req_json request = Raise e /\ is_Exception e = true)
   \/ (exists d, req_json request = Ok (JObj d) /\ lacks_key d)
   \/ malformed request ->
     run.1 = Ok {| status := 400; body := success_body false |}
     /\ callbacks (wtrace run.2.2) = callbacks (wtrace app)
     /\ run.2.1 = w)
  /\ (forall v data,
        req_json request = Ok v -> construct v = Ok data ->
        callbacks (wtrace run.2.2)
          = callbacks (wtrace app) ++ [(data, (callback data w).1)]
        /\ run.2.1 = (callback data w).2
        /\ run.1 = Ok (match (callback data w).1 with
                       | Ok true => {| status := 200; body := success_body true |}
                       | _ => {| status := 400; body := success_body false |}
                       end)).
Proof.
  split.
  - intros Hbad. apply handle_malformed.
    destruct Hbad as [Hbad|[(d & Hj & Hk)|Hbad]]; [by left| |done].
    destruct (construct_lacks_key d Hk) as [e He]. right. by exists (JObj d), e.
  - intros v data Hj Hc.
    destruct (handle_parsed callback request w app v data Hj Hc) as (H1 & H2 & H3).
    split; [done|]. split; [done|]. rewrite H3.
    by destruct (callback data w) as [[[|]|e] w'].
Qed.

(** The three requests of the tests: one that parses, one that is not
    JSON and one that lacks a key, with a dispatcher that answers true. *)
Lemma C4_witness :
  (@_handle_webrequest sample_builtins unit answers_true (sample_request "token")
     (tt, app0)).1
  = Ok {| status := 200; body := success_body true |}
  /\ (@_handle_webrequest sample_builtins unit answers_true not_json_request
        (tt, app0)).1
     = Ok {| status := 400; body := success_body false |}
  /\ (@_handle_webrequest sample_builtins unit answers_true short_request
        (tt, app0)).1
     = Ok {| status := 400; body := success_body false |}.
Proof.
  split; [|split].
  - destruct (proj2 (@C4_handler_responses sample_builtins unit answers_true
                       (sample_request "token") tt app0)
                    (JObj (sample_dict "token")) (sample_payload "token")
                    eq_refl eq_refl) as (_ & _ & ->).
    reflexivity.
  - apply (proj1 (@C4_handler_responses sample_builtins unit answers_true
                    not_json_request tt app0)).
    left. eexists. split; reflexivity.
  - apply (proj1 (@C4_handler_responses sample_builtins unit answers_true
                    short_request tt app0)).
    right. left. eexists. split; [reflexivity|].
    exists "player_name". split; [|by vm_compute].
    unfold required_keys. set_solver.
Defined.

(** ** Notification dispatcher *)

Lemma new_calls_app (w w' : World) (l : list (pcall * option exn)) :
  calls w' = calls w ++ l -> new_calls w w' = l.
Proof. intros Hc. unfold new_calls. by rewrite Hc, drop_app_length. Qed.

Lemma new_calls_same (w w' : World) : calls w' = calls w -> new_calls w w' = [].
Proof. intros Hc. unfold new_calls. by rewrite Hc, drop_all. Qed.

(** Until the session is ready the dispatcher only writes a log record. *)
Lemma on_notify_not_ready `{Builtins} (data : NotifyPayload) (w : World) :
  session_ready w = false ->
  _on_notify data w
  = (Ok false,
     (log ERROR "Received a POST request while Discord bot is not ready!" w).2).
Proof.
  unfold session_ready, _on_notify, bind, get. simpl. intros Hr.
  rewrite <- negb_andb, Hr. reflexivity.
Qed.

(** In test-post mode a ready session answers true at once. *)
Lemma on_notify_test_post `{Builtins} (data : NotifyPayload) (w : World) :
  session_ready w = true -> test_post (_config (client w)) = true ->
  _on_notify data w
  = (Ok true, (log INFO "Testing POST. Not sending a mention." w).2).
Proof.
  unfold session_ready, _on_notify, bind, get. simpl. intros Hr Ht.
  rewrite <- negb_andb, Hr, Ht. reflexivity.
Qed.

(** The dispatcher makes no platform call, or exactly one send, and
    that only past the readiness test, the test-mode switch and the
    token assertion. *)
Lemma on_notify_calls `{Builtins} (data : NotifyPayload) (w : World) :
  let run := _on_notify data w in
  (calls run.2 = calls w /\ platform run.2 = platform w)
  \/ (session_ready w = true
      /\ test_post (_config (client w)) = false
      /\ (token data ∈ _valid_tokens (client w))
      /\ exists chnl content embed,
           _my_channel (client w) = Some chnl
           /\ calls run.2
              = calls w ++ [(Send (chan_id chnl) content (Some embed),
                             oracle w (length (calls w)))]
           /\ platform run.2 = platform w).
Proof.
  unfold session_ready, _on_notify, bind, get, try_except, py_assert,
    platform_call, log, modify, ret, raise. simpl.
  destruct (ready (client w)); simpl; [|by left].
  destruct (_init_done (client w)); simpl; [|by left].
  destruct (test_post (_config (client w))); simpl; [by left|].
  destruct (_my_ping_role (client w)) as [role|]; simpl; [|by left].
  destruct (_my_channel (client w)) as [chnl|]; simpl; [|by left].
  case_bool_decide as Htok; simpl; [|by left].
  destruct (ip data); simpl; try by left.
  right. repeat split; try done.
  eexists _, _, _. split; [done|].
  destruct (oracle w (length (calls w))) as [e|]; simpl.
  - destruct (is_DiscordException e); simpl; done.
  - done.
Qed.

(** C1. While the session is not ready the dispatcher returns false and
    makes no platform call; and when it makes a platform call, that
    call is one send, the session was ready, and the token of the event
    is in the allow-list, the assertion on it having passed before the
    send. *)
Theorem C1_notify_guard `{Builtins} (data : NotifyPayload) (w : World) :
  let run := _on_notify data w in
  (session_ready w = false ->
     run.1 = Ok false /\ new_calls w run.2 = [] /\ platform run.2 = platform w)
  /\ (new_calls w run.2 <> [] ->
        session_ready w = true
        /\ (token data ∈ _valid_tokens (client w))
        /\ exists c, new_calls w run.2 = [c] /\ is_send c = true).
Proof.
  split.
  - intros Hr. simpl. rewrite (on_notify_not_ready data w Hr). simpl.
    split; [done|]. split; [by apply new_calls_same|done].
  - intros Hnew. destruct (on_notify_calls data w) as [[Hc _]|Hsend].
    + by rewrite (new_calls_same _ _ Hc) in Hnew.
    + destruct Hsend as (Hr & _ & Htok & chnl & content & embed & _ & Hc & _).
      split; [done|]. split; [done|].
      eexists. split; [by apply new_calls_app|done].
Qed.

(** A client that has not seen [on_ready] refuses an event; a ready one
    sends the mention for an event with a listed token. *)
Lemma C1_witness :
  session_ready world_fresh = false
  /\ (@_on_notify sample_builtins (sample_payload "token1") world_fresh).1
     = Ok false
  /\ new_calls world_ready
       (@_on_notify sample_builtins (sample_payload "token1") world_ready).2
     <> []
  /\ ("token1" ∈ _valid_tokens (client world_ready)).
Proof.
  pose proof (@C1_notify_guard sample_builtins (sample_payload "token1")
                world_fresh) as [H0 _].
  pose proof (@C1_notify_guard sample_builtins (sample_payload "token1")
                world_ready) as [_ H1].
  split; [reflexivity|]. split; [apply H0; reflexivity|].
  assert (Hne : new_calls world_ready
                  (@_on_notify sample_builtins (sample_payload "token1")
                     world_ready).2 <> [])
    by (vm_compute; discriminate).
  split; [exact Hne|]. apply (H1 Hne).
Defined.

(** A rejected send: the [except] clause logs and binds nothing, so the
    [return success] that follows reads an unbound local. *)
Lemma on_notify_send_rejected `{Builtins} (data : NotifyPayload) (w : World)
    (role : Role) (chnl : Channel) (s msg : string) :
  session_ready w = true ->
  test_post (_config (client w)) = false ->
  _my_ping_role (client w) = Some role ->
  _my_channel (client w) = Some chnl ->
  token data ∈ _valid_tokens (client w) ->
  ip data = JStr s ->
  oracle w (length (calls w)) = Some (DiscordException msg) ->
  let run := _on_notify data w in
  run.1 = Raise (UnboundLocalError "success")
  /\ clog run.2 = clog w ++ [(ERROR, "Error sending a mention: " +:+ msg)]
  /\ exists content embed,
       calls run.2
       = calls w ++ [(Send (chan_id chnl) content (Some embed),
                      Some (DiscordException msg))].
Proof.
  unfold session_ready, _on_notify, bind, get, try_except, py_assert,
    platform_call, log, modify, ret, raise. simpl.
  intros Hr Ht Hrole Hch Htok Hip Hor.
  rewrite <- negb_andb, Hr, Ht, Hrole, Hch. simpl.
  rewrite (bool_decide_eq_true_2 _ Htok), Hip. simpl.
  rewrite Hor. simpl. eauto.
Qed.

(** The assertion on the token, in a ready session outside test mode. *)
Lemma on_notify_invalid_token `{Builtins} (data : NotifyPayload) (w : World) :
  session_ready w = true ->
  test_post (_config (client w)) = false ->
  is_Some (_my_ping_role (client w)) ->
  is_Some (_my_channel (client w)) ->
  token data ∉ _valid_tokens (client w) ->
  _on_notify data w = (Raise (AssertionError "Invalid token."), w).
Proof.
  unfold session_ready, _on_notify, bind, get, py_assert, raise. simpl.
  intros Hr Ht [role Hrole] [chnl Hch] Htok.
  rewrite <- negb_andb, Hr, Ht, Hrole, Hch. simpl.
  by rewrite (bool_decide_eq_false_2 _ Htok).
Qed.

(** What a request shows of itself, by the two ways through the handler. *)
Lemma outcome_parsed `{Builtins} (request : Request) (w : World)
    (app : NotifyWebApp) (v : json) (data : NotifyPayload) :
  req_json request = Ok v -> construct v = Ok data ->
  outcome app (serve_post request (w, app))
  = (Ok (_send_response (match (_on_notify data w).1 with
                         | Ok b => b
                         | Raise _ => false
                         end)),
     [(_on_notify data w).1]).
Proof.
  intros Hj Hc. unfold outcome, serve_post.
  destruct (handle_parsed _on_notify request w app v data Hj Hc) as (H1 & _ & H3).
  by rewrite H1, H3, drop_app_length.
Qed.

Lemma outcome_malformed `{Builtins} (request : Request) (w : World)
    (app : NotifyWebApp) :
  malformed request ->
  outcome app (serve_post request (w, app)) = (Ok (_send_response false), []).
Proof.
  intros Hbad. unfold outcome, serve_post.
  destruct (handle_malformed _on_notify request w app Hbad) as (H1 & H2 & _).
  by rewrite H1, H2, drop_all.
Qed.

(** C3. In a ready session outside test mode, with the handles resolved
    and a listed token, a send that the platform rejects with a
    [DiscordException] is caught and logged; the dispatcher then reads
    the local [success], which no assignment has bound, and raises
    [UnboundLocalError] where the claim has it return false. The web
    handler catches that exception and still answers 400. *)
Theorem C3_send_failure_raises `{Builtins} (data : NotifyPayload) (w : World)
    (role : Role) (chnl : Channel) (s msg : string) :
  session_ready w = true ->
  test_post (_config (client w)) = false ->
  _my_ping_role (client w) = Some role ->
  _my_channel (client w) = Some chnl ->
  token data ∈ _valid_tokens (client w) ->
  ip data = JStr s ->
  oracle w (length (calls w)) = Some (DiscordException msg) ->
  let run := _on_notify data w in
  run.1 = Raise (UnboundLocalError "success")
  /\ run.1 <> Ok false
  /\ clog run.2 = clog w ++ [(ERROR, "Error sending a mention: " +:+ msg)]
  /\ (forall request v app,
        req_json request = Ok v -> construct v = Ok data ->
        outcome app (serve_post request (w, app))
        = (Ok {| status := 400; body := success_body false |},
           [Raise (UnboundLocalError "success")])).
Proof.
  intros Hr Ht Hrole Hch Htok Hip Hor.
  destruct (on_notify_send_rejected data w role chnl s msg
              Hr Ht Hrole Hch Htok Hip Hor) as (H1 & H2 & _).
  simpl. split; [done|]. split; [by rewrite H1|]. split; [done|].
  intros request v app Hj Hc.
  rewrite (outcome_parsed request w app v data Hj Hc). by rewrite H1.
Qed.

(** The failing input: the sample event with a listed token, the ready
    client, and a platform that answers 403 to the send. *)
Lemma C3_witness :
  (@_on_notify sample_builtins (sample_payload "token1") world_forbidden).1
  = Raise (UnboundLocalError "success").
Proof.
  apply (@C3_send_failure_raises sample_builtins (sample_payload "token1")
           world_forbidden sample_role sample_channel "join_ip"
           "403 Forbidden (error code: 50013): Missing Permissions");
    try reflexivity.
  simpl. constructor.
Defined.

(** C9. With the test-post flag set, a ready session answers true to
    every event, whatever its token, and makes no platform call: the
    flag is tested before the token assertion. A POST that parses is
    therefore answered with status 200 and [{"success": true}] also
    when its token is not in the allow-list. *)
Theorem C9_test_post_skips_token_check `{Builtins} (w : World) :
  session_ready w = true ->
  test_post (_config (client w)) = true ->
  (forall data,
     (_on_notify data w).1 = Ok true
     /\ new_calls w (_on_notify data w).2 = []
     /\ platform (_on_notify data w).2 = platform w)
  /\ (forall request v data app,
        req_json request = Ok v -> construct v = Ok data ->
        token data ∉ _valid_tokens (client w) ->
        (serve_post request (w, app)).1
        = Ok {| status := 200; body := success_body true |}).
Proof.
  intros Hr Ht. split.
  - intros data. rewrite (on_notify_test_post data w Hr Ht). simpl.
    split; [done|]. split; [by apply new_calls_same|done].
  - intros request v data app Hj Hc _.
    pose proof (outcome_parsed request w app v data Hj Hc) as Ho.
    apply (f_equal fst) in Ho. simpl in Ho. rewrite Ho.
    by rewrite (on_notify_test_post data w Hr Ht).
Qed.

(** The sample body with a token that the allow-list does not hold. *)
Lemma C9_witness :
  ("intruder" ∉ _valid_tokens (client world_test_post))
  /\ (@serve_post sample_builtins (sample_request "intruder")
        (world_test_post, app0)).1
     = Ok {| status := 200; body := success_body true |}.
Proof.
  assert (Hout : "intruder" ∉ _valid_tokens (client world_test_post)).
  { simpl. rewrite !not_elem_of_cons. repeat split; try discriminate.
    apply not_elem_of_nil. }
  split; [exact Hout|].
  apply (proj2 (@C9_test_post_skips_token_check sample_builtins world_test_post
                  eq_refl eq_refl)
           (sample_request "intruder") (JObj (sample_dict "intruder"))
           (sample_payload "intruder") app0
           eq_refl eq_refl Hout).
Defined.

(** C2. A POST that parses to an event whose token is not in the
    allow-list never shows the same outcome as a malformed POST: the
    malformed one is answered without a call of the dispatcher, the
    other one after a call. In a ready session outside test mode that
    call ends in [AssertionError("Invalid token.")], which the handler
    catches and logs as a failed request; status and body are then
    those of the malformed request, 400 and [{"success": false}], and
    the outcomes differ by the dispatcher result. *)
Theorem C2_invalid_token_distinct `{Builtins} (w w' : World)
    (app app' : NotifyWebApp) (req_tok req_bad : Request)
    (v : json) (data : NotifyPayload) :
  req_json req_tok = Ok v -> construct v = Ok data ->
  token data ∉ _valid_tokens (client w) ->
  malformed req_bad ->
  let run_tok := serve_post req_tok (w, app) in
  let run_bad := serve_post req_bad (w', app') in
  outcome app run_tok <> outcome app' run_bad
  /\ outcome app' run_bad
     = (Ok {| status := 400; body := success_body false |}, [])
  /\ (session_ready w = true -> test_post (_config (client w)) = false ->
      is_Some (_my_ping_role (client w)) -> is_Some (_my_channel (client w)) ->
      outcome app run_tok
      = (Ok {| status := 400; body := success_body false |},
         [Raise (AssertionError "Invalid token.")])
      /\ last (wtrace run_tok.2.2) = Some (WLog ERROR "Failed to process request?")).
Proof.
  intros Hj Hc Htok Hbad. simpl.
  rewrite (outcome_parsed req_tok w app v data Hj Hc).
  rewrite (outcome_malformed req_bad w' app' Hbad).
  split; [intros Heq; by apply (f_equal snd) in Heq|]. split; [done|].
  intros Hr Ht Hrole Hch.
  rewrite (on_notify_invalid_token data w Hr Ht Hrole Hch Htok). simpl.
  split; [done|].
  unfold serve_post, _handle_webrequest, bind, try_except, lift_result, wlog,
    modify, ret, call_callback.
  rewrite Hj. simpl. rewrite Hc. simpl.
  rewrite (on_notify_invalid_token data w Hr Ht Hrole Hch Htok). simpl.
  by rewrite last_snoc.
Qed.

(** The sample body with an unlisted token against a body that is not
    JSON, both sent to the ready client. *)
Lemma C2_witness :
  outcome app0
    (@serve_post sample_builtins (sample_request "intruder") (world_ready, app0))
  <> outcome app0
       (@serve_post sample_builtins not_json_request (world_ready, app0)).
Proof.
  assert (Hout : "intruder" ∉ _valid_tokens (client world_ready)).
  { simpl. rewrite !not_elem_of_cons. repeat split; try discriminate.
    apply not_elem_of_nil. }
  apply (@C2_invalid_token_distinct sample_builtins world_ready world_ready
           app0 app0 (sample_request "intruder") not_json_request
           (JObj (sample_dict "intruder")) (sample_payload "intruder")
           eq_refl eq_refl Hout).
  left. eexists. split; reflexivity.
Defined.

(** ** Role commands *)

Lemma member_roles_update (f : gset Z -> gset Z) (p : Platform) (m : Member) :
  is_Some (guild_members p !! (member_guild m, member_id m)) ->
  member_roles (update_roles f (member_guild m) (member_id m) p) m
  = f (member_roles p m).
Proof.
  intros [ms Hms]. unfold member_roles, update_roles. simpl.
  rewrite lookup_alter_eq, Hms. reflexivity.
Qed.

Lemma guild_member_known (w : World) (m : Member) :
  is_guild_member w m ->
  is_Some (guild_members (platform w) !! (member_guild m, member_id m)).
Proof.
  unfold is_guild_member, get_member. intros Hm.
  destruct (guild_members (platform w) !! _); [by eexists|done].
Qed.

(** A reply through [_channel_msg]: one send, nothing else changes. *)
Lemma channel_msg_run (msg : string) (chnl : Channel) (w : World) :
  let run := _channel_msg msg chnl w in
  calls run.2 = calls w ++ [(Send (chan_id chnl) msg None,
                             oracle w (length (calls w)))]
  /\ platform run.2 = platform w
  /\ client run.2 = client w
  /\ oracle run.2 = oracle w.
Proof.
  unfold _channel_msg, try_except, platform_call, log, modify. simpl.
  destruct (oracle w (length (calls w))) as [e|]; simpl; [|done].
  destruct (is_DiscordException e); simpl; done.
Qed.

(** [add] for a member who holds the role is the "already have" reply. *)
Lemma add_ping_role_held (member : Member) (chnl : Channel) (w : World)
    (role : Role) :
  _my_ping_role (client w) = Some role -> holds w member role ->
  _add_ping_role member chnl w
  = _channel_msg (reply_already member role) chnl w.
Proof.
  unfold _add_ping_role, holds, bind, get. simpl. intros -> Hh.
  by rewrite decide_True.
Qed.

(** [add] for a member who lacks the role: one grant, then the
    confirmation when the grant went through, and the failure notice
    after a [DiscordException] from either call. *)
Lemma add_ping_role_grant (member : Member) (chnl : Channel) (w : World)
    (role : Role) :
  _my_ping_role (client w) = Some role -> ~ holds w member role ->
  let run := _add_ping_role member chnl w in
  let k := length (calls w) in
  let grant := AddRoles (member_guild member) (member_id member)
                 (role_id role) "User requested." in
  let added := Send (chan_id chnl) (reply_added member role) None in
  let failed := Send (chan_id chnl) (reply_add_failed member role) None in
  client run.2 = client w /\ oracle run.2 = oracle w
  /\ match oracle w k with
     | None =>
         platform run.2
         = update_roles (fun rs => {[ role_id role ]} ∪ rs)
             (member_guild member) (member_id member) (platform w)
         /\ (calls run.2 = calls w ++ [(grant, None); (added, oracle w (S k))]
             \/ calls run.2
                = calls w ++ [(grant, None); (added, oracle w (S k));
                              (failed, oracle w (S (S k)))])
     | Some e =>
         platform run.2 = platform w
         /\ (calls run.2 = calls w ++ [(grant, Some e)]
             \/ calls run.2
                = calls w ++ [(grant, Some e); (failed, oracle w (S k))])
     end.
Proof.
  unfold _add_ping_role, holds, bind, get. simpl. intros -> Hh.
  rewrite decide_False by done.
  unfold try_except, bind, platform_call, log, modify, ret, any_exn. simpl.
  destruct (oracle w (length (calls w))) as [e1|] eqn:H1; simpl.
  - destruct (is_DiscordException e1); simpl; [|by auto].
    rewrite length_app. simpl. rewrite Nat.add_1_r.
    destruct (oracle w (S (length (calls w)))) as [e2|]; simpl;
      rewrite <- ?app_assoc; by auto.
  - rewrite length_app. simpl. rewrite Nat.add_1_r.
    destruct (oracle w (S (length (calls w)))) as [e2|] eqn:H2; simpl.
    + destruct (is_DiscordException e2); simpl.
      * rewrite !length_app. simpl. rewrite <- !Nat.add_assoc. simpl.
        rewrite Nat.add_comm. simpl.
        destruct (oracle w (S (S (length (calls w))))); simpl;
          rewrite <- ?app_assoc; simpl; by auto.
      * rewrite <- ?app_assoc; simpl; by auto.
    + rewrite <- ?app_assoc; simpl; by auto.
Qed.

(** [remove] for a member who lacks the role is the "don't have" reply. *)
Lemma remove_ping_role_not_held (member : Member) (chnl : Channel) (w : World)
    (role : Role) :
  _my_ping_role (client w) = Some role -> ~ holds w member role ->
  _remove_ping_role member chnl w
  = _channel_msg (reply_not_held member role) chnl w.
Proof.
  unfold _remove_ping_role, holds, bind, get. simpl. intros -> Hh.
  by rewrite decide_True.
Qed.

(** [remove] for a member who holds the role, as for [add]. *)
Lemma remove_ping_role_revoke (member : Member) (chnl : Channel) (w : World)
    (role : Role) :
  _my_ping_role (client w) = Some role -> holds w member role ->
  let run := _remove_ping_role member chnl w in
  let k := length (calls w) in
  let revoke := RemoveRoles (member_guild member) (member_id member)
                  (role_id role) "User requested." in
  let removed := Send (chan_id chnl) (reply_removed member role) None in
  let failed := Send (chan_id chnl) (reply_remove_failed member role) None in
  client run.2 = client w /\ oracle run.2 = oracle w
  /\ match oracle w k with
     | None =>
         platform run.2
         = update_roles (fun rs => rs ∖ {[ role_id role ]})
             (member_guild member) (member_id member) (platform w)
         /\ (calls run.2 = calls w ++ [(revoke, None); (removed, oracle w (S k))]
             \/ calls run.2
                = calls w ++ [(revoke, None); (removed, oracle w (S k));
                              (failed, oracle w (S (S k)))])
     | Some e =>
         platform run.2 = platform w
         /\ (calls run.2 = calls w ++ [(revoke, Some e)]
             \/ calls run.2
                = calls w ++ [(revoke, Some e); (failed, oracle w (S k))])
     end.
Proof.
  unfold _remove_ping_role, holds, bind, get. simpl. intros -> Hh.
  rewrite decide_False by (intros Hn; by apply Hn).
  unfold try_except, bind, platform_call, log, modify, ret, any_exn. simpl.
  destruct (oracle w (length (calls w))) as [e1|] eqn:H1; simpl.
  - destruct (is_DiscordException e1); simpl; [|by auto].
    rewrite length_app. simpl. rewrite Nat.add_1_r.
    destruct (oracle w (S (length (calls w)))) as [e2|]; simpl;
      rewrite <- ?app_assoc; by auto.
  - rewrite length_app. simpl. rewrite Nat.add_1_r.
    destruct (oracle w (S (length (calls w)))) as [e2|] eqn:H2; simpl.
    + destruct (is_DiscordException e2); simpl.
      * rewrite !length_app. simpl. rewrite <- !Nat.add_assoc. simpl.
        rewrite Nat.add_comm. simpl.
        destruct (oracle w (S (S (length (calls w))))); simpl;
          rewrite <- ?app_assoc; simpl; by auto.
      * rewrite <- ?app_assoc; simpl; by auto.
    + rewrite <- ?app_assoc; simpl; by auto.
Qed.

Lemma eqb_app_prefix (a x y : string) :
  String.eqb (a +:+ x) (a +:+ y) = String.eqb x y.
Proof.
  induction a as [|c a IH]; rewrite ?app_String, ?app_empty; [done|].
  simpl. by rewrite Ascii.eqb_refl.
Qed.

Lemma reply_add_failed_differs (member : Member) (role : Role) :
  String.eqb (reply_add_failed member role) (reply_added member role) = false.
Proof. unfold reply_add_failed, reply_added. by rewrite eqb_app_prefix. Qed.

Lemma reply_remove_failed_differs (member : Member) (role : Role) :
  String.eqb (reply_remove_failed member role) (reply_removed member role) = false.
Proof. unfold reply_remove_failed, reply_removed. by rewrite eqb_app_prefix. Qed.

(** [add] never takes the role away, and its platform calls extend the
    list of calls. *)
Lemma add_ping_role_keeps (member : Member) (chnl : Channel) (w : World)
    (role : Role) :
  _my_ping_role (client w) = Some role -> is_guild_member w member ->
  let w1 := (_add_ping_role member chnl w).2 in
  client w1 = client w /\ oracle w1 = oracle w
  /\ is_guild_member w1 member
  /\ (holds w member role -> holds w1 member role).
Proof.
  intros Hrole Hm. simpl.
  destruct (decide (role_id role ∈ member_roles (platform w) member)) as [Hh|Hh].
  - rewrite (add_ping_role_held member chnl w role Hrole Hh).
    destruct (channel_msg_run (reply_already member role) chnl w)
      as (_ & Hp & Hc & Ho).
    unfold is_guild_member, holds in *. by rewrite Hp.
  - destruct (add_ping_role_grant member chnl w role Hrole Hh) as (Hc & Ho & Hcase).
    split; [done|]. split; [done|]. split; [|done].
    unfold is_guild_member in *.
    destruct (oracle w (length (calls w))); destruct Hcase as [-> _]; [done|].
    unfold get_member, update_roles in *. simpl.
    rewrite lookup_alter_eq.
    destruct (guild_members (platform w) !! _) as [ms|]; simpl in *; [|done].
    done.
Qed.

Lemma role_after_update (w w1 : World) (member : Member) (role : Role) :
  is_guild_member w member ->
  (platform w1
   = update_roles (fun rs => {[ role_id role ]} ∪ rs)
       (member_guild member) (member_id member) (platform w) ->
   holds w1 member role)
  /\ (platform w1
      = update_roles (fun rs => rs ∖ {[ role_id role ]})
          (member_guild member) (member_id member) (platform w) ->
      ~ holds w1 member role).
Proof.
  intros Hm. unfold holds.
  split; intros Hp; rewrite Hp;
    (rewrite member_roles_update by (by apply guild_member_known)).
  - by apply elem_of_union_l, elem_of_singleton.
  - rewrite elem_of_difference, elem_of_singleton. by intros [_ Hn].
Qed.

Lemma sends_text_send (text : string) (c : Z) (content : string)
    (embed : option Embed) (o : option exn) :
  sends_text text (Send c content embed, o) = String.eqb content text.
Proof. reflexivity. Qed.

Ltac count_replies :=
  unfold count; cbn [List.filter];
  rewrite ?sends_text_send, ?String.eqb_refl, ?reply_add_failed_differs,
    ?reply_remove_failed_differs;
  reflexivity.

Lemma add_step_held (member : Member) (chnl : Channel) (w : World) (role : Role) :
  _my_ping_role (client w) = Some role -> holds w member role ->
  let w1 := (_add_ping_role member chnl w).2 in
  new_calls w w1
  = [(Send (chan_id chnl) (reply_already member role) None,
      oracle w (length (calls w)))]
  /\ platform w1 = platform w.
Proof.
  intros Hrole Hh. simpl.
  rewrite (add_ping_role_held member chnl w role Hrole Hh).
  destruct (channel_msg_run (reply_already member role) chnl w) as (Hc & Hp & _).
  split; [by apply new_calls_app|done].
Qed.

Lemma add_step_grant (member : Member) (chnl : Channel) (w : World) (role : Role) :
  _my_ping_role (client w) = Some role -> is_guild_member w member ->
  ~ holds w member role ->
  let w1 := (_add_ping_role member chnl w).2 in
  exists rest,
    new_calls w w1
    = (AddRoles (member_guild member) (member_id member) (role_id role)
         "User requested.", oracle w (length (calls w))) :: rest
    /\ count is_grant rest = 0%nat
    /\ (oracle w (length (calls w)) = None ->
        holds w1 member role
        /\ count (sends_text (reply_added member role)) rest = 1%nat)
    /\ (oracle w (length (calls w)) <> None ->
        platform w1 = platform w
        /\ count (sends_text (reply_added member role)) rest = 0%nat).
Proof.
  intros Hrole Hm Hh. simpl.
  destruct (add_ping_role_grant member chnl w role Hrole Hh) as (_ & _ & Hcase).
  destruct (oracle w (length (calls w))) as [e|];
    destruct Hcase as [Hp [Hc|Hc]]; apply new_calls_app in Hc;
    eexists; (split; [exact Hc|]); (split; [reflexivity|]);
    split; intros Ho; try discriminate Ho; try (by destruct Ho);
    (split; [first [exact Hp | by eapply role_after_update]
            | count_replies]).
Qed.

Lemma remove_step_not_held (member : Member) (chnl : Channel) (w : World)
    (role : Role) :
  _my_ping_role (client w) = Some role -> ~ holds w member role ->
  let u1 := (_remove_ping_role member chnl w).2 in
  new_calls w u1
  = [(Send (chan_id chnl) (reply_not_held member role) None,
      oracle w (length (calls w)))]
  /\ platform u1 = platform w.
Proof.
  intros Hrole Hh. simpl.
  rewrite (remove_ping_role_not_held member chnl w role Hrole Hh).
  destruct (channel_msg_run (reply_not_held member role) chnl w) as (Hc & Hp & _).
  split; [by apply new_calls_app|done].
Qed.

Lemma remove_step_revoke (member : Member) (chnl : Channel) (w : World)
    (role : Role) :
  _my_ping_role (client w) = Some role -> is_guild_member w member ->
  holds w member role ->
  let u1 := (_remove_ping_role member chnl w).2 in
  exists rest,
    new_calls w u1
    = (RemoveRoles (member_guild member) (member_id member) (role_id role)
         "User requested.", oracle w (length (calls w))) :: rest
    /\ count is_revoke rest = 0%nat
    /\ (oracle w (length (calls w)) = None ->
        ~ holds u1 member role
        /\ count (sends_text (reply_removed member role)) rest = 1%nat)
    /\ (oracle w (length (calls w)) <> None ->
        platform u1 = platform w
        /\ count (sends_text (reply_removed member role)) rest = 0%nat).
Proof.
  intros Hrole Hm Hh. simpl.
  destruct (remove_ping_role_revoke member chnl w role Hrole Hh) as (_ & _ & Hcase).
  destruct (oracle w (length (calls w))) as [e|];
    destruct Hcase as [Hp [Hc|Hc]]; apply new_calls_app in Hc;
    eexists; (split; [exact Hc|]); (split; [reflexivity|]);
    split; intros Ho; try discriminate Ho; try (by destruct Ho);
    (split; [first [exact Hp | by eapply role_after_update]
            | count_replies]).
Qed.

(** *** The platform's own state and the cache *)

Lemma replay_app (cs1 cs2 : list (pcall * option exn)) (p : Platform) :
  replay (cs1 ++ cs2) p = replay cs2 (replay cs1 p).
Proof.
  revert p. induction cs1 as [|[c [e|]] cs1 IH]; intros p; simpl;
    [done|apply IH|apply IH].
Qed.

Lemma replay_sends (cs : list (pcall * option exn)) (p : Platform) :
  Forall (fun c => is_send c = true) cs -> replay cs p = p.
Proof.
  induction 1 as [|[c o] cs Hc _ IH]; simpl; [done|].
  destruct c; try done. destruct o; simpl; exact IH.
Qed.

Lemma replay_call_sends (c : pcall) (o : option exn)
    (rest : list (pcall * option exn)) (p : Platform) :
  Forall (fun c => is_send c = true) rest ->
  replay ((c, o) :: rest) p
  = match o with
    | None => apply_call c p
    | Some _ => p
    end.
Proof. intros Hrest. destruct o; simpl; by apply replay_sends. Qed.

Lemma sends_no_grant (cs : list (pcall * option exn)) :
  Forall (fun c => is_send c = true) cs -> count is_grant cs = 0%nat.
Proof.
  unfold count. induction 1 as [|[c o] cs Hc _ IH]; simpl; [done|].
  destruct c; try done.
Qed.

Lemma sends_no_revoke (cs : list (pcall * option exn)) :
  Forall (fun c => is_send c = true) cs ->
  Forall (fun c => is_revoke c = false) cs.
Proof.
  intros Hcs. eapply Forall_impl; [exact Hcs|].
  intros [c o]. by destruct c.
Qed.

Lemma member_roles_grows (g u r : Z) (p : Platform) (m : Member) (x : Z) :
  x ∈ member_roles p m ->
  x ∈ member_roles (update_roles (fun rs => {[ r ]} ∪ rs) g u p) m.
Proof.
  unfold member_roles, update_roles. simpl.
  destruct (decide ((g, u) = (member_guild m, member_id m))) as [<-|Hne].
  - rewrite lookup_alter_eq.
    destruct (guild_members p !! (g, u)); simpl; [|done].
    intros Hx. by apply elem_of_union_r.
  - by rewrite lookup_alter_ne.
Qed.

(** Calls other than a revoke take no role away on the platform. *)
Lemma replay_keeps (cs : list (pcall * option exn)) (p : Platform)
    (m : Member) (x : Z) :
  Forall (fun c => is_revoke c = false) cs ->
  x ∈ member_roles p m -> x ∈ member_roles (replay cs p) m.
Proof.
  intros Hcs. revert p.
  induction Hcs as [|[c o] cs Hc _ IH]; intros p Hx; simpl; [done|].
  destruct o as [e|]; [by apply IH|]. apply IH.
  destruct c as [ch content embed|g u r reason|g u r reason]; simpl;
    [done|by apply member_roles_grows|done].
Qed.

Lemma new_calls_two (w v v2 : World) (a b : list (pcall * option exn)) :
  calls v = calls w ++ a -> calls v2 = calls v ++ b ->
  new_calls w v2 = a ++ b.
Proof.
  intros Ha Hb. apply new_calls_app. by rewrite Hb, Ha, app_assoc.
Qed.

(** The calls of one [add], in whatever world it starts: the one reply
    when [member.roles] shows the role, the grant and then sends only
    when it does not; the platform state it leaves is the replay of
    those calls. *)
Lemma add_calls (member : Member) (chnl : Channel) (v : World) (role : Role) :
  _my_ping_role (client v) = Some role ->
  let v2 := (_add_ping_role member chnl v).2 in
  let k := length (calls v) in
  let grant := AddRoles (member_guild member) (member_id member)
                 (role_id role) "User requested." in
  client v2 = client v /\ oracle v2 = oracle v
  /\ exists l,
       calls v2 = calls v ++ l
       /\ platform v2 = replay l (platform v)
       /\ (holds v member role ->
           l = [(Send (chan_id chnl) (reply_already member role) None,
                 oracle v k)])
       /\ (~ holds v member role ->
           exists rest, l = (grant, oracle v k) :: rest
                        /\ Forall (fun c => is_send c = true) rest).
Proof.
  intros Hrole. simpl.
  destruct (decide (role_id role ∈ member_roles (platform v) member))
    as [Hh|Hh].
  - rewrite (add_ping_role_held member chnl v role Hrole Hh).
    destruct (channel_msg_run (reply_already member role) chnl v)
      as (Hc & Hp & Hcl & Ho).
    split; [done|]. split; [done|]. eexists. split; [exact Hc|].
    split; [by destruct (oracle v (length (calls v)))|].
    split; [done|]. intros Hn. by destruct Hn.
  - destruct (add_ping_role_grant member chnl v role Hrole Hh)
      as (Hcl & Ho & Hcase).
    split; [done|]. split; [done|].
    destruct (oracle v (length (calls v))) as [e|];
      destruct Hcase as [Hp [Hc|Hc]]; eexists; (split; [exact Hc|]);
      (split; [rewrite replay_call_sends by (by repeat constructor);
               exact Hp|]);
      (split; [intros Hy; by destruct Hh|]); intros _; eexists;
      (split; [reflexivity|]); by repeat constructor.
Qed.

(** The same for [remove]. *)
Lemma remove_calls (member : Member) (chnl : Channel) (v : World)
    (role : Role) :
  _my_ping_role (client v) = Some role ->
  let v2 := (_remove_ping_role member chnl v).2 in
  let k := length (calls v) in
  let revoke := RemoveRoles (member_guild member) (member_id member)
                  (role_id role) "User requested." in
  client v2 = client v /\ oracle v2 = oracle v
  /\ exists l,
       calls v2 = calls v ++ l
       /\ platform v2 = replay l (platform v)
       /\ (~ holds v member role ->
           l = [(Send (chan_id chnl) (reply_not_held member role) None,
                 oracle v k)])
       /\ (holds v member role ->
           exists rest, l = (revoke, oracle v k) :: rest
                        /\ Forall (fun c => is_send c = true) rest).
Proof.
  intros Hrole. simpl.
  destruct (decide (role_id role ∈ member_roles (platform v) member))
    as [Hh|Hh].
  - destruct (remove_ping_role_revoke member chnl v role Hrole Hh)
      as (Hcl & Ho & Hcase).
    split; [done|]. split; [done|].
    destruct (oracle v (length (calls v))) as [e|];
      destruct Hcase as [Hp [Hc|Hc]]; eexists; (split; [exact Hc|]);
      (split; [rewrite replay_call_sends by (by repeat constructor);
               exact Hp|]);
      (split; [intros Hn; by destruct Hn|]); intros _; eexists;
      (split; [reflexivity|]); by repeat constructor.
  - rewrite (remove_ping_role_not_held member chnl v role Hrole Hh).
    destruct (channel_msg_run (reply_not_held member role) chnl v)
      as (Hc & Hp & Hcl & Ho).
    split; [done|]. split; [done|]. eexists. split; [exact Hc|].
    split; [by destruct (oracle v (length (calls v)))|].
    split; [done|]. intros Hy. by destruct Hh.
Qed.

(** What the next handler finds differs from [w1] in the guild only. *)
Lemma next_view_fields (refreshed : bool) (w w1 : World) :
  client (next_view refreshed w w1) = client w1
  /\ calls (next_view refreshed w w1) = calls w1
  /\ oracle (next_view refreshed w w1) = oracle w1
  /\ (platform (next_view refreshed w w1) = platform w1
      \/ platform (next_view refreshed w w1) = platform w).
Proof. destruct refreshed; simpl; auto. Qed.

(** C6 (as amended). For a guild member and a resolved ping role: [add]
    for a holder makes no grant and makes the one "already have" send;
    [add] for a non-holder attempts exactly one grant and, when the
    grant goes through, the member holds the role on the platform and
    exactly one confirmation send is made; [remove] mirrors this with
    the revoke. Of two [add]s in sequence, the second runs on what
    [member.roles] shows then, the roles after the first once the
    gateway event has arrived ([refreshed]) and the roles before it
    until then. Either way the two never take a held role away, a
    holder causes no grant at all, the second issues no grant when
    [member.roles] shows the role and exactly one when it does not, and
    the member is without the role on the platform afterwards only when
    the platform rejected the grant both times. Before the event,
    though, the second [add] of a member who lacked the role attempts a
    grant again, also when the first grant went through. *)
Theorem C6_role_commands (member : Member) (chnl : Channel) (w : World)
    (role : Role) :
  _my_ping_role (client w) = Some role ->
  is_guild_member w member ->
  let k := length (calls w) in
  let w1 := (_add_ping_role member chnl w).2 in
  let u1 := (_remove_ping_role member chnl w).2 in
  let grant := AddRoles (member_guild member) (member_id member)
                 (role_id role) "User requested." in
  let revoke := RemoveRoles (member_guild member) (member_id member)
                  (role_id role) "User requested." in
  (holds w member role ->
     new_calls w w1
     = [(Send (chan_id chnl) (reply_already member role) None, oracle w k)]
     /\ platform w1 = platform w)
  /\ (~ holds w member role ->
      exists rest,
        new_calls w w1 = (grant, oracle w k) :: rest
        /\ count is_grant rest = 0%nat
        /\ (oracle w k = None ->
            holds w1 member role
            /\ count (sends_text (reply_added member role)) rest = 1%nat)
        /\ (oracle w k <> None ->
            platform w1 = platform w
            /\ count (sends_text (reply_added member role)) rest = 0%nat))
  /\ (~ holds w member role ->
      new_calls w u1
      = [(Send (chan_id chnl) (reply_not_held member role) None, oracle w k)]
      /\ platform u1 = platform w)
  /\ (holds w member role ->
      exists rest,
        new_calls w u1 = (revoke, oracle w k) :: rest
        /\ count is_revoke rest = 0%nat
        /\ (oracle w k = None ->
            ~ holds u1 member role
            /\ count (sends_text (reply_removed member role)) rest = 1%nat)
        /\ (oracle w k <> None ->
            platform u1 = platform w
            /\ count (sends_text (reply_removed member role)) rest = 0%nat))
  /\ (forall refreshed : bool,
      let v := next_view refreshed w w1 in
      let v2 := (_add_ping_role member chnl v).2 in
      (holds w member role ->
         holds_after w v2 member role
         /\ count is_grant (new_calls w v2) = 0%nat)
      /\ (~ holds w member role -> oracle w k = None ->
          holds_after w v2 member role)
      /\ (holds v member role -> count is_grant (new_calls v v2) = 0%nat)
      /\ (~ holds v member role ->
          exists rest,
            new_calls v v2 = (grant, oracle w (length (calls w1))) :: rest
            /\ count is_grant rest = 0%nat)
      /\ (~ holds_after w v2 member role ->
          ~ holds w member role
          /\ exists e1 e2,
               head (new_calls w w1) = Some (grant, Some e1)
               /\ head (new_calls v v2) = Some (grant, Some e2)))
  /\ (~ holds w member role ->
      ~ holds (unrefreshed w w1) member role
      /\ count is_grant
           (new_calls (unrefreshed w w1)
              (_add_ping_role member chnl (unrefreshed w w1)).2) = 1%nat).
Proof.
  intros Hrole Hm. simpl.
  split; [by apply add_step_held|].
  split; [by apply add_step_grant|].
  split; [by apply remove_step_not_held|].
  split; [by apply remove_step_revoke|].
  destruct (add_calls member chnl w role Hrole)
    as (Hc1 & Ho1 & l1 & Hl1 & Hp1 & Hheld1 & Hgrant1).
  split.
  - intros refreshed.
    destruct (next_view_fields refreshed w (_add_ping_role member chnl w).2)
      as (Hvc & Hvl & Hvo & Hvp).
    assert (Hrolev : _my_ping_role
                       (client (next_view refreshed w
                                  (_add_ping_role member chnl w).2))
                     = Some role) by by rewrite Hvc, Hc1.
    destruct (add_calls member chnl _ role Hrolev)
      as (_ & _ & l2 & Hl2 & _ & Hheld2 & Hgrant2).
    rewrite Hvl in Hl2 at 1.
    rewrite Hvo, Ho1, Hvl in Hheld2, Hgrant2.
    assert (Hnew : new_calls w (_add_ping_role member chnl
                     (next_view refreshed w (_add_ping_role member chnl w).2)).2
                   = l1 ++ l2) 
      by by apply (new_calls_two w (_add_ping_role member chnl w).2 _ l1 l2).
    assert (Hnew2 : new_calls (next_view refreshed w
                                 (_add_ping_role member chnl w).2)
                      (_add_ping_role member chnl
                         (next_view refreshed w
                            (_add_ping_role member chnl w).2)).2
                    = l2) by (apply new_calls_app; by rewrite Hvl).
    assert (Hnew1 : new_calls w (_add_ping_role member chnl w).2 = l1)
      by by apply new_calls_app.
    assert (Hnorev : Forall (fun c => is_revoke c = false) (l1 ++ l2)).
    { apply Forall_app. split.
      - destruct (decide (role_id role ∈ member_roles (platform w) member))
          as [Hh|Hh].
        + rewrite (Hheld1 Hh). by repeat constructor.
        + destruct (Hgrant1 Hh) as (rest & -> & Hrest).
          constructor; [done|by apply sends_no_revoke].
      - destruct (decide (role_id role
                            ∈ member_roles
                                (platform (next_view refreshed w
                                   (_add_ping_role member chnl w).2))
                                member)) as [Hh|Hh].
        + rewrite (Hheld2 Hh). by repeat constructor.
        + destruct (Hgrant2 Hh) as (rest & -> & Hrest).
          constructor; [done|by apply sends_no_revoke]. }
    assert (Hviewheld : holds w member role ->
              holds (next_view refreshed w (_add_ping_role member chnl w).2)
                member role).
    { intros Hh. unfold holds. destruct Hvp as [-> | ->]; [|done].
      rewrite Hp1, (Hheld1 Hh). by destruct (oracle w (length (calls w))). }
    assert (Hkeep : holds w member role ->
              holds_after w (_add_ping_role member chnl
                (next_view refreshed w (_add_ping_role member chnl w).2)).2
                member role).
    { intros Hh. unfold holds_after. rewrite Hnew. by apply replay_keeps. }
    assert (Hfirst : ~ holds w member role ->
              oracle w (length (calls w)) = None ->
              holds_after w (_add_ping_role member chnl
                (next_view refreshed w (_add_ping_role member chnl w).2)).2
                member role).
    { intros Hn Hok. unfold holds_after. rewrite Hnew, replay_app.
      apply replay_keeps; [by apply Forall_app in Hnorev as [_ ?]|].
      destruct (Hgrant1 Hn) as (rest & -> & Hrest). rewrite Hok. simpl.
      rewrite (replay_sends _ _ Hrest).
      rewrite member_roles_update by (by apply guild_member_known).
      by apply elem_of_union_l, elem_of_singleton. }
    split; [|split; [exact Hfirst|split; [|split]]].
    + intros Hh. split; [by apply Hkeep|].
      rewrite Hnew, (Hheld1 Hh), (Hheld2 (Hviewheld Hh)). reflexivity.
    + intros Hh. rewrite Hnew2, (Hheld2 Hh). reflexivity.
    + intros Hn. rewrite Hnew2. destruct (Hgrant2 Hn) as (rest & -> & Hrest).
      exists rest. split; [done|by apply sends_no_grant].
    + intros Hna.
      assert (Hn : ~ holds w member role) by (intros Hh; by apply Hna, Hkeep).
      split; [done|].
      destruct (Hgrant1 Hn) as (rest1 & Hr1 & Hrest1).
      destruct (oracle w (length (calls w))) as [e1|] eqn:Hok1;
        [|by destruct Hna; apply Hfirst].
      assert (Hsame : platform (_add_ping_role member chnl w).2 = platform w).
      { rewrite Hp1, Hr1. simpl. by apply replay_sends. }
      assert (Hnv : ~ holds (next_view refreshed w
                               (_add_ping_role member chnl w).2) member role).
      { unfold holds. by destruct Hvp as [-> | ->]; rewrite ?Hsame. }
      destruct (Hgrant2 Hnv) as (rest2 & Hr2 & Hrest2).
      destruct (oracle w (length (calls (_add_ping_role member chnl w).2)))
        as [e2|] eqn:Hok2.
      * exists e1, e2. by rewrite Hnew1, Hnew2, Hr1, Hr2.
      * destruct Hna. unfold holds_after. rewrite Hnew, replay_app, Hr1, Hr2.
        simpl. rewrite (replay_sends _ _ Hrest1), (replay_sends _ _ Hrest2).
        rewrite member_roles_update by (by apply guild_member_known).
        by apply elem_of_union_l, elem_of_singleton.
  - intros Hn. split; [exact Hn|].
    assert (Hrolev : _my_ping_role
                       (client (unrefreshed w (_add_ping_role member chnl w).2))
                     = Some role) by (simpl; by rewrite Hc1).
    destruct (add_calls member chnl _ role Hrolev)
      as (_ & _ & l2 & Hl2 & _ & _ & Hgrant2).
    destruct (Hgrant2 Hn) as (rest & -> & Hrest).
    rewrite (new_calls_app _ _ _ Hl2). unfold count. cbn [List.filter].
    change (is_grant (AddRoles (member_guild member) (member_id member)
              (role_id role) "User requested.",
            oracle (unrefreshed w (_add_ping_role member chnl w).2)
              (length (calls (unrefreshed w
                        (_add_ping_role member chnl w).2))))) with true.
    cbn [length]. f_equal. by apply sends_no_grant.
Qed.

(** alice, who lacks the role, issues [!add] twice on the platform
    that accepts every call, the second time before the gateway event
    has arrived: she holds the role on the platform, and the second
    [!add] has attempted one more grant. *)
Lemma C6_witness :
  _my_ping_role (client world_ready) = Some sample_role
  /\ is_guild_member world_ready alice
  /\ ~ holds world_ready alice sample_role
  /\ holds_after world_ready stale_twice_added alice sample_role
  /\ count is_grant (new_calls stale_once_added stale_twice_added) = 1%nat.
Proof.
  assert (Hm : is_guild_member world_ready alice) by reflexivity.
  assert (Hn : ~ holds world_ready alice sample_role)
    by (unfold holds; vm_compute; discriminate).
  split; [reflexivity|]. split; [exact Hm|]. split; [exact Hn|].
  destruct (C6_role_commands alice sample_channel world_ready sample_role
              eq_refl Hm) as (_ & _ & _ & _ & Hseq & Hstale).
  split.
  - exact (proj1 (proj2 (Hseq false)) Hn eq_refl).
  - exact (proj2 (Hstale Hn)).
Defined.

(** Two ways in which the two [add]s of the claim go wrong. alice, who
    lacks the role, issues [!add] twice while the platform rejects
    every call: two grants are attempted and she is left without the
    role. And alice issues [!add] twice on the platform that accepts
    every call, the second time before the gateway event has arrived:
    she holds the role after the first, and the second attempts a
    grant again. *)
Lemma C6_counterexample :
  _my_ping_role (client world_forbidden) = Some sample_role
  /\ is_guild_member world_forbidden alice
  /\ ~ holds twice_forbidden alice sample_role
  /\ ~ holds_after world_forbidden twice_forbidden alice sample_role
  /\ count is_grant (new_calls world_forbidden twice_forbidden) = 2%nat
  /\ _my_ping_role (client world_ready) = Some sample_role
  /\ is_guild_member world_ready alice
  /\ holds once_added alice sample_role
  /\ count is_grant (new_calls stale_once_added stale_twice_added) = 1%nat.
Proof.
  split; [reflexivity|]. split; [reflexivity|].
  split; [unfold holds; vm_compute; discriminate|].
  split; [unfold holds_after; vm_compute; discriminate|].
  split; [vm_compute; reflexivity|].
  split; [reflexivity|]. split; [reflexivity|].
  split; [unfold holds; vm_compute; reflexivity|].
  vm_compute. reflexivity.
Qed.

(** ** Command routing *)

(** C8. A message that is empty, lacks the [!] prefix, comes from the
    bot itself, arrives outside the configured channel and outside a
    direct-message channel, comes from an author who is not a member of
    the configured guild, or carries a command other than [add] and
    [remove], causes no platform call: no reply is sent, no role is
    changed, and the client state stays as it was. In a ready session
    the whole state is unchanged; before that a debug record is
    written. *)
Theorem C8_dropped_message_no_effect (message : Message) (w : World) :
  dropped message w ->
  let run := on_message message w in
  new_calls w run.2 = []
  /\ platform run.2 = platform w
  /\ client run.2 = client w
  /\ (session_ready w = true -> run.2 = w)
  /\ (resolved (client w) -> run.1 = Ok tt).
Proof.
  intros Hd. unfold session_ready, resolved, on_message, bind, get. simpl.
  destruct (ready (client w)) eqn:Hr; simpl;
    [|split; [by apply new_calls_same|done]].
  destruct (_init_done (client w)) eqn:Hi; simpl;
    [|split; [by apply new_calls_same|done]].
  assert (Hsame : new_calls w w = []) by by apply new_calls_same.
  destruct (content message) as [|c r] eqn:Hcont; simpl; [done|].
  destruct (Ascii.eqb c "!") eqn:Hc; simpl; [|done].
  apply Ascii.eqb_eq in Hc as ->.
  destruct (user (client w)) as [me|] eqn:Hu; simpl.
  2: { repeat split; try done. intros [_ Hme]. by destruct (Hme eq_refl). }
  destruct (Z.eqb (author message) (user_id me)) eqn:Ha; simpl; [done|].
  destruct (negb (Z.eqb (chan_id (channel message))
                    (channel_id (_config (client w))))
            && negb (is_DMChannel (channel message))) eqn:Hch; simpl; [done|].
  destruct (_my_guild (client w)) as [guild|] eqn:Hg; simpl.
  2: { repeat split; try done. intros [Hres _].
       destruct (Hres eq_refl) as (_ & [? ?] & _). done. }
  destruct (get_member (platform w) guild (author message)) as [member|] eqn:Hmem;
    simpl; [|done].
  assert (Hcmd : r <> "add" /\ r <> "remove").
  { destruct Hd as [Hd|[(c' & r' & Hd & Hne)|[(me' & Hme & Hd)|[[Hd1 Hd2]|[Hd|Hd]]]]].
    - congruence.
    - rewrite Hcont in Hd. by simplify_eq.
    - rewrite Hu in Hme. injection Hme as <-.
      by rewrite Hd, Z.eqb_refl in Ha.
    - apply Z.eqb_neq in Hd1. by rewrite Hd1, Hd2 in Hch.
    - by rewrite (Hd guild Hg) in Hmem.
    - by rewrite Hcont in Hd. }
  destruct Hcmd as [Hadd%String.eqb_neq Hrem%String.eqb_neq].
  by rewrite Hadd, Hrem.
Qed.

(** [!add] sent by alice in a channel that is neither the configured
    one nor a direct-message channel. *)
Lemma C8_witness :
  dropped stray_message world_ready
  /\ on_message stray_message world_ready = (Ok tt, world_ready).
Proof.
  assert (Hd : dropped stray_message world_ready).
  { right. right. right. left. split; [discriminate|reflexivity]. }
  split; [exact Hd|].
  destruct (C8_dropped_message_no_effect _ world_ready Hd)
    as (_ & _ & _ & Hw & Hres).
  rewrite (surjective_pairing (on_message _ world_ready)).
  rewrite (Hw eq_refl), Hres; [reflexivity|].
  split; intros _; simpl; eauto.
Defined.

(** ** Listener start *)

Lemma only_errors_caught (env : ListenerEnv) :
  only_errors env ->
  (forall e, app_runner_new env = Some e -> is_Exception e = true)
  /\ (forall e, runner_setup env = Some e -> is_Exception e = true)
  /\ (forall e, tcp_site_new env = Some e -> is_Exception e = true)
  /\ (forall e, site_start env = Some e -> is_Exception e = true).
Proof. unfold only_errors. intros He. repeat split; intros e H; apply He; auto. Qed.

Lemma start_returns (env : ListenerEnv) (port : Z) (ssl : bool)
    (app : NotifyWebApp) :
  only_errors env -> (start env port ssl app).1 = Ok tt.
Proof.
  intros (H1 & H2 & H3 & H4)%only_errors_caught.
  unfold start, _init_webapp, try_except_else, bind, external, modify, raise, ret.
  simpl.
  destruct (app_runner_new env) as [e1|]; simpl; [by rewrite (H1 e1 eq_refl)|].
  destruct (runner_setup env) as [e2|]; simpl; [by rewrite (H2 e2 eq_refl)|].
  destruct (tcp_site_new env) as [e3|]; simpl; [by rewrite (H3 e3 eq_refl)|].
  destruct (site_start env) as [e4|]; simpl; [by rewrite (H4 e4 eq_refl)|].
  reflexivity.
Qed.

(** C10 (as amended). When every error of the listener set-up derives
    from [Exception], [start] returns normally whatever happens: an
    error is caught and logged, and the caller sees what it sees after
    a successful start. The site handle is left as it was when the
    error comes before the site object exists, it is left set to the
    site that did not start when the error comes from starting it (a
    port that cannot be bound), and it is the started site otherwise.
    [setup_hook], the caller, goes on to return normally as well once
    the SSL context is built or not asked for. *)
Theorem C10_start_never_raises (env : ListenerEnv) (port : Z) (ssl : bool)
    (app : NotifyWebApp) :
  only_errors env ->
  let run := start env port ssl app in
  let unstarted := {| site_port := port; site_ssl := ssl; site_started := false |} in
  let started := {| site_port := port; site_ssl := ssl; site_started := true |} in
  let logged e := WLog ERROR ("Error initializing web server: " +:+ exn_str e) in
  run.1 = Ok tt
  /\ (forall e,
        app_runner_new env = Some e
        \/ (app_runner_new env = None /\ runner_setup env = Some e)
        \/ (app_runner_new env = None /\ runner_setup env = None
            /\ tcp_site_new env = Some e) ->
        _site run.2 = _site app /\ last (wtrace run.2) = Some (logged e))
  /\ (forall e,
        app_runner_new env = None -> runner_setup env = None ->
        tcp_site_new env = None -> site_start env = Some e ->
        _site run.2 = Some unstarted /\ last (wtrace run.2) = Some (logged e))
  /\ (app_runner_new env = None -> runner_setup env = None ->
      tcp_site_new env = None -> site_start env = None ->
      _site run.2 = Some started
      /\ last (wtrace run.2)
         = Some (WLog INFO ("Started HTTP server on port " +:+ pretty port +:+ ".")))
  /\ (forall (w : World) (ssl_load : option exn),
        (cert_path (_config (client w)) = "" /\ key_path (_config (client w)) = "")
        \/ ssl_load = None ->
        (setup_hook ssl_load env (w, app)).1 = Ok tt).
Proof.
  intros Herr.
  assert (Hhook : forall (w : World) (ssl_load : option exn),
            (cert_path (_config (client w)) = ""
             /\ key_path (_config (client w)) = "")
            \/ ssl_load = None ->
            (setup_hook ssl_load env (w, app)).1 = Ok tt).
  { intros w ssl_load Hssl. unfold setup_hook. simpl.
    match goal with
    | |- context [start env ?p ?b app] =>
        pose proof (start_returns env p b app Herr) as Hs;
        destruct (start env p b app) as [r2 app2]
    end.
    simpl in Hs. subst r2.
    destruct Hssl as [[-> ->]| ->]; simpl; [done|].
    by destruct (_ || _). }
  revert Herr. intros (H1 & H2 & H3 & H4)%only_errors_caught.
  unfold start, _init_webapp, try_except_else, bind, external, modify, raise, ret.
  simpl.
  destruct (app_runner_new env) as [e1|] eqn:E1; simpl.
  { rewrite (H1 e1 eq_refl). simpl. rewrite last_snoc.
    repeat split; try done; intros; intuition congruence. }
  destruct (runner_setup env) as [e2|] eqn:E2; simpl.
  { rewrite (H2 e2 eq_refl). simpl. rewrite last_snoc.
    repeat split; try done; intros; intuition congruence. }
  destruct (tcp_site_new env) as [e3|] eqn:E3; simpl.
  { rewrite (H3 e3 eq_refl). simpl. rewrite last_snoc.
    repeat split; try done; intros; intuition congruence. }
  destruct (site_start env) as [e4|] eqn:E4; simpl.
  { rewrite (H4 e4 eq_refl). simpl. rewrite last_snoc.
    repeat split; try done; intros; intuition congruence. }
  rewrite last_snoc.
  repeat split; try done; intros; intuition congruence.
Qed.

Lemma port_in_use_only_errors : only_errors port_in_use.
Proof. intros e [H|[H|[H|H]]]; simpl in H; by simplify_eq. Qed.

(** A fresh application on a taken port: [start] returns normally and
    the handle holds the site that did not start. *)
Lemma C10_witness :
  only_errors port_in_use
  /\ (start port_in_use 3000 false (NotifyWebApp_init false)).1 = Ok tt.
Proof.
  split; [exact port_in_use_only_errors|].
  apply (C10_start_never_raises port_in_use 3000 false (NotifyWebApp_init false)
           port_in_use_only_errors).
Defined.

(** The same start against the claim as first stated: the handle is
    not left unset. *)
Lemma C10_counterexample :
  only_errors port_in_use
  /\ (start port_in_use 3000 false (NotifyWebApp_init false)).1 = Ok tt
  /\ _site (start port_in_use 3000 false (NotifyWebApp_init false)).2
     = Some {| site_port := 3000; site_ssl := false; site_started := false |}
  /\ _site (start port_in_use 3000 false (NotifyWebApp_init false)).2 <> None.
Proof.
  split; [exact port_in_use_only_errors|].
  split; [reflexivity|]. split; [reflexivity|]. discriminate.
Qed.

(** ** Session start-up and the way into the role commands *)

(** [on_ready] either resolves the three handles and sets [_init_done],
    or closes the client with exit code 1; it makes no platform call. *)
Lemma on_ready_outcome (w : World) :
  let run := on_ready w in
  run.1 = Ok tt
  /\ calls run.2 = calls w
  /\ platform run.2 = platform w
  /\ ((_init_done (client run.2) = true
       /\ is_Some (_my_channel (client run.2))
       /\ is_Some (_my_guild (client run.2))
       /\ is_Some (_my_ping_role (client run.2))
       /\ ready (client run.2) = ready (client w))
      \/ (_init_done (client run.2) = _init_done (client w)
          /\ exitcode (client run.2) = 1
          /\ closed (client run.2) = true
          /\ ready (client run.2) = false)).
Proof.
  unfold on_ready, bind, get, log, modify, set_exitcode, close, set_resolved,
    set_init_done, with_client. simpl.
  destruct (channels (platform w) !! channel_id (_config (client w)))
    as [[id guild|id|id]|]; simpl; try by auto 10.
  destruct (guild_roles (platform w) !! (guild, ping_role (_config (client w))));
    simpl; by eauto 10.
Qed.

(** In a ready session, [!add] from a guild member other than the bot,
    in the configured channel or a direct message, is the add command;
    [!remove] is the remove command. *)
Lemma on_message_command (message : Message) (w : World) (me : ClientUser)
    (guild : Z) (member : Member) :
  session_ready w = true ->
  user (client w) = Some me -> author message <> user_id me ->
  chan_id (channel message) = channel_id (_config (client w))
    \/ is_DMChannel (channel message) = true ->
  _my_guild (client w) = Some guild ->
  get_member (platform w) guild (author message) = Some member ->
  (content message = "!add" ->
   on_message message w = _add_ping_role member (channel message) w)
  /\ (content message = "!remove" ->
      on_message message w = _remove_ping_role member (channel message) w).
Proof.
  unfold session_ready. intros [Hr Hi]%andb_prop Hu Ha Hch Hg Hm.
  assert (Hch' : negb (Z.eqb (chan_id (channel message))
                         (channel_id (_config (client w))))
                 && negb (is_DMChannel (channel message)) = false).
  { destruct Hch as [->%Z.eqb_eq| ->]; [done|]. by rewrite andb_false_r. }
  apply Z.eqb_neq in Ha.
  split; intros Hc; unfold on_message, bind, get; simpl;
    rewrite Hr, Hi, Hc, Hu; simpl; rewrite Ha, Hch', Hg; simpl; rewrite Hm; simpl.
  - by destruct (_add_ping_role member (channel message) w) as [[[]|e] w'].
  - by destruct (_remove_ping_role member (channel message) w) as [[[]|e] w'].
Qed.

(** A token file without a token stops the construction of the client. *)
Lemma NotifyClient_init_no_tokens (config : NotifyConfig) (text : string) :
  _get_valid_tokens text = [] ->
  NotifyClient_init config text
  = Raise (AssertionError "You must insert tokens in .tokens.txt file!").
Proof. unfold NotifyClient_init. by intros ->. Qed.

(** * Further properties of the code *)

(** ** Session start-up *)

(** X1. [on_ready] returns normally and makes no platform call. It sets
    [_init_done] exactly when the configured channel exists, is a text
    channel, and its guild has the configured role; the three handles
    are then the channel, its guild and the role. Otherwise the client
    is closed with exit code 1 and [_init_done] stays as it was; when
    only the role is missing the channel and guild handles are left
    set. *)
Theorem X1_on_ready_resolution (w : World) :
  let run := on_ready w in
  let cfg := _config (client w) in
  let c' := client run.2 in
  run.1 = Ok tt
  /\ calls run.2 = calls w
  /\ platform run.2 = platform w
  /\ _config c' = cfg /\ _valid_tokens c' = _valid_tokens (client w)
  /\ (forall id guild role,
        channels (platform w) !! channel_id cfg = Some (TextChannel id guild) ->
        guild_roles (platform w) !! (guild, ping_role cfg) = Some role ->
        _init_done c' = true
        /\ _my_channel c' = Some (TextChannel id guild)
        /\ _my_guild c' = Some guild
        /\ _my_ping_role c' = Some role
        /\ exitcode c' = exitcode (client w)
        /\ closed c' = closed (client w)
        /\ ready c' = ready (client w))
  /\ (forall id guild,
        channels (platform w) !! channel_id cfg = Some (TextChannel id guild) ->
        guild_roles (platform w) !! (guild, ping_role cfg) = None ->
        _init_done c' = _init_done (client w)
        /\ _my_channel c' = Some (TextChannel id guild)
        /\ _my_guild c' = Some guild
        /\ _my_ping_role c' = None
        /\ exitcode c' = 1 /\ closed c' = true /\ ready c' = false)
  /\ ((forall id guild,
         channels (platform w) !! channel_id cfg <> Some (TextChannel id guild)) ->
      _init_done c' = _init_done (client w)
      /\ _my_channel c' = _my_channel (client w)
      /\ _my_guild c' = _my_guild (client w)
      /\ _my_ping_role c' = _my_ping_role (client w)
      /\ exitcode c' = 1 /\ closed c' = true /\ ready c' = false).
Proof.
  unfold on_ready, bind, get, log, modify, set_exitcode, close, set_resolved,
    set_init_done, with_client. simpl.
  destruct (channels (platform w) !! channel_id (_config (client w)))
    as [[id guild|id|id]|] eqn:Hch; simpl.
  - destruct (guild_roles (platform w) !! (guild, ping_role (_config (client w))))
      as [role|] eqn:Hrole; simpl;
      (repeat split; try done; intros; simplify_eq; try done;
       match goal with
       | Hne : forall _ _, _ <> _ |- _ => exfalso; by eapply Hne
       end).
  - repeat split; try done; intros; simplify_eq.
  - repeat split; try done; intros; simplify_eq.
  - repeat split; try done; intros; simplify_eq.
Qed.

(** The sample client before [on_ready], on the sample platform. *)
Lemma X1_witness :
  channels (platform world_fresh) !! channel_id (_config (client world_fresh))
  = Some (TextChannel 1 10)
  /\ guild_roles (platform world_fresh)
       !! (10, ping_role (_config (client world_fresh))) = Some sample_role
  /\ _init_done (client (on_ready world_fresh).2) = true
  /\ _my_ping_role (client (on_ready world_fresh).2) = Some sample_role.
Proof.
  assert (H1 : channels (platform world_fresh)
                 !! channel_id (_config (client world_fresh))
               = Some (TextChannel 1 10)) by (vm_compute; reflexivity).
  assert (H2 : guild_roles (platform world_fresh)
                 !! (10, ping_role (_config (client world_fresh)))
               = Some sample_role) by (vm_compute; reflexivity).
  destruct (X1_on_ready_resolution world_fresh)
    as (_ & _ & _ & _ & _ & Hok & _).
  destruct (Hok 1 10 sample_role H1 H2) as (Hd & _ & _ & Hr & _).
  repeat split; done.
Defined.

(** ** Role commands: errors and frame *)

Lemma same_but_role_refl (guild user role : Z) (p : Platform) :
  same_but_role guild user role p p.
Proof.
  unfold same_but_role. repeat split; try done.
  by destruct (guild_members p !! (guild, user)).
Qed.

Lemma same_but_role_update (f : gset Z -> gset Z) (guild user role : Z)
    (p : Platform) :
  (forall rs r, r <> role -> r ∈ f rs <-> r ∈ rs) ->
  same_but_role guild user role p (update_roles f guild user p).
Proof.
  intros Hf. unfold same_but_role, update_roles. simpl.
  repeat split; try done.
  - intros g u Hne. by rewrite lookup_alter_ne.
  - rewrite lookup_alter_eq.
    destruct (guild_members p !! (guild, user)) as [ms|]; simpl; [|done].
    split; [done|]. intros r Hr. by apply Hf.
Qed.

Lemma grant_only_role (role : Z) (rs : gset Z) (r : Z) :
  r <> role -> r ∈ {[ role ]} ∪ rs <-> r ∈ rs.
Proof. rewrite elem_of_union, elem_of_singleton. tauto. Qed.

Lemma revoke_only_role (role : Z) (rs : gset Z) (r : Z) :
  r <> role -> r ∈ rs ∖ {[ role ]} <-> r ∈ rs.
Proof. rewrite elem_of_difference, elem_of_singleton. tauto. Qed.

(** The result of a reply through [_channel_msg]. *)
Lemma channel_msg_result (msg : string) (chnl : Channel) (w : World) :
  let run := _channel_msg msg chnl w in
  match oracle w (length (calls w)) with
  | None => run.1 = Ok tt /\ clog run.2 = clog w
  | Some e =>
      if is_DiscordException e
      then run.1 = Ok tt
           /\ clog run.2
              = clog w ++ [(ERROR, "Error sending a channel message: "
                                     +:+ exn_str e)]
      else run.1 = Raise e /\ clog run.2 = clog w
  end.
Proof.
  unfold _channel_msg, try_except, platform_call, log, modify. simpl.
  destruct (oracle w (length (calls w))) as [e|]; simpl; [|done].
  destruct (is_DiscordException e); simpl; done.
Qed.

(** What [add] returns: normally, unless a call raises an exception
    that is no [DiscordException], and never from the failure notice. *)
Lemma add_ping_role_result (member : Member) (chnl : Channel) (w : World)
    (role : Role) :
  _my_ping_role (client w) = Some role ->
  let run := _add_ping_role member chnl w in
  run.1 = Ok tt \/ exists e, run.1 = Raise e /\ is_DiscordException e = false.
Proof.
  unfold _add_ping_role, bind, get. simpl. intros ->.
  case_decide.
  - pose proof (channel_msg_result (reply_already member role) chnl w) as Hr.
    simpl in Hr. destruct (oracle w (length (calls w))) as [e|]; [|by left; apply Hr].
    destruct (is_DiscordException e) eqn:He; [by left; apply Hr|].
    right. exists e. by split; [apply Hr|].
  - unfold try_except, bind, platform_call, log, modify, ret, any_exn. simpl.
    destruct (oracle w (length (calls w))) as [e1|]; simpl.
    + destruct (is_DiscordException e1) eqn:He1; simpl; [|by eauto].
      rewrite length_app. simpl.
      destruct (oracle w _) as [e2|]; simpl; by left.
    + rewrite length_app. simpl.
      destruct (oracle w _) as [e2|]; simpl; [|by left].
      destruct (is_DiscordException e2) eqn:He2; simpl; [|by eauto].
      rewrite !length_app. simpl.
      destruct (oracle w _) as [e3|]; simpl; by left.
Qed.

Lemma remove_ping_role_result (member : Member) (chnl : Channel) (w : World)
    (role : Role) :
  _my_ping_role (client w) = Some role ->
  let run := _remove_ping_role member chnl w in
  run.1 = Ok tt \/ exists e, run.1 = Raise e /\ is_DiscordException e = false.
Proof.
  unfold _remove_ping_role, bind, get. simpl. intros ->.
  case_decide.
  - pose proof (channel_msg_result (reply_not_held member role) chnl w) as Hr.
    simpl in Hr. destruct (oracle w (length (calls w))) as [e|]; [|by left; apply Hr].
    destruct (is_DiscordException e) eqn:He; [by left; apply Hr|].
    right. exists e. by split; [apply Hr|].
  - unfold try_except, bind, platform_call, log, modify, ret, any_exn. simpl.
    destruct (oracle w (length (calls w))) as [e1|]; simpl.
    + destruct (is_DiscordException e1) eqn:He1; simpl; [|by eauto].
      rewrite length_app. simpl.
      destruct (oracle w _) as [e2|]; simpl; by left.
    + rewrite length_app. simpl.
      destruct (oracle w _) as [e2|]; simpl; [|by left].
      destruct (is_DiscordException e2) eqn:He2; simpl; [|by eauto].
      rewrite !length_app. simpl.
      destruct (oracle w _) as [e3|]; simpl; by left.
Qed.

Lemma add_ping_role_frame (member : Member) (chnl : Channel) (w : World)
    (role : Role) :
  _my_ping_role (client w) = Some role ->
  let run := _add_ping_role member chnl w in
  client run.2 = client w /\ oracle run.2 = oracle w
  /\ same_but_role (member_guild member) (member_id member) (role_id role)
       (platform w) (platform run.2)
  /\ exists l, calls run.2 = calls w ++ l
               /\ Forall (call_about member role chnl) l.
Proof.
  intros Hrole. simpl.
  destruct (decide (role_id role ∈ member_roles (platform w) member)) as [Hh|Hh].
  - rewrite (add_ping_role_held member chnl w role Hrole Hh).
    destruct (channel_msg_run (reply_already member role) chnl w)
      as (Hc & Hp & Hcl & Ho).
    rewrite Hp. repeat split; try done; try apply same_but_role_refl.
    eexists. split; [exact Hc|]. by repeat constructor.
  - destruct (add_ping_role_grant member chnl w role Hrole Hh) as (Hcl & Ho & Hcase).
    split; [done|]. split; [done|].
    destruct (oracle w (length (calls w))) as [e|];
      destruct Hcase as [Hp [Hc|Hc]]; rewrite Hp;
      (split; [first [apply same_but_role_refl
                     | apply same_but_role_update, grant_only_role]|]);
      (eexists; split; [exact Hc|]); by repeat constructor.
Qed.

Lemma remove_ping_role_frame (member : Member) (chnl : Channel) (w : World)
    (role : Role) :
  _my_ping_role (client w) = Some role ->
  let run := _remove_ping_role member chnl w in
  client run.2 = client w /\ oracle run.2 = oracle w
  /\ same_but_role (member_guild member) (member_id member) (role_id role)
       (platform w) (platform run.2)
  /\ exists l, calls run.2 = calls w ++ l
               /\ Forall (call_about member role chnl) l.
Proof.
  intros Hrole. simpl.
  destruct (decide (role_id role ∈ member_roles (platform w) member)) as [Hh|Hh].
  - destruct (remove_ping_role_revoke member chnl w role Hrole Hh)
      as (Hcl & Ho & Hcase).
    split; [done|]. split; [done|].
    destruct (oracle w (length (calls w))) as [e|];
      destruct Hcase as [Hp [Hc|Hc]]; rewrite Hp;
      (split; [first [apply same_but_role_refl
                     | apply same_but_role_update, revoke_only_role]|]);
      (eexists; split; [exact Hc|]); by repeat constructor.
  - rewrite (remove_ping_role_not_held member chnl w role Hrole Hh).
    destruct (channel_msg_run (reply_not_held member role) chnl w)
      as (Hc & Hp & Hcl & Ho).
    rewrite Hp. repeat split; try done; try apply same_but_role_refl.
    eexists. split; [exact Hc|]. by repeat constructor.
Qed.

Lemma role_commands_no_role (member : Member) (chnl : Channel) (w : World) :
  _my_ping_role (client w) = None ->
  _add_ping_role member chnl w = (Raise (AssertionError ""), w)
  /\ _remove_ping_role member chnl w = (Raise (AssertionError ""), w).
Proof.
  intros Hnone. unfold _add_ping_role, _remove_ping_role, bind, get. simpl.
  by rewrite Hnone.
Qed.

(** X2. The two role commands, with the ping role resolved, never let a
    [DiscordException] out: they return normally unless a call raises
    an exception of another class. They leave the client state and the
    platform untouched except for whether this member holds the ping
    role, and every call they make is a send to the channel the
    command came from or the grant or revoke of the ping role for this
    member. Without a resolved role they raise [AssertionError] and
    change nothing. *)
Theorem X2_role_commands_errors_and_frame (member : Member) (chnl : Channel)
    (w : World) :
  (forall role, _my_ping_role (client w) = Some role ->
     forall run, run = _add_ping_role member chnl w
                 \/ run = _remove_ping_role member chnl w ->
       (run.1 = Ok tt
        \/ exists e, run.1 = Raise e /\ is_DiscordException e = false)
       /\ client run.2 = client w
       /\ same_but_role (member_guild member) (member_id member) (role_id role)
            (platform w) (platform run.2)
       /\ exists l, calls run.2 = calls w ++ l
                    /\ Forall (call_about member role chnl) l)
  /\ (_my_ping_role (client w) = None ->
      _add_ping_role member chnl w = (Raise (AssertionError ""), w)
      /\ _remove_ping_role member chnl w = (Raise (AssertionError ""), w)).
Proof.
  split.
  - intros role Hrole run [->| ->].
    + destruct (add_ping_role_frame member chnl w role Hrole) as (? & ? & ? & ?).
      split; [by apply (add_ping_role_result member chnl w role)|done].
    + destruct (remove_ping_role_frame member chnl w role Hrole) as (? & ? & ? & ?).
      split; [by apply (remove_ping_role_result member chnl w role)|done].
  - apply role_commands_no_role.
Qed.

(** alice issues [!add] on a platform that rejects every call: the
    command still returns normally. *)
Lemma X2_witness :
  _my_ping_role (client world_forbidden) = Some sample_role
  /\ (_add_ping_role alice sample_channel world_forbidden).1 = Ok tt.
Proof.
  split; [reflexivity|].
  destruct (proj1 (X2_role_commands_errors_and_frame alice sample_channel
                     world_forbidden) sample_role eq_refl
              (_add_ping_role alice sample_channel world_forbidden)
              (or_introl eq_refl)) as ([Hok|(e & He & Hd)] & _).
  - exact Hok.
  - vm_compute in He. discriminate He.
Defined.

(** ** Command routing: what a message can change *)

Ltac frame_trivial Hnil :=
  split; [done|split; [done|split; [by left|split; [exact Hnil|by intros]]]].

Ltac frame_changed guild role l :=
  split; [done|split; [done|split;
    [right; by exists guild, role|split; [by exists l|by intros]]]].

(** X3. Whatever the message, [on_message] leaves the client state
    untouched and changes the platform at most in whether the author,
    as a member of the configured guild, holds the ping role. Each call
    it makes is a send to the channel of the message, or the grant or
    revoke of the ping role for the author in the configured guild.
    Before the session is ready it makes no call at all. *)
Theorem X3_on_message_frame (message : Message) (w : World) :
  let run := on_message message w in
  client run.2 = client w
  /\ oracle run.2 = oracle w
  /\ (platform run.2 = platform w
      \/ exists guild role,
           _my_guild (client w) = Some guild
           /\ _my_ping_role (client w) = Some role
           /\ same_but_role guild (author message) (role_id role)
                (platform w) (platform run.2))
  /\ (exists l,
        calls run.2 = calls w ++ l
        /\ Forall (fun c =>
                     match c.1 with
                     | Send ch _ _ => ch = chan_id (channel message)
                     | AddRoles g u r _ | RemoveRoles g u r _ =>
                         _my_guild (client w) = Some g
                         /\ u = author message
                         /\ role_id <$> _my_ping_role (client w) = Some r
                     end) l)
  /\ (session_ready w = false ->
      calls run.2 = calls w /\ platform run.2 = platform w).
Proof.
  assert (Hnil : exists l : list (pcall * option exn),
            calls w = calls w ++ l
            /\ Forall (fun c =>
                     match c.1 with
                     | Send ch _ _ => ch = chan_id (channel message)
                     | AddRoles g u r _ | RemoveRoles g u r _ =>
                         _my_guild (client w) = Some g
                         /\ u = author message
                         /\ role_id <$> _my_ping_role (client w) = Some r
                     end) l)
    by (exists []; by rewrite app_nil_r).
  unfold session_ready, on_message, bind, get. simpl.
  destruct (ready (client w)) eqn:Hr; simpl; [|by frame_trivial Hnil].
  destruct (_init_done (client w)) eqn:Hi; simpl; [|by frame_trivial Hnil].
  destruct (no_prefix (content message)); simpl; [by frame_trivial Hnil|].
  destruct (user (client w)) as [me|]; simpl; [|by frame_trivial Hnil].
  destruct (Z.eqb (author message) (user_id me)); simpl;
    [by frame_trivial Hnil|].
  destruct (negb _ && negb _); simpl; [by frame_trivial Hnil|].
  destruct (_my_guild (client w)) as [guild|] eqn:Hg; simpl;
    [|by frame_trivial Hnil].
  destruct (get_member (platform w) guild (author message)) as [member|] eqn:Hm;
    simpl; [|by frame_trivial Hnil].
  assert (Hmg : member_guild member = guild /\ member_id member = author message).
  { unfold get_member in Hm.
    destruct (guild_members (platform w) !! _); simpl in Hm; by simplify_eq. }
  destruct Hmg as [Hmg Hmi].
  destruct (_my_ping_role (client w)) as [role|] eqn:Hrole.
  2: { destruct (role_commands_no_role member (channel message) w Hrole)
         as [Ha Hrm].
       destruct (String.eqb _ "add"); simpl;
         [rewrite Ha; simpl; by frame_trivial Hnil|].
       destruct (String.eqb _ "remove"); simpl;
         [rewrite Hrm; simpl|]; by frame_trivial Hnil. }
  assert (Hcall : forall l,
            Forall (call_about member role (channel message)) l ->
            Forall (fun c =>
                     match c.1 with
                     | Send ch _ _ => ch = chan_id (channel message)
                     | AddRoles g u r _ | RemoveRoles g u r _ =>
                         Some guild = Some g
                         /\ u = author message
                         /\ role_id <$> Some role = Some r
                     end) l).
  { intros l Hl. eapply Forall_impl; [exact Hl|].
    intros [c o]. unfold call_about. simpl.
    destruct c; [done|..]; intros (-> & -> & ->); by rewrite Hmg, Hmi. }
  destruct (String.eqb (tail_str (content message)) "add") eqn:Hadd; simpl.
  - apply String.eqb_eq in Hadd. rewrite Hadd. simpl.
    destruct (add_ping_role_frame member (channel message) w role Hrole)
      as (Hcl & Ho & Hp & l & Hc & Hl).
    rewrite Hmg, Hmi in Hp. apply Hcall in Hl.
    destruct (_add_ping_role member (channel message) w) as [[[]|e] w1];
      simpl in *; by frame_changed guild role l.
  - destruct (String.eqb (tail_str (content message)) "remove") eqn:Hrem; simpl;
      [|by frame_trivial Hnil].
    destruct (remove_ping_role_frame member (channel message) w role Hrole)
      as (Hcl & Ho & Hp & l & Hc & Hl).
    rewrite Hmg, Hmi in Hp. apply Hcall in Hl.
    destruct (_remove_ping_role member (channel message) w) as [[[]|e] w1];
      simpl in *; by frame_changed guild role l.
Qed.

(** alice types [!add] before the session is ready. *)
Lemma X3_witness :
  session_ready world_fresh = false
  /\ calls (on_message add_message world_fresh).2 = calls world_fresh
  /\ platform (on_message add_message world_fresh).2 = platform world_fresh.
Proof.
  split; [reflexivity|].
  apply (proj2 (proj2 (proj2 (proj2 (X3_on_message_frame add_message world_fresh))))).
  reflexivity.
Defined.

(** X4. In a ready session, a message from a guild member other than
    the bot, in the configured channel or in a direct-message channel,
    runs the add command when its content is [!add] and the remove
    command when it is [!remove], for the member object of the author
    and with replies to the channel of the message. *)
Theorem X4_command_routing (message : Message) (w : World) (me : ClientUser)
    (guild : Z) (member : Member) :
  session_ready w = true ->
  user (client w) = Some me -> author message <> user_id me ->
  chan_id (channel message) = channel_id (_config (client w))
    \/ is_DMChannel (channel message) = true ->
  _my_guild (client w) = Some guild ->
  get_member (platform w) guild (author message) = Some member ->
  (content message = "!add" ->
   on_message message w = _add_ping_role member (channel message) w)
  /\ (content message = "!remove" ->
      on_message message w = _remove_ping_role member (channel message) w)
  /\ member_id member = author message /\ member_guild member = guild.
Proof.
  intros Hr Hu Ha Hch Hg Hm.
  destruct (on_message_command message w me guild member Hr Hu Ha Hch Hg Hm)
    as [Hadd Hrem].
  split; [done|]. split; [done|].
  unfold get_member in Hm.
  destruct (guild_members (platform w) !! _); simpl in Hm; by simplify_eq.
Qed.

(** alice types [!add] in the configured channel of the ready client:
    the grant and the confirmation follow. *)
Lemma X4_witness :
  session_ready world_ready = true
  /\ get_member (platform world_ready) 10 (author add_message) = Some alice
  /\ on_message add_message world_ready
     = _add_ping_role alice sample_channel world_ready
  /\ calls (on_message add_message world_ready).2
     = [(AddRoles 10 7 2 "User requested.", None);
        (Send 1 (reply_added alice sample_role) None, None)].
Proof.
  assert (Hm : get_member (platform world_ready) 10 (author add_message)
               = Some alice) by (vm_compute; reflexivity).
  assert (Hrun : on_message add_message world_ready
                 = _add_ping_role alice sample_channel world_ready).
  { apply (proj1 (X4_command_routing add_message world_ready
                    {| user_id := 99; user_name := "notify-bot" |} 10 alice
                    eq_refl eq_refl ltac:(discriminate)
                    (or_introl eq_refl) eq_refl Hm)).
    reflexivity. }
  split; [reflexivity|]. split; [exact Hm|]. split; [exact Hrun|].
  rewrite Hrun. vm_compute. reflexivity.
Defined.

(** ** Add and remove as a round trip *)

Lemma update_roles_undo (guild user role : Z) (p : Platform) (ms : MemberState) :
  guild_members p !! (guild, user) = Some ms ->
  role ∉ ms_roles ms ->
  update_roles (fun rs => rs ∖ {[ role ]}) guild user
    (update_roles (fun rs => {[ role ]} ∪ rs) guild user p) = p.
Proof.
  intros Hms Hrole. destruct p as [chs grs gms]. unfold update_roles. simpl in *.
  f_equal. apply map_eq. intros [g u].
  destruct (decide ((guild, user) = (g, u))) as [<-|Hne].
  - rewrite !lookup_alter_eq, Hms. simpl. f_equal.
    destruct ms as [name rs]. simpl in *. f_equal.
    apply set_eq. intros r.
    rewrite elem_of_difference, elem_of_union, !elem_of_singleton.
    split; [tauto|]. intros Hr. split; [tauto|]. by intros ->.
  - by rewrite !lookup_alter_ne.
Qed.

Lemma sends_count_revoke (cs : list (pcall * option exn)) :
  Forall (fun c => is_send c = true) cs -> count is_revoke cs = 0%nat.
Proof.
  unfold count. induction 1 as [|[c o] cs Hc _ IH]; simpl; [done|].
  destruct c; try done.
Qed.

(** X5. A member without the ping role issues add, the platform
    accepting the grant, and then remove. After the add the member
    holds the role on the platform. When the gateway event has brought
    the grant to [member.roles] before the remove runs, the remove
    issues the revoke, and when the platform accepts that too the
    platform state is the state before the two commands, whatever
    became of the replies. When the event has not arrived, the remove
    finds the role missing: its only call is the "don't have" send, no
    revoke is issued, and the member keeps the role on the platform. *)
Theorem X5_add_then_remove (member : Member) (chnl : Channel)
    (w : World) (role : Role) :
  _my_ping_role (client w) = Some role ->
  is_guild_member w member ->
  ~ holds w member role ->
  let w1 := (_add_ping_role member chnl w).2 in
  let w2 := (_remove_ping_role member chnl w1).2 in
  let v := unrefreshed w w1 in
  let v2 := (_remove_ping_role member chnl v).2 in
  let revoke := RemoveRoles (member_guild member) (member_id member)
                  (role_id role) "User requested." in
  oracle w (length (calls w)) = None ->
  holds w1 member role
  /\ head (new_calls w1 w2) = Some (revoke, oracle w (length (calls w1)))
  /\ (oracle w (length (calls w1)) = None ->
      ~ holds w2 member role
      /\ platform w2 = platform w
      /\ replay (new_calls w w2) (platform w) = platform w)
  /\ new_calls v v2
     = [(Send (chan_id chnl) (reply_not_held member role) None,
         oracle w (length (calls w1)))]
  /\ count is_revoke (new_calls w v2) = 0%nat
  /\ holds_after w v2 member role.
Proof.
  intros Hrole Hm Hh. simpl. intros Ho1.
  destruct (add_calls member chnl w role Hrole)
    as (Hc1 & Hor1 & l1 & Hl1 & Hp1 & _ & Hgrant1).
  destruct (Hgrant1 Hh) as (rest1 & Hr1 & Hrest1).
  rewrite Ho1 in Hr1.
  assert (Hp1' : platform (_add_ping_role member chnl w).2
                 = update_roles (fun rs => {[ role_id role ]} ∪ rs)
                     (member_guild member) (member_id member) (platform w)).
  { rewrite Hp1, Hr1. by rewrite replay_call_sends. }
  assert (Hh1 : holds (_add_ping_role member chnl w).2 member role)
    by exact (proj1 (role_after_update w _ member role Hm) Hp1').
  assert (Hrole1 : _my_ping_role (client (_add_ping_role member chnl w).2)
                   = Some role) by by rewrite Hc1.
  destruct (remove_calls member chnl _ role Hrole1)
    as (_ & _ & l2 & Hl2 & Hp2 & _ & Hrevoke2).
  destruct (Hrevoke2 Hh1) as (rest2 & Hr2 & Hrest2).
  rewrite Hor1 in Hr2.
  split; [exact Hh1|].
  split; [by rewrite (new_calls_app _ _ _ Hl2), Hr2|].
  split.
  { intros Ho2. rewrite Ho2 in Hr2.
    destruct (guild_member_known w member Hm) as [ms Hms].
    assert (Hp : platform (_remove_ping_role member chnl
                             (_add_ping_role member chnl w).2).2
                 = platform w).
    { rewrite Hp2, Hr2, replay_call_sends by done. simpl. rewrite Hp1'.
      apply (update_roles_undo _ _ _ _ ms Hms).
      unfold holds, member_roles in Hh. by rewrite Hms in Hh. }
    split; [unfold holds; by rewrite Hp|]. split; [exact Hp|].
    rewrite (new_calls_two w _ _ l1 l2 Hl1 Hl2), replay_app.
    by rewrite <- Hp1, <- Hp2. }
  assert (Hrolev : _my_ping_role
                     (client (unrefreshed w (_add_ping_role member chnl w).2))
                   = Some role) by exact Hrole1.
  destruct (remove_calls member chnl _ role Hrolev)
    as (_ & _ & l3 & Hl3 & _ & Hnot3 & _).
  assert (Hr3 := Hnot3 Hh). simpl in Hr3. rewrite Hor1 in Hr3.
  split; [by rewrite (new_calls_app _ _ _ Hl3)|].
  assert (Hnew : new_calls w (_remove_ping_role member chnl
                   (unrefreshed w (_add_ping_role member chnl w).2)).2
                 = l1 ++ l3)
    by exact (new_calls_two w (_add_ping_role member chnl w).2 _ l1 l3 Hl1 Hl3).
  split.
  - rewrite Hnew, Hr1, Hr3. unfold count. cbn [app List.filter].
    change (length (List.filter is_revoke (rest1 ++ [(Send (chan_id chnl)
              (reply_not_held member role) None,
              oracle w (length (calls (_add_ping_role member chnl w).2)))])))
      with (count is_revoke (rest1 ++ [(Send (chan_id chnl)
              (reply_not_held member role) None,
              oracle w (length (calls (_add_ping_role member chnl w).2)))])).
    apply sends_count_revoke, Forall_app. split; [done|by repeat constructor].
  - unfold holds_after. rewrite Hnew, replay_app, <- Hp1, Hr3.
    rewrite replay_sends by (by repeat constructor). exact Hh1.
Qed.

(** alice, on the platform that accepts every call: with [member.roles]
    refreshed the two commands leave the platform as it was, and
    without it the remove only replies and she keeps the role. *)
Lemma X5_witness :
  _my_ping_role (client world_ready) = Some sample_role
  /\ is_guild_member world_ready alice
  /\ ~ holds world_ready alice sample_role
  /\ platform (_remove_ping_role alice sample_channel once_added).2
     = platform world_ready
  /\ new_calls stale_once_added stale_added_removed
     = [(Send 1 (reply_not_held alice sample_role) None, None)]
  /\ holds_after world_ready stale_added_removed alice sample_role.
Proof.
  assert (Hm : is_guild_member world_ready alice) by reflexivity.
  assert (Hh : ~ holds world_ready alice sample_role)
    by (unfold holds; vm_compute; discriminate).
  split; [reflexivity|]. split; [exact Hm|]. split; [exact Hh|].
  destruct (X5_add_then_remove alice sample_channel world_ready
              sample_role eq_refl Hm Hh eq_refl)
    as (_ & _ & Hfresh & Hstale & _ & Hkeeps).
  split; [exact (proj1 (proj2 (Hfresh eq_refl)))|].
  split; [exact Hstale|exact Hkeeps].
Defined.

(** ** Replies that fail *)

(** X6. When the platform accepts the grant and then rejects the
    confirmation with a [DiscordException], [add] logs the error as one
    of adding the role and sends the "Failed to add role" notice,
    although the member now holds the role; it returns normally
    whatever becomes of that notice. [remove] does the same with the
    revoke: the member has lost the role and is told that removing it
    failed. *)
Theorem X6_reply_failure_after_mutation (member : Member) (chnl : Channel)
    (w : World) (role : Role) (e : exn) :
  _my_ping_role (client w) = Some role ->
  is_guild_member w member ->
  let k := length (calls w) in
  oracle w k = None ->
  oracle w (S k) = Some e ->
  is_DiscordException e = true ->
  (~ holds w member role ->
   let run := _add_ping_role member chnl w in
   run.1 = Ok tt
   /\ holds run.2 member role
   /\ new_calls w run.2
      = [(AddRoles (member_guild member) (member_id member) (role_id role)
            "User requested.", None);
         (Send (chan_id chnl) (reply_added member role) None, Some e);
         (Send (chan_id chnl) (reply_add_failed member role) None,
          oracle w (S (S k)))]
   /\ last (clog run.2)
      = Some (ERROR, "Error adding a ping role: " +:+ exn_str e))
  /\ (holds w member role ->
      let run := _remove_ping_role member chnl w in
      run.1 = Ok tt
      /\ ~ holds run.2 member role
      /\ new_calls w run.2
         = [(RemoveRoles (member_guild member) (member_id member) (role_id role)
               "User requested.", None);
            (Send (chan_id chnl) (reply_removed member role) None, Some e);
            (Send (chan_id chnl) (reply_remove_failed member role) None,
             oracle w (S (S k)))]
      /\ last (clog run.2)
         = Some (ERROR, "Error removing a ping role: " +:+ exn_str e)).
Proof.
  intros Hrole Hm. simpl. intros Ho1 Ho2 He.
  split; intros Hh.
  - unfold _add_ping_role, bind, get. simpl. rewrite Hrole.
    rewrite decide_False by done.
    unfold try_except, bind, platform_call, log, modify, ret, any_exn. simpl.
    rewrite Ho1. simpl. rewrite length_app. simpl. rewrite Nat.add_1_r, Ho2.
    simpl. rewrite He. simpl.
    rewrite !length_app. simpl. rewrite <- !Nat.add_assoc. simpl.
    rewrite Nat.add_comm. simpl.
    destruct (oracle w (S (S (length (calls w))))) as [e3|]; simpl;
      (split; [done|]);
      (split; [by apply (proj1 (role_after_update w _ member role Hm))|]);
      (split; [apply new_calls_app; simpl; by rewrite <- !app_assoc|]);
      by rewrite last_snoc.
  - unfold _remove_ping_role, bind, get. simpl. rewrite Hrole.
    rewrite decide_False by (intros Hn; by apply Hn).
    unfold try_except, bind, platform_call, log, modify, ret, any_exn. simpl.
    rewrite Ho1. simpl. rewrite length_app. simpl. rewrite Nat.add_1_r, Ho2.
    simpl. rewrite He. simpl.
    rewrite !length_app. simpl. rewrite <- !Nat.add_assoc. simpl.
    rewrite Nat.add_comm. simpl.
    destruct (oracle w (S (S (length (calls w))))) as [e3|]; simpl;
      (split; [done|]);
      (split; [by apply (proj2 (role_after_update w _ member role Hm))|]);
      (split; [apply new_calls_app; simpl; by rewrite <- !app_assoc|]);
      by rewrite last_snoc.
Qed.

(** alice issues [!add] on a platform that accepts the grant and
    rejects every reply. *)
Lemma X6_witness :
  _my_ping_role (client world_reply_forbidden) = Some sample_role
  /\ is_guild_member world_reply_forbidden alice
  /\ ~ holds world_reply_forbidden alice sample_role
  /\ (_add_ping_role alice sample_channel world_reply_forbidden).1 = Ok tt
  /\ holds (_add_ping_role alice sample_channel world_reply_forbidden).2
       alice sample_role.
Proof.
  assert (Hm : is_guild_member world_reply_forbidden alice) by reflexivity.
  assert (Hh : ~ holds world_reply_forbidden alice sample_role)
    by (unfold holds; vm_compute; discriminate).
  destruct (proj1 (X6_reply_failure_after_mutation alice sample_channel
                     world_reply_forbidden sample_role
                     (DiscordException "403 Forbidden")
                     eq_refl Hm eq_refl eq_refl eq_refl) Hh)
    as (Hok & Hheld & _).
  repeat split; try done.
Defined.

(** ** Payload construction *)

Lemma rbind_ok {A B} (r : result A) (k : A -> result B) (b : B) :
  rbind r k = Ok b -> exists a, r = Ok a /\ k a = Ok b.
Proof. destruct r as [a|e]; simpl; intros Hr; [by exists a|done]. Qed.

Lemma getitem_ok (v : json) (key : string) (x : json) :
  getitem v key = Ok x <-> exists d, v = JObj d /\ d !! key = Some x.
Proof.
  unfold getitem. split.
  - destruct v; try done. destruct (d !! key) eqn:Hd; [|done].
    intros [= ->]. by eexists.
  - intros (d & -> & ->). done.
Qed.

(** X7. [construct] succeeds exactly on a JSON object that carries the
    six keys and whose two player counts [int] accepts. The string
    fields never make it fail: whatever JSON value stands under
    [token], [hostname] or [player_name] is turned into its [str], and
    the value under [join_ip] is stored as it is. Keys other than the
    six are not looked at. *)
Theorem X7_construct_success `{Builtins} (v : json) (p : NotifyPayload) :
  (construct v = Ok p <->
   exists d vt vh vn vm vp,
     v = JObj d
     /\ d !! "token" = Some vt /\ d !! "hostname" = Some vh
     /\ d !! "join_ip" = Some (ip p)
     /\ d !! "num_players" = Some vn /\ d !! "max_players" = Some vm
     /\ d !! "player_name" = Some vp
     /\ py_int vn = Ok (num_players p) /\ py_int vm = Ok (max_players p)
     /\ token p = py_str vt /\ hostname p = py_str vh
     /\ player_name p = py_str vp)
  /\ (forall d d',
        v = JObj d ->
        (forall k, k ∈ required_keys -> d' !! k = d !! k) ->
        construct (JObj d') = construct v).
Proof.
  split; [split|].
  - unfold construct. intros Hc.
    repeat (apply rbind_ok in Hc as (? & ? & Hc)).
    repeat match goal with
           | Hg : getitem _ _ = Ok _ |- _ =>
               apply getitem_ok in Hg as (? & ? & ?)
           end.
    simplify_eq. simpl. eauto 20.
  - intros (d & vt & vh & vn & vm & vp & -> & Ht & Hh & Hi & Hn & Hm & Hp
            & Hin & Him & Htok & Hhost & Hname).
    unfold construct, getitem. rewrite Ht, Hh, Hi, Hn, Hm, Hp. simpl.
    rewrite Hin, Him. simpl. destruct p. simpl in *. by subst.
  - intros d d' -> Hsame. unfold construct, getitem.
    rewrite !Hsame by (unfold required_keys; by repeat constructor). done.
Qed.

(** The sample body with an extra key and a token that is a number. *)
Lemma X7_witness :
  @construct sample_builtins
    (JObj (<["extra" := JNull]> (<["token" := JInt 7]> (sample_dict "t"))))
  = @construct sample_builtins (JObj (<["token" := JInt 7]> (sample_dict "t")))
  /\ token <$> (match @construct sample_builtins
                        (JObj (<["token" := JInt 7]> (sample_dict "t"))) with
                | Ok p => Some p
                | Raise _ => None
                end) = Some "7".
Proof.
  split; [|vm_compute; reflexivity].
  apply (proj2 (@X7_construct_success sample_builtins
                  (JObj (<["token" := JInt 7]> (sample_dict "t")))
                  (sample_payload "7"))
           (<["token" := JInt 7]> (sample_dict "t"))
           (<["extra" := JNull]> (<["token" := JInt 7]> (sample_dict "t")))
           eq_refl).
  intros k Hk. apply lookup_insert_ne.
  unfold required_keys in Hk. intros <-.
  repeat (apply elem_of_cons in Hk as [Hk|Hk]; [discriminate Hk|]).
  by apply elem_of_nil in Hk.
Defined.

(** X8. When [construct] fails it fails by [KeyError], [TypeError],
    [ValueError] or [OverflowError]: a value that is no JSON object
    gives [TypeError], an object without [token] gives
    [KeyError('token')], and a count that [int] refuses gives the error
    of [int]. *)
Theorem X8_construct_failure `{Builtins} (v : json) (e : exn) :
  construct v = Raise e ->
  (exists k, e = KeyError k /\ k ∈ required_keys
             /\ exists d, v = JObj d /\ d !! k = None)
  \/ (exists msg, e = TypeError msg)
  \/ (exists msg, e = ValueError msg)
  \/ (exists msg, e = OverflowError msg).
Proof.
  assert (Hget : forall key e', getitem v key = Raise e' -> key ∈ required_keys ->
            (exists k, e' = KeyError k /\ k ∈ required_keys
                       /\ exists d, v = JObj d /\ d !! k = None)
            \/ (exists msg, e' = TypeError msg)).
  { intros key e'. unfold getitem. destruct v; try (intros [= <-]; eauto).
    destruct (d !! key) eqn:Hd; [done|]. intros [= <-] Hk. left. eauto 10. }
  assert (Hint : forall x e', py_int x = Raise e' ->
            (exists msg, e' = TypeError msg) \/ (exists msg, e' = ValueError msg)
            \/ (exists msg, e' = OverflowError msg)).
  { intros x e'. unfold py_int. repeat case_match; intros; simplify_eq; eauto. }
  unfold construct. intros Hc.
  repeat (apply rbind_raise in Hc as [Hc|(? & _ & Hc)];
          [first [ apply Hget in Hc;
                   [destruct Hc as [?|?]; by auto
                   |unfold required_keys; by repeat constructor]
                 | apply Hint in Hc; by intuition ]|]).
  discriminate.
Qed.

(** The body that lacks [player_name]. *)
Lemma X8_witness :
  @construct sample_builtins (JObj (delete "player_name" (sample_dict "token1")))
  = Raise (KeyError "player_name")
  /\ ("player_name" ∈ required_keys).
Proof.
  assert (Hc : @construct sample_builtins
                 (JObj (delete "player_name" (sample_dict "token1")))
               = Raise (KeyError "player_name")) by (vm_compute; reflexivity).
  split; [exact Hc|].
  destruct (@X8_construct_failure sample_builtins _ _ Hc)
    as [(k & Hk & Hin & _)|[[m Hm]|[[m Hm]|[m Hm]]]]; try discriminate.
  by injection Hk as ->.
Defined.

(** ** What the dispatcher returns *)

Ltac notify_case :=
  split; split; intros Hx; try done;
  repeat match goal with
         | Hy : _ /\ _ |- _ => destruct Hy
         | Hy : _ \/ _ |- _ => destruct Hy
         | Hy : is_Some None |- _ => by destruct Hy
         | Hy : exists _, _ |- _ => destruct Hy
         end;
  try done; try congruence.

(** X9. [_on_notify] returns false exactly when the session is not
    ready. It returns true exactly when the session is ready and either
    the test-post flag is set, or the handles are resolved, the token
    is in the allow-list, [ip] is a string and the platform accepts the
    send. Every other failure leaves it by an exception. *)
Theorem X9_notify_result `{Builtins} (data : NotifyPayload) (w : World) :
  let run := _on_notify data w in
  (run.1 = Ok false <-> session_ready w = false)
  /\ (run.1 = Ok true <->
      session_ready w = true
      /\ (test_post (_config (client w)) = true
          \/ (is_Some (_my_ping_role (client w))
              /\ is_Some (_my_channel (client w))
              /\ token data ∈ _valid_tokens (client w)
              /\ (exists s, ip data = JStr s)
              /\ oracle w (length (calls w)) = None))).
Proof.
  unfold session_ready, _on_notify, bind, get, try_except, py_assert,
    platform_call, log, modify, ret, raise. simpl.
  destruct (ready (client w)); simpl; [|by notify_case].
  destruct (_init_done (client w)); simpl; [|by notify_case].
  destruct (test_post (_config (client w))); simpl.
  { split; split; intros Hx; try done. auto. }
  destruct (_my_ping_role (client w)) as [role|]; simpl; [|by notify_case].
  destruct (_my_channel (client w)) as [chnl|]; simpl; [|by notify_case].
  case_bool_decide as Htok; simpl; [|by notify_case].
  destruct (ip data) as [| | | |s| |] eqn:Hip; simpl; try by notify_case.
  destruct (oracle w (length (calls w))) as [e|]; simpl.
  - destruct (is_DiscordException e); simpl; by notify_case.
  - split; split; intros Hx; try done. split; [done|]. right. eauto 10.
Qed.

(** The ready sample client and the sample event with a listed token. *)
Lemma X9_witness :
  session_ready world_ready = true
  /\ ("token1" ∈ _valid_tokens (client world_ready))
  /\ (@_on_notify sample_builtins (sample_payload "token1") world_ready).1
     = Ok true.
Proof.
  assert (Htok : "token1" ∈ _valid_tokens (client world_ready))
    by (simpl; constructor).
  split; [reflexivity|]. split; [exact Htok|].
  apply (proj2 (@X9_notify_result sample_builtins (sample_payload "token1")
                  world_ready)).
  split; [reflexivity|]. right.
  split; [by eexists|]. split; [by eexists|]. split; [exact Htok|].
  split; [by eexists|reflexivity].
Defined.

(** X10. A parsed body whose [join_ip] is not a string is stored as it
    is in the payload; in a ready session outside test mode, with the
    handles resolved and a listed token, the dispatcher then raises a
    [TypeError] (with whatever message the library gives it) while
    building the announcement, before any platform call, and the
    request is answered with status 400. *)
Theorem X10_non_string_join_ip `{Builtins} (request : Request)
    (d : gmap string json) (data : NotifyPayload) (v : json) (w : World)
    (app : NotifyWebApp) :
  req_json request = Ok (JObj d) ->
  construct (JObj d) = Ok data ->
  d !! "join_ip" = Some v ->
  not_a_string v ->
  session_ready w = true ->
  test_post (_config (client w)) = false ->
  is_Some (_my_ping_role (client w)) ->
  is_Some (_my_channel (client w)) ->
  token data ∈ _valid_tokens (client w) ->
  ip data = v
  /\ exists msg,
       _on_notify data w = (Raise (TypeError msg), w)
       /\ outcome app (serve_post request (w, app))
          = (Ok {| status := 400; body := success_body false |},
             [Raise (TypeError msg)]).
Proof.
  intros Hj Hc Hip Hv Hr Ht [role Hrole] [chnl Hch] Htok.
  assert (Hipd : ip data = v).
  { revert Hc. unfold construct, getitem. rewrite Hip.
    intros Hc.
    repeat (apply rbind_ok in Hc as (? & ? & Hc)).
    repeat match goal with
           | Hx : match ?o with _ => _ end = Ok _ |- _ =>
               destruct o; simplify_eq
           end.
    by simplify_eq. }
  assert (Hrun : _on_notify data w
                 = (Raise (TypeError "expected string or bytes-like object"), w)).
  { unfold session_ready in Hr.
    unfold _on_notify, bind, get, try_except, py_assert, raise, ret. simpl.
    rewrite <- negb_andb, Hr, Ht, Hrole, Hch. simpl.
    rewrite (bool_decide_eq_true_2 _ Htok), Hipd. simpl.
    by destruct v. }
  split; [done|]. eexists. split; [exact Hrun|].
  rewrite (outcome_parsed request w app (JObj d) data Hj Hc). by rewrite Hrun.
Qed.

(** The sample body with the number 5 for [join_ip], sent to the ready
    client. *)
Lemma X10_witness :
  @construct sample_builtins (JObj numeric_ip_dict)
  = Ok {| token := "token1"; hostname := "hostname"; ip := JInt 5;
          num_players := 1; max_players := 2; player_name := "player_name" |}
  /\ exists msg,
       outcome app0 (@serve_post sample_builtins numeric_ip_request
                       (world_ready, app0))
       = (Ok {| status := 400; body := success_body false |},
          [Raise (TypeError msg)]).
Proof.
  assert (Hc : @construct sample_builtins (JObj numeric_ip_dict)
               = Ok {| token := "token1"; hostname := "hostname"; ip := JInt 5;
                       num_players := 1; max_players := 2;
                       player_name := "player_name" |})
    by (vm_compute; reflexivity).
  split; [exact Hc|].
  assert (Htok : "token1" ∈ _valid_tokens (client world_ready))
    by (simpl; constructor).
  destruct (@X10_non_string_join_ip sample_builtins numeric_ip_request
              numeric_ip_dict _ (JInt 5) world_ready app0 eq_refl Hc
              eq_refl I eq_refl eq_refl (ex_intro _ _ eq_refl)
              (ex_intro _ _ eq_refl) Htok)
    as (_ & msg & _ & Hout).
  by exists msg.
Defined.

(** ** The handler as a boundary *)

(** X11. Unless reading the body raises an exception outside
    [Exception], [_handle_webrequest] returns a response whatever the
    request and whatever the dispatcher does: status 200 with
    [{"success": true}] or status 400 with [{"success": false}], after
    at most one call of the dispatcher; an exception of any class from
    the dispatcher, or from reading the body text for the log, is
    swallowed. An exception outside [Exception] from reading the body
    leaves the handler, without a call of the dispatcher. The handler
    never touches the site handle. *)
Theorem X11_handler_always_answers `{Builtins} {W : Type}
    (callback : NotifyPayload -> M W bool) (request : Request)
    (w : W) (app : NotifyWebApp) :
  let run := _handle_webrequest callback request (w, app) in
  _site run.2.2 = _site app
  /\ ((forall e, req_json request = Raise e -> is_Exception e = true) ->
      (run.1 = Ok {| status := 200; body := success_body true |}
       \/ run.1 = Ok {| status := 400; body := success_body false |})
      /\ (callbacks (wtrace run.2.2) = callbacks (wtrace app)
          \/ exists data r,
               callbacks (wtrace run.2.2)
               = callbacks (wtrace app) ++ [(data, r)]))
  /\ (forall e, req_json request = Raise e -> is_Exception e = false ->
      run = (Raise e, (w, app))).
Proof.
  unfold _handle_webrequest, bind, try_except, lift_result, wlog, modify, ret,
    call_callback. simpl.
  destruct (req_json request) as [v|e] eqn:Hj; simpl.
  - destruct (construct v) as [data|e] eqn:Hc; simpl.
    + destruct (callback data w) as [[[|]|e] w'] eqn:Hcb; simpl;
        rewrite ?callbacks_log, ?callbacks_call, ?callbacks_log;
        (split; [done|]); (split; [|done]); intros _;
        (split; [by auto|by eauto]).
    + rewrite (construct_raises_Exception _ _ Hc). simpl.
      destruct (req_text request); simpl; rewrite ?callbacks_log;
        (split; [done|]); (split; [|done]); intros _; by auto.
  - destruct (is_Exception e) eqn:He; simpl.
    + destruct (req_text request); simpl; rewrite ?callbacks_log;
        (split; [done|]); (split; [by auto|]);
        intros e' [= <-] He'; congruence.
    + split; [done|]. split.
      * intros Hall. rewrite (Hall e eq_refl) in He. done.
      * intros e' [= <-] _. by destruct app.
Qed.

(** A body read that is cancelled, and a dispatcher that raises. *)
Lemma X11_witness :
  @_handle_webrequest sample_builtins unit answers_true cancelled_request
    (tt, app0)
  = (Raise CancelledError, (tt, app0))
  /\ (@_handle_webrequest sample_builtins unit
        (fun _ => raise CancelledError) (sample_request "token") (tt, app0)).1
     = Ok {| status := 400; body := success_body false |}.
Proof.
  split.
  - apply (proj2 (proj2 (@X11_handler_always_answers sample_builtins unit
                           answers_true cancelled_request tt app0))
             CancelledError eq_refl eq_refl).
  - destruct (proj1 (proj2 (@X11_handler_always_answers sample_builtins unit
                              (fun _ => raise CancelledError)
                              (sample_request "token") tt app0)))
      as [[Hok|Hbad] _].
    + intros e He. discriminate He.
    + vm_compute in Hok. discriminate Hok.
    + exact Hbad.
Defined.

Lemma on_notify_client `{Builtins} (data : NotifyPayload) (w : World) :
  client (_on_notify data w).2 = client w.
Proof.
  unfold _on_notify, bind, get, try_except, py_assert, platform_call, log,
    modify, ret, raise. simpl.
  destruct (ready (client w)); simpl; [|done].
  destruct (_init_done (client w)); simpl; [|done].
  destruct (test_post (_config (client w))); simpl; [done|].
  destruct (_my_ping_role (client w)) as [role|]; simpl; [|done].
  destruct (_my_channel (client w)) as [chnl|]; simpl; [|done].
  case_bool_decide; simpl; [|done].
  destruct (ip data); simpl; try done.
  destruct (oracle w (length (calls w))) as [e|]; simpl; [|done].
  by destruct (is_DiscordException e).
Qed.

(** X12. Served by a client, a POST is answered with status 200 exactly
    when [_on_notify] returns true for the payload built from its
    body; a body from which no payload can be built, a dispatcher that
    returns false and a dispatcher that raises are all answered with
    status 400 (reading the body not being cut short by an exception
    outside [Exception]). Serving the request leaves the client's own
    state unchanged. *)
Theorem X12_serve_post_status `{Builtins} (request : Request) (w : World)
    (app : NotifyWebApp) :
  (forall e, req_json request = Raise e -> is_Exception e = true) ->
  let run := serve_post request (w, app) in
  (run.1 = Ok {| status := 200; body := success_body true |}
   <-> exists v data, req_json request = Ok v /\ construct v = Ok data
                      /\ (_on_notify data w).1 = Ok true)
  /\ (run.1 <> Ok {| status := 200; body := success_body true |}
      -> run.1 = Ok {| status := 400; body := success_body false |})
  /\ client run.2.1 = client w.
Proof.
  intros Hexn. simpl.
  pose proof (fun data => on_notify_client data w) as Hclient.
  destruct (req_json request) as [v|e] eqn:Hj.
  - destruct (construct v) as [data|e] eqn:Hc.
    + destruct (handle_parsed _on_notify request w app v data Hj Hc)
        as (_ & Hw & Hr).
      unfold serve_post. rewrite Hr, Hw.
      split; [split|split].
      * intros Hok. exists v, data. split; [done|]. split; [done|].
        by destruct (_on_notify data w) as [[[|]|?] ?].
      * intros (v' & data' & [= <-] & Hc' & Hn). rewrite Hc in Hc'.
        injection Hc' as <-. by rewrite Hn.
      * by destruct (_on_notify data w) as [[[|]|?] ?].
      * apply Hclient.
    + assert (Hbad : malformed request) by (right; by exists v, e).
      destruct (handle_malformed _on_notify request w app Hbad) as (Hr & _ & Hw).
      unfold serve_post. rewrite Hr, Hw.
      split; [split|split]; try done.
      intros (v' & data' & [= <-] & Hc' & _). congruence.
  - assert (Hbad : malformed request)
      by (left; exists e; split; [done|by apply Hexn]).
    destruct (handle_malformed _on_notify request w app Hbad) as (Hr & _ & Hw).
    unfold serve_post. rewrite Hr, Hw.
    split; [split|split]; try done.
    intros (v' & data' & Hv & _). discriminate Hv.
Qed.

(** The sample body with a listed token, served by the ready client. *)
Lemma X12_witness :
  (@serve_post sample_builtins (sample_request "token1") (world_ready, app0)).1
  = Ok {| status := 200; body := success_body true |}.
Proof.
  apply (proj1 (@X12_serve_post_status sample_builtins (sample_request "token1")
                  world_ready app0 ltac:(intros e He; discriminate He))).
  exists (JObj (sample_dict "token1")), (sample_payload "token1").
  split; [reflexivity|]. split; [reflexivity|]. vm_compute. reflexivity.
Defined.

(** ** The loaded tokens *)

Lemma str_index_app_none (c : ascii) (a b : string) :
  str_index c (a +:+ b) = None <-> str_index c a = None /\ str_index c b = None.
Proof.
  induction a as [|d a IH]; rewrite ?app_String, ?app_empty; simpl.
  - split; [done|by intros [_ ?]].
  - destruct (Ascii.eqb d c); [split; [done|by intros [? _]]|].
    by rewrite !fmap_None.
Qed.

Lemma slice_to_before_index (c : ascii) (line : string) (i : nat) :
  str_index c line = Some i -> str_index c (slice_to i line) = None.
Proof.
  revert i. induction line as [|d line IH]; intros i; simpl; [done|].
  destruct (Ascii.eqb d c) eqn:Hd.
  - by intros [= <-].
  - destruct (str_index c line) as [j|]; simpl; [|done].
    intros [= <-]. simpl. by rewrite Hd, (IH j eq_refl).
Qed.

Lemma strip_keeps_absent (c : ascii) (s : string) :
  str_index c s = None -> str_index c (strip s) = None.
Proof.
  destruct (strip_spec s) as (l & r & Hs & _). intros Hnone.
  rewrite Hs in Hnone.
  apply str_index_app_none in Hnone as [_ Hnone].
  by apply str_index_app_none in Hnone as [Hnone _].
Qed.

Lemma token_of_line_wellformed (line t : string) :
  token_of_line line = Some t ->
  t <> EmptyString /\ str_index ";" t = None
  /\ space_at_head t = false /\ space_at_end t = false.
Proof.
  unfold token_of_line.
  destruct (str_index ";" line) as [i|] eqn:Hi.
  - destruct (Nat.eqb i 0); [done|].
    destruct (strip (slice_to i line)) as [|c s] eqn:Hs; [done|].
    intros [= <-]. rewrite <- Hs. split; [by rewrite Hs|].
    split; [by apply strip_keeps_absent, slice_to_before_index|].
    destruct (strip_spec (slice_to i line)) as (_ & _ & _ & _ & _ & ? & ?).
    done.
  - destruct (strip line) as [|c s] eqn:Hs; [done|].
    intros [= <-]. rewrite <- Hs. split; [by rewrite Hs|].
    split; [by apply strip_keeps_absent|].
    destruct (strip_spec line) as (_ & _ & _ & _ & _ & ? & ?).
    done.
Qed.

(** X13. Every token that [_get_valid_tokens] returns comes from one
    line of the file, is not empty, holds no [;] and neither begins nor
    ends with a whitespace character. So the empty string is never a
    valid token. *)
Theorem X13_tokens_wellformed (text t : string) :
  t ∈ _get_valid_tokens text ->
  (exists line, line ∈ readlines (translate_newlines text)
                /\ token_of_line line = Some t)
  /\ t <> EmptyString
  /\ str_index ";" t = None
  /\ space_at_head t = false
  /\ space_at_end t = false
  /\ EmptyString ∉ _get_valid_tokens text.
Proof.
  unfold _get_valid_tokens. rewrite tokens_loop_omap. simpl.
  intros (line & Hline & Htok)%list_elem_of_omap.
  destruct (token_of_line_wellformed line t Htok) as (Hne & Hsemi & Hh & He).
  split; [by exists line|]. repeat (split; [done|]).
  intros (line' & _ & Htok')%list_elem_of_omap.
  by destruct (token_of_line_wellformed line' _ Htok').
Qed.

(** The second token of the test file. *)
Lemma X13_witness :
  ("token2" ∈ _get_valid_tokens test_tokens_file)
  /\ (EmptyString ∉ _get_valid_tokens test_tokens_file).
Proof.
  assert (Hin : "token2" ∈ _get_valid_tokens test_tokens_file).
  { vm_compute. right. left. }
  split; [exact Hin|].
  apply (X13_tokens_wellformed test_tokens_file "token2" Hin).
Defined.

(** ** Construction of the client *)

(** X14. [NotifyClient.__init__] fails with [AssertionError] exactly
    when the token file yields no token. Otherwise the client holds the
    loaded tokens and the configuration, is not ready, has no handle
    resolved and exit code 0, and its web application has no site and
    the GET handler as configured; on any platform this client answers
    false to every event and makes no platform call. *)
Theorem X14_client_construction `{Builtins} (config : NotifyConfig)
    (text : string) :
  (_get_valid_tokens text = [] <->
   NotifyClient_init config text
   = Raise (AssertionError "You must insert tokens in .tokens.txt file!"))
  /\ (forall c app records,
        NotifyClient_init config text = Ok (c, app, records) ->
        _valid_tokens c = _get_valid_tokens text
        /\ _valid_tokens c <> []
        /\ _config c = config
        /\ _init_done c = false /\ ready c = false /\ exitcode c = 0
        /\ _my_channel c = None /\ _my_guild c = None /\ _my_ping_role c = None
        /\ _site app = None /\ register_get app = test_get config
        /\ forall p oracle data,
             (_on_notify data (world_of c p oracle)).1 = Ok false
             /\ calls (_on_notify data (world_of c p oracle)).2 = []).
Proof.
  unfold NotifyClient_init.
  destruct (_get_valid_tokens text) as [|t ts] eqn:Htok.
  - split; [done|]. intros c app records Hc. discriminate Hc.
  - split; [split; intros Hx; discriminate Hx|].
    intros c app records [= <- <- <-]. simpl.
    repeat (split; [done|]). done.
Qed.

(** The token file of the tests, and a file of comments only. *)
Lemma X14_witness :
  @NotifyClient_init (sample_config false) ("; no tokens" +:+ String LF "")
  = Raise (AssertionError "You must insert tokens in .tokens.txt file!")
  /\ (match @NotifyClient_init (sample_config false) test_tokens_file with
      | Ok (c, _, _) => _valid_tokens c
      | Raise _ => []
      end) = ["token1"; "token2"; "token3"].
Proof.
  split.
  - apply (proj1 (@X14_client_construction sample_builtins (sample_config false)
                    ("; no tokens" +:+ String LF ""))).
    vm_compute. reflexivity.
  - destruct (@NotifyClient_init (sample_config false) test_tokens_file)
      as [[[c app] records]|e] eqn:Hinit.
    + destruct (proj2 (@X14_client_construction sample_builtins
                         (sample_config false) test_tokens_file)
                  c app records Hinit) as (-> & _).
      vm_compute. reflexivity.
    + vm_compute in Hinit. discriminate Hinit.
Defined.

(** ** Listener: stop after start, and the SSL context *)

(** X15. [stop] reads the site handle: on an application that was never
    started, or whose start met its error before the site object was
    assigned, it raises [AttributeError] (the handle is [None]),
    although that [start] returned normally. Once [start] has got as
    far as the site object, also when binding the port failed, [stop]
    finds a handle to call. *)
Theorem X15_stop_after_start (env : ListenerEnv) (port : Z) (ssl : bool)
    (app : NotifyWebApp) :
  only_errors env ->
  _site app = None ->
  let started := (start env port ssl app).2 in
  (stop app).1
  = Raise (AttributeError "'NoneType' object has no attribute 'stop'")
  /\ ((app_runner_new env <> None \/ runner_setup env <> None
       \/ tcp_site_new env <> None) ->
      (start env port ssl app).1 = Ok tt
      /\ stop started
         = (Raise (AttributeError "'NoneType' object has no attribute 'stop'"),
            started))
  /\ (app_runner_new env = None -> runner_setup env = None ->
      tcp_site_new env = None ->
      is_Some (_site started)
      /\ (stop started).1
         <> Raise (AttributeError "'NoneType' object has no attribute 'stop'")).
Proof.
  intros Herr Hnone. simpl.
  pose proof (start_returns env port ssl app Herr) as Hstart.
  apply only_errors_caught in Herr as (H1 & H2 & H3 & H4).
  split; [unfold stop, bind, get; simpl; by rewrite Hnone|].
  clear Hstart.
  unfold stop, start, _init_webapp, try_except_else.
  unfold bind, external, modify, raise, ret, get. simpl.
  destruct (app_runner_new env) as [e1|]; simpl.
  { rewrite (H1 e1 eq_refl). simpl. rewrite Hnone.
    split; [done|]. by intros. }
  destruct (runner_setup env) as [e2|]; simpl.
  { rewrite (H2 e2 eq_refl). simpl. rewrite Hnone.
    split; [done|]. by intros. }
  destruct (tcp_site_new env) as [e3|]; simpl.
  { rewrite (H3 e3 eq_refl). simpl. rewrite Hnone.
    split; [done|]. by intros. }
  destruct (site_start env) as [e4|]; simpl.
  { rewrite (H4 e4 eq_refl). simpl.
    split; [by intros [?|[?|?]]|]. intros _ _ _. split; [by eexists|done]. }
  split; [by intros [?|[?|?]]|]. intros _ _ _. split; [by eexists|done].
Qed.

(** A fresh application whose runner cannot be set up: [start] returns
    normally and [stop] raises. *)
Lemma X15_witness :
  only_errors runner_fails
  /\ (start runner_fails 3000 false app0).1 = Ok tt
  /\ (stop (start runner_fails 3000 false app0).2).1
     = Raise (AttributeError "'NoneType' object has no attribute 'stop'").
Proof.
  assert (Herr : only_errors runner_fails).
  { intros e [He|[He|[He|He]]]; simpl in He; by simplify_eq. }
  split; [exact Herr|].
  destruct (proj1 (proj2 (X15_stop_after_start runner_fails 3000 false app0
                            Herr eq_refl)))
    as [Hs Hstop].
  - right. left. discriminate.
  - split; [exact Hs|]. by rewrite Hstop.
Defined.

(** X16. [setup_hook] builds an SSL context when the certificate path
    or the key path is set, one of the two being enough. An error from
    building it is not caught: it leaves [setup_hook] and the listener
    is not started, the web application staying as it was. With
    neither path set the hook logs that SSL is not used and starts the
    listener on the configured port without a context. *)
Theorem X16_setup_hook_ssl (ssl_load : option exn) (env : ListenerEnv)
    (w : World) (app : NotifyWebApp) :
  let cfg := _config (client w) in
  (forall e,
     cert_path cfg <> "" \/ key_path cfg <> "" ->
     ssl_load = Some e ->
     setup_hook ssl_load env (w, app) = (Raise e, (w, app)))
  /\ (cert_path cfg <> "" \/ key_path cfg <> "" ->
      ssl_load = None ->
      setup_hook ssl_load env (w, app)
      = ((start env (port cfg) true app).1,
         (w, (start env (port cfg) true app).2)))
  /\ (cert_path cfg = "" -> key_path cfg = "" ->
      setup_hook ssl_load env (w, app)
      = ((start env (port cfg) false app).1,
         ((log INFO "NOT USING SSL" w).2,
          (start env (port cfg) false app).2))).
Proof.
  simpl.
  assert (Huse : cert_path (_config (client w)) <> ""
                 \/ key_path (_config (client w)) <> "" ->
            negb (String.eqb (cert_path (_config (client w))) "")
            || negb (String.eqb (key_path (_config (client w))) "") = true).
  { intros [Hne|Hne]; apply String.eqb_neq in Hne; rewrite Hne; simpl;
      [done|by rewrite orb_true_r]. }
  unfold setup_hook. simpl.
  split; [|split].
  - intros e Hne ->. rewrite (Huse Hne). simpl. by destruct w.
  - intros Hne ->. rewrite (Huse Hne). simpl.
    destruct (start env _ true app). by destruct w.
  - intros -> ->. simpl. by destruct (start env _ false app).
Qed.

(** A client configured with a certificate that cannot be loaded. *)
Lemma X16_witness :
  setup_hook (Some (OSError "No such file or directory")) port_in_use
    (ssl_world, app0)
  = (Raise (OSError "No such file or directory"), (ssl_world, app0)).
Proof.
  apply (proj1 (X16_setup_hook_ssl (Some (OSError "No such file or directory"))
                  port_in_use ssl_world app0)
           (OSError "No such file or directory")).
  - left. discriminate.
  - reflexivity.
Defined.

(** ** Replies through [_channel_msg] *)

(** X17. [_channel_msg] makes exactly one send, of the given text to
    the given channel. It returns normally when the send succeeds and
    also when it raises a [DiscordException], which it logs as an
    error; an exception of another class leaves it. The platform and
    the client state are untouched. *)
Theorem X17_channel_msg (msg : string) (chnl : Channel) (w : World) :
  let run := _channel_msg msg chnl w in
  let outcome := oracle w (length (calls w)) in
  calls run.2 = calls w ++ [(Send (chan_id chnl) msg None, outcome)]
  /\ platform run.2 = platform w
  /\ client run.2 = client w
  /\ (outcome = None -> run.1 = Ok tt /\ clog run.2 = clog w)
  /\ (forall e, outcome = Some e -> is_DiscordException e = true ->
        run.1 = Ok tt
        /\ clog run.2
           = clog w ++ [(ERROR, "Error sending a channel message: "
                                  +:+ exn_str e)])
  /\ (forall e, outcome = Some e -> is_DiscordException e = false ->
        run.1 = Raise e /\ clog run.2 = clog w).
Proof.
  simpl.
  destruct (channel_msg_run msg chnl w) as (Hc & Hp & Hcl & _).
  pose proof (channel_msg_result msg chnl w) as Hr. simpl in Hr.
  split; [done|]. split; [done|]. split; [done|].
  destruct (oracle w (length (calls w))) as [e|].
  - split; [done|].
    split; intros e' [= <-] He; rewrite He in Hr; done.
  - split; [done|]. split; by intros.
Qed.

(** A reply on the platform that rejects every call. *)
Lemma X17_witness :
  oracle world_forbidden (length (calls world_forbidden))
  = Some (DiscordException "403 Forbidden (error code: 50013): Missing Permissions")
  /\ (_channel_msg "hello" sample_channel world_forbidden).1 = Ok tt.
Proof.
  split; [reflexivity|].
  apply (proj1 (proj2 (proj2 (proj2 (proj2
           (X17_channel_msg "hello" sample_channel world_forbidden)))))
           _ eq_refl eq_refl).
Defined.

(** ** Configuration *)

Lemma rassert_ok (cond : bool) (msg : string) (u : unit) :
  rassert cond msg = Ok u -> cond = true.
Proof. by destruct cond. Qed.

Lemma str_truthy_spec (o : option string) :
  str_truthy o = true <-> exists c s, o = Some (String c s).
Proof.
  destruct o as [[|c s]|]; simpl; split; try done; try (by intros (? & ? & ?)).
  intros _. by exists c, s.
Qed.

Lemma int_truthy_spec (o : option Z) :
  int_truthy o = true <-> exists z, o = Some z /\ z <> 0.
Proof.
  destruct o as [z|]; simpl; [|split; [done|by intros (? & ? & ?)]].
  rewrite negb_true_iff, Z.eqb_neq. split; [by exists z|].
  by intros (? & [= <-] & ?).
Qed.

Lemma cfg_get_some (prsr : ConfigParser) (section opt x : string) :
  cfg_get prsr section opt = Ok (Some x) ->
  prsr section opt = CfgValue (Some x).
Proof.
  unfold cfg_get. destruct (prsr section opt) as [v| |e]; intros Hg;
    [|done|done]. by injection Hg as ->.
Qed.

Lemma cfg_get_flag (prsr : ConfigParser) (section opt : string)
    (v : option string) :
  cfg_get prsr section opt = Ok v ->
  (if str_truthy v then true else false) = true
  <-> exists c s, prsr section opt = CfgValue (Some (String c s)).
Proof.
  unfold cfg_get. destruct (prsr section opt) as [o| |e]; intros Hg;
    [| |done]; injection Hg as <-.
  - destruct o as [[|c s]|]; simpl; split; try done;
      try (by intros (? & ? & ?)).
    intros _. by exists c, s.
  - simpl. split; [done|by intros (? & ? & ?)].
Qed.

Lemma cfg_getint_some `{Builtins} (prsr : ConfigParser)
    (section opt : string) (z : Z) :
  cfg_getint prsr section opt = Ok (Some z) ->
  exists v, prsr section opt = CfgValue (Some v) /\ py_int_of_str v = Some z.
Proof.
  unfold cfg_getint. destruct (prsr section opt) as [[v|]| |e]; simpl;
    intros Hg; [|done|done|done].
  destruct (py_int_of_str v) as [z'|] eqn:Hz; [|done].
  injection Hg as <-. by exists v.
Qed.

(** X18. A configuration that [parse_config] accepts has a token that
    is not empty and a role id, a channel id and a port that are
    integers other than zero, each the value that the parser's [get]
    answers for its option (after the interpolation and with the
    defaults inherited), the integers read from it by [int]; an id
    written as 0 is refused like a missing one. The two test flags are
    set by any answer that is not empty, so [test_post=false] turns the
    test mode on. When [get] answers nothing or the empty string for
    the token the first assertion fails, whatever else the file holds,
    and when it raises, [parse_config] raises the same. *)
Theorem X18_parse_config `{Builtins} (prsr : ConfigParser) :
  (forall cfg, parse_config prsr = Ok cfg ->
     prsr "discord" "token" = CfgValue (Some (discord_token cfg))
     /\ discord_token cfg <> ""
     /\ (exists v, prsr "discord" "ping_role" = CfgValue (Some v)
                   /\ py_int_of_str v = Some (ping_role cfg))
     /\ ping_role cfg <> 0
     /\ (exists v, prsr "discord" "channel" = CfgValue (Some v)
                   /\ py_int_of_str v = Some (channel_id cfg))
     /\ channel_id cfg <> 0
     /\ (exists v, prsr "server" "port" = CfgValue (Some v)
                   /\ py_int_of_str v = Some (port cfg))
     /\ port cfg <> 0
     /\ (test_get cfg = true
         <-> exists c s,
               prsr "server" "test_get" = CfgValue (Some (String c s)))
     /\ (test_post cfg = true
         <-> exists c s,
               prsr "server" "test_post" = CfgValue (Some (String c s))))
  /\ (prsr "discord" "token" = CfgMissing
      \/ prsr "discord" "token" = CfgValue None
      \/ prsr "discord" "token" = CfgValue (Some "") ->
      parse_config prsr = Raise (AssertionError "You need to set discord token!"))
  /\ (forall e, prsr "discord" "token" = CfgError e ->
      parse_config prsr = Raise e)
  /\ (forall c s v, prsr "discord" "token" = CfgValue (Some (String c s)) ->
      prsr "discord" "ping_role" = CfgValue (Some v) ->
      py_int_of_str v = Some 0 ->
      parse_config prsr = Raise (AssertionError "You need to set ping role id!")).
Proof.
  split; [|split; [|split]].
  - intros cfg Hc. unfold parse_config in Hc.
    apply rbind_ok in Hc as (tok & Htok & Hc).
    apply rbind_ok in Hc as (? & Ha1 & Hc). apply rassert_ok in Ha1.
    apply rbind_ok in Hc as (role & Hrole & Hc).
    apply rbind_ok in Hc as (? & Ha2 & Hc). apply rassert_ok in Ha2.
    apply rbind_ok in Hc as (chan & Hchan & Hc).
    apply rbind_ok in Hc as (? & Ha3 & Hc). apply rassert_ok in Ha3.
    apply rbind_ok in Hc as (prt & Hport & Hc).
    apply rbind_ok in Hc as (? & Ha4 & Hc). apply rassert_ok in Ha4.
    apply rbind_ok in Hc as (cert & _ & Hc).
    apply rbind_ok in Hc as (key & _ & Hc).
    apply rbind_ok in Hc as (tg & Htg & Hc).
    apply rbind_ok in Hc as (tp & Htp & Hc).
    injection Hc as <-. simpl.
    apply str_truthy_spec in Ha1 as (c & s & ->).
    apply int_truthy_spec in Ha2 as (zr & -> & Hzr).
    apply int_truthy_spec in Ha3 as (zc & -> & Hzc).
    apply int_truthy_spec in Ha4 as (zp & -> & Hzp).
    simpl.
    split; [by apply cfg_get_some|]. split; [done|].
    split; [by apply cfg_getint_some|]. split; [done|].
    split; [by apply cfg_getint_some|]. split; [done|].
    split; [by apply cfg_getint_some|]. split; [done|].
    split; [by apply (cfg_get_flag _ _ _ _ Htg)
           |by apply (cfg_get_flag _ _ _ _ Htp)].
  - intros Hno. unfold parse_config, cfg_get.
    by destruct Hno as [->|[->| ->]].
  - intros e He. unfold parse_config, cfg_get. by rewrite He.
  - intros c s v Htok Hrole Hzero. unfold parse_config, cfg_get, cfg_getint.
    rewrite Htok, Hrole. simpl. by rewrite Hzero.
Qed.

(** The configuration of the unit test, the same with
    [test_post=false], and a parser that interpolates and inherits. *)
Lemma X18_witness :
  @parse_config decimal_builtins test_config_parser
  = Ok {| discord_token := "token"; ping_role := 2; channel_id := 1;
          port := 3000; cert_path := "cert"; key_path := "key";
          test_get := false; test_post := false |}
  /\ false_flag_parser "server" "test_post" = CfgValue (Some "false")
  /\ (match @parse_config decimal_builtins false_flag_parser with
      | Ok cfg => test_post cfg
      | Raise _ => false
      end) = true
  /\ (match @parse_config decimal_builtins interpolating_parser with
      | Ok cfg => interpolating_parser "discord" "token"
                  = CfgValue (Some (discord_token cfg))
      | Raise _ => False
      end).
Proof.
  split; [vm_compute; reflexivity|]. split; [vm_compute; reflexivity|].
  split.
  - destruct (@parse_config decimal_builtins false_flag_parser)
      as [cfg|e] eqn:Hc.
    + apply (proj1 (@X18_parse_config decimal_builtins false_flag_parser)
               cfg Hc).
      exists "f"%char, "alse". vm_compute. reflexivity.
    + vm_compute in Hc. discriminate Hc.
  - destruct (@parse_config decimal_builtins interpolating_parser)
      as [cfg|e] eqn:Hc.
    + apply (proj1 (@X18_parse_config decimal_builtins interpolating_parser)
               cfg Hc).
    + vm_compute in Hc. discriminate Hc.
Defined.

(** ** After [on_ready] *)

Lemma on_message_not_ready (message : Message) (w : World) :
  session_ready w = false ->
  on_message message w
  = (Ok tt, (log DEBUG "Received message but bot is not ready yet." w).2).
Proof.
  unfold session_ready, on_message, bind, get. simpl. intros Hr.
  by rewrite <- negb_andb, Hr.
Qed.

(** X19. When [on_ready] cannot resolve the channel or the role, the
    client it leaves behind is closed with exit code 1 and its session
    is not ready, also when [_init_done] had been set by an earlier
    run: from then on every event is answered false and every chat
    message is dropped, without a platform call. *)
Theorem X19_failed_on_ready_is_final `{Builtins} (w : World) :
  let cfg := _config (client w) in
  let w' := (on_ready w).2 in
  (forall id guild,
     channels (platform w) !! channel_id cfg = Some (TextChannel id guild) ->
     guild_roles (platform w) !! (guild, ping_role cfg) = None) ->
  exitcode (client w') = 1
  /\ closed (client w') = true
  /\ session_ready w' = false
  /\ (forall data,
        (_on_notify data w').1 = Ok false
        /\ calls (_on_notify data w').2 = calls w)
  /\ (forall message,
        (on_message message w').1 = Ok tt
        /\ calls (on_message message w').2 = calls w
        /\ platform (on_message message w').2 = platform w).
Proof.
  simpl. intros Hfail.
  assert (Hw : exitcode (client (on_ready w).2) = 1
               /\ closed (client (on_ready w).2) = true
               /\ ready (client (on_ready w).2) = false
               /\ calls (on_ready w).2 = calls w
               /\ platform (on_ready w).2 = platform w).
  { revert Hfail.
    unfold on_ready, bind, get, log, modify, set_exitcode, close, set_resolved,
      set_init_done, with_client. simpl.
    destruct (channels (platform w) !! channel_id (_config (client w)))
      as [[id guild|id|id]|]; simpl; try done.
    intros Hfail. by rewrite (Hfail id guild eq_refl). }
  destruct Hw as (Hexit & Hclosed & Hready & Hcalls & Hplat).
  assert (Hnot : session_ready (on_ready w).2 = false)
    by (unfold session_ready; by rewrite Hready).
  repeat (split; [done|]). split.
  - intros data. by rewrite (on_notify_not_ready data _ Hnot).
  - intros message. by rewrite (on_message_not_ready message _ Hnot).
Qed.

(** The sample client configured with a role that the guild lacks. *)
Lemma X19_witness :
  exitcode (client (on_ready world_no_role).2) = 1
  /\ (@_on_notify sample_builtins (sample_payload "token1")
        (on_ready world_no_role).2).1 = Ok false.
Proof.
  assert (Hfail : forall id guild,
            channels (platform world_no_role)
              !! channel_id (_config (client world_no_role))
            = Some (TextChannel id guild) ->
            guild_roles (platform world_no_role)
              !! (guild, ping_role (_config (client world_no_role))) = None).
  { intros id guild Hch. vm_compute in Hch. injection Hch as <- <-.
    vm_compute. reflexivity. }
  destruct (@X19_failed_on_ready_is_final sample_builtins world_no_role Hfail)
    as (Hexit & _ & _ & Hnotify & _).
  split; [exact Hexit|]. apply Hnotify.
Defined.

(** X20. Running [on_ready] again, as after a reconnect, changes
    nothing more: the client state after two runs is the state after
    one. *)
Theorem X20_on_ready_idempotent (w : World) :
  client (on_ready (on_ready w).2).2 = client (on_ready w).2
  /\ platform (on_ready (on_ready w).2).2 = platform w
  /\ calls (on_ready (on_ready w).2).2 = calls w.
Proof.
  unfold on_ready, bind, get, log, modify, set_exitcode, close, set_resolved,
    set_init_done, with_client. simpl.
  destruct (channels (platform w) !! channel_id (_config (client w)))
    as [[id guild|id|id]|] eqn:Hch; simpl; rewrite ?Hch; simpl; try done.
  destruct (guild_roles (platform w) !! (guild, ping_role (_config (client w))))
    as [role|] eqn:Hrole; simpl; rewrite ?Hch; simpl; rewrite ?Hrole; simpl;
    done.
Qed.

(** ** What an announcement carries *)

(** X21. The token of an event takes part in the assertion only: two
    events that differ in nothing but their tokens, both in the
    allow-list, lead to the same result, the same platform call and
    the same log records, so the token never reaches the channel. *)
Theorem X21_token_not_sent `{Builtins} (data data' : NotifyPayload) (w : World) :
  hostname data' = hostname data -> ip data' = ip data ->
  num_players data' = num_players data -> max_players data' = max_players data ->
  player_name data' = player_name data ->
  token data ∈ _valid_tokens (client w) ->
  token data' ∈ _valid_tokens (client w) ->
  _on_notify data' w = _on_notify data w.
Proof.
  intros Hh Hi Hn Hm Hp Ht Ht'.
  unfold _on_notify, bind, get, try_except, py_assert. simpl.
  rewrite Hh, Hi, Hn, Hm, Hp.
  by rewrite (bool_decide_eq_true_2 _ Ht), (bool_decide_eq_true_2 _ Ht').
Qed.

(** The sample event under two listed tokens. *)
Lemma X21_witness :
  @_on_notify sample_builtins (sample_payload "token2") world_ready
  = @_on_notify sample_builtins (sample_payload "token1") world_ready.
Proof.
  apply (@X21_token_not_sent sample_builtins (sample_payload "token1")
           (sample_payload "token2") world_ready); try reflexivity.
  - simpl. constructor.
  - simpl. right. left.
Defined.

(** ** Loading is local to the line *)

Lemma readlines_ends_lf (a : string) : readlines (a +:+ String LF "") <> [].
Proof.
  induction a as [|c a IH]; rewrite ?app_String, ?app_empty; simpl; [done|].
  destruct (Ascii.eqb c LF); [done|].
  by destruct (readlines (a +:+ String LF "")).
Qed.

Lemma readlines_app (a b : string) :
  readlines (a +:+ String LF b)
  = readlines (a +:+ String LF "") ++ readlines b.
Proof.
  induction a as [|c a IH]; rewrite ?app_String, ?app_empty; simpl; [done|].
  destruct (Ascii.eqb c LF); [by rewrite IH|].
  rewrite IH. pose proof (readlines_ends_lf a) as Hne.
  by destruct (readlines (a +:+ String LF "")).
Qed.

Lemma translate_newlines_app (b a : string) :
  translate_newlines (a +:+ String LF b)
  = translate_newlines (a +:+ String LF "") +:+ translate_newlines b
  /\ forall c,
       translate_newlines (String c a +:+ String LF b)
       = translate_newlines (String c a +:+ String LF "")
         +:+ translate_newlines b.
Proof.
  induction a as [|d a [IH1 IH2]].
  - split; [done|]. intros c. rewrite !app_String, !app_empty. simpl.
    destruct (Ascii.eqb c CR); by rewrite ?app_String, ?app_empty.
  - split; [apply IH2|]. intros c.
    specialize (IH2 d). rewrite !app_String in *. simpl.
    destruct (Ascii.eqb c CR).
    + destruct (Ascii.eqb d LF).
      * by rewrite IH1, app_String.
      * simpl in IH2. by rewrite IH2, app_String.
    + simpl in IH2. by rewrite IH2, app_String.
Qed.

Lemma translate_newlines_ends_lf (a : string) :
  (exists a', translate_newlines (a +:+ String LF "") = a' +:+ String LF "")
  /\ forall c,
       exists a', translate_newlines (String c a +:+ String LF "")
                  = a' +:+ String LF "".
Proof.
  induction a as [|d a [IH1 IH2]].
  - split; [by exists EmptyString|]. intros c.
    rewrite !app_String, !app_empty. simpl.
    destruct (Ascii.eqb c CR).
    + by exists EmptyString.
    + by exists (String c EmptyString).
  - split; [apply IH2|]. intros c.
    destruct (IH2 d) as [a2 Ha2]. destruct IH1 as [a1 Ha1].
    rewrite !app_String in *. simpl.
    destruct (Ascii.eqb c CR).
    + destruct (Ascii.eqb d LF).
      * exists (String LF a1). by rewrite Ha1.
      * simpl in Ha2. exists (String LF a2). by rewrite Ha2.
    + simpl in Ha2. exists (String c a2). by rewrite Ha2.
Qed.

(** X22. Loading is local to the line: the tokens of a text cut after
    any of its line feeds are the tokens of the part up to the cut
    followed by the tokens of the rest, in that order and with
    repetitions kept. *)
Theorem X22_tokens_line_local (a b : string) :
  _get_valid_tokens (a +:+ String LF b)
  = _get_valid_tokens (a +:+ String LF "") ++ _get_valid_tokens b.
Proof.
  unfold _get_valid_tokens. rewrite !tokens_loop_omap. simpl.
  rewrite (proj1 (translate_newlines_app b a)).
  destruct (proj1 (translate_newlines_ends_lf a)) as [a' ->].
  rewrite string_app_assoc, app_String, app_empty.
  by rewrite readlines_app, omap_app.
Qed.
